(* ===== verification/_CoqProject ===== *)
-Q . S2P
Prelude.v
PyString.v
Utf8.v
PyFloat.v
Frame.v
Cleaner.v
Header.v
Tokenizer.v
ByteTokenizer.v
Loader.v
Histogram.v
Sort.v
GroupBy.v
Stats.v
Pyplot.v
Styling.v
Script.v
Outputs.v
Examples.v
