(* ===== verification/Prelude.v ===== *)
(** * A verification development for [src/wine_analysis.py]

    The program.  [src/wine_analysis.py] is a 134-line batch script over
    pandas and matplotlib.  It runs once, top to bottom:
    - Styling (lines 14-15): [plt.style.use('seaborn-v0_8-whitegrid')] and
      [sns.set_palette('husl')] set matplotlib's [rcParams];
    - Loader (line 18): [pd.read_csv('data/Wine_Data.csv', sep=';')];
    - Cleaner (lines 19-24): the [Ticket] column is turned into floats by
      [.str.replace('€','').str.replace(',','.').str.strip().astype(float)],
      and seven categorical columns are stripped with [.str.strip()];
    - Aggregator (lines 28, 40, 52, 63, 74, 85, 113, 129, 133): three
      [pd.crosstab]s, two [value_counts()] rankings re-sorted and reversed,
      a grouped mean, a grouped [agg(['mean','count'])], the ordinal
      [Freq_num] column built with [Series.map(freq_map)], and the row
      percentages [payment_age.div(payment_age.sum(axis=1), axis=0) * 100];
    - Renderer (lines 27-121): eight charts of pyplot calls, [plt.figure],
      [DataFrame.plot], [Series.plot], [sns.heatmap], [plt.hist], titles and
      labels, [plt.savefig], [plt.close];
    - Reporter (lines 124-134): [print] of three rounded aggregates.
    The parts share one mutable object, the DataFrame [df], which the
    Cleaner and line 113 mutate and every later step reads, and one implicit
    global state, pyplot's registry of open figures, which every Renderer
    call reads or changes.  An exception anywhere ends the run; what was
    written or printed before stays.

    The library (files in dependency order, see [_CoqProject]):
    - [Prelude] (this file): the [result] error monad that models Python
      exceptions, its notation in [py_scope], its list traversal [mapM],
      counting lemmas on lists, and the hint database [wine].
    - [PyString] (Module [PyStr]): Python [str] as a list of code points;
      [str.isspace], [str.strip], [str.replace] (CPython's scan), and the
      lexicographic [str] order that sorts group keys.
    - [Utf8] (Module [Utf8]): the strict UTF-8 codec [read_csv] decodes
      the file with: the encoder of a code point and the decoder that
      accepts exactly the well-formed byte sequences of Unicode.
    - [PyFloat] (Modules [FloatParse], [FloatArith]): Python [float] values
      (exact rationals, infinities, NaN); the [float(str)] parser that
      [astype(float)] applies to each string, after CPython's
      [_Py_string_to_number_with_underscores] and [_Py_dg_strtod]; float
      addition, multiplication, division and [<], with the setoid equality
      [feq] and its [Proper] instances.
    - [Frame] (Module [Frame]): pandas cells, Series and DataFrames;
      [df[col]], [df[col] = s], the [.str] accessor, [astype(float)],
      [Series.map(dict)] and [dropna].
    - [Cleaner] (Module [Cleaner]): lines 19-24 and 105-113.
    - [Header] (Module [Header]): the names pandas gives the columns
      ([TextReader._get_header]): an empty header field becomes
      [Unnamed: i], and a repeated name [a] becomes [a.1], [a.2], ...,
      skipping names the header already has, through the [for] loop over
      [col_loop_order] and its inner [while] loop on a dict of counts
      ([gmap]).  [Loader.read_csv] names its columns with it.
    - [Tokenizer] (Module [Tokenizer]): the lexical pass of [pd.read_csv]
      (line 18), pandas' [tokenizer.c] as a state machine over characters
      ([tok_step], one constructor of [tstate] per state: quoted fields,
      doubled quotes, CR, LF and CRLF line ends, blank lines skipped,
      [EOF inside string]); the plain specification [split_rows] it
      refines; a quote-all writer for the round trip; the machine as a
      transition system with its [eventually] for the liveness theorem.
    - [ByteTokenizer] (Module [ByteTokenizer]): the same machine run on the
      bytes of the file, as pandas runs it, with [CHECK_FOR_BOM]; on the
      UTF-8 encoding of a text it simulates the code-point machine.
    - [Loader] (Module [Loader]): the reader of [pd.read_csv] over the
      tokenizer's rows ([read_csv] on code points, [read_csv_file] on the
      bytes of the file with the decoding of header and fields): the header row, the field count check and padding
      of [end_line] (a row after the first longer than the one before it
      raises), the implicit index a long first data row creates, the
      default [na_values] and the typing of each column as numbers
      ([xstrtod] or an [inf] word), booleans or text.
    - [Histogram] (Module [Histogram]): [np.histogram] as [plt.hist] calls
      it, with explicit edges (line 115) and with a bin count (line 96), and
      the two histograms of the script.
    - [Sort]: [sort_values] as a stable insertion sort (numpy's introsort
      is an insertion sort below 17 keys), generic in a Section.
    - [GroupBy] (Module [GroupBy]): [value_counts], the rankings of lines 52
      and 74, [pd.crosstab].
    - [Stats] (Module [Stats]): [groupby(...).mean()], [agg(['mean',
      'count'])], their sorts with NaN last, the row percentages of line
      133, and numpy's round half to even.
    - [Pyplot] (Module [Pyplot]): pyplot's registry of figures as explicit
      state; one definition per call the script makes, a command type and
      its [run]; the errors of the plotting calls on data without a cell:
      [DataFrame.plot] raises [TypeError] before it opens a figure, and
      [sns.heatmap] raises [ValueError] before it asks for the axes.
    - [Script] (Module [Script]): the whole run as a state and error monad
      over a [world] (pyplot's state and the printed lines); the eight
      charts as command lists; [script] composes Cleaner, Aggregator,
      Renderer and Reporter in source order, and [main] puts the Loader in
      front of it.
    - [Styling] (Module [Styling]): lines 14-15, [plt.style.use] and
      [sns.set_palette] as updates of [rcParams] (its entries as text), and
      the figure size read back from it.
    - [Outputs] (Module [Outputs]): the abstract specification of what a run
      leaves behind, a sequence of events ([savefig] of a file, [print]),
      a Hoare-style judgement [emits] on [Script.M] with its rule for
      [≫=], and the proof that [main] refines it.
    - [Examples] (Module [Examples]): small survey tables and files, the
      run evaluated on them, and the witnesses of the theorems.

    Modelling choices.
    - Python strings are lists of Unicode code points ([list Z]); the euro
      sign is code point 8364.  [str.strip] uses Python's whitespace set.
    - Floats are exact: a finite float is a rational [Q]; binary64 rounding
      and signed zero are not modelled, so results hold of the exact values
      the code computes in floating point.  Infinities and NaN are kept,
      since [float('nan')] and [float('inf')] are accepted by the code and
      an empty CSV cell reads as NaN.
    - Every Python exception is a value [Err e]; [Script.M] keeps, next to
      the exception, the world reached when it was raised.
    - Sorting follows numpy's small-input behaviour (stable); on 17 or more
      distinct keys pandas does not specify the order of ties, and only the
      theorems that do not depend on ties carry over.
    - Every recursion is structural on a list but one; the tokenizer is a
      [fold_left] of its one-character step.  The exception is the [while]
      loop of the header renaming, which runs on fuel: each of its turns
      but the last visits a name [a.k] already in the header, and these are
      distinct, so [length header + 2] turns per name are enough, which
      [Header.dedup_header_total] proves; the model never runs out of fuel.
    - The Loader starts from the bytes of the file ([Script.main] takes
      them), as integers in [[0, 256)]; opening the file is not modelled.
      The reader and its theorems are stated on code points
      ([Loader.read_csv]) and carried to the bytes by the refinement
      [Loader.read_csv_file_utf8].  pandas 2's default [na_values] are
      used, where [None] is a missing value.
    - pyplot's rc default figure size is a parameter of the state; the
      [Styling] model computes it from [rcParams] after lines 14-15.

    What the theorems show.
    - The effects ([Outputs]): on any input file and from any world, [main]
      writes a prefix of the eight images in source order and prints a
      prefix of its seven report lines after them, all fifteen when it
      returns normally; from a fresh process it writes only distinct files
      under [figures/] and prints nothing before the eighth image.
    - The run ([Script]): when cleaning succeeds, the tickets are finite
      and some row holds an age with each of the frequency, the payment
      mode and the product (so the three cross-tabulations have data), the
      eight images are written in order, the first two at the rc default
      size, not the (12, 5) of lines 27 and 39, whose figures stay open
      and empty, and the three blocks are printed; an empty ticket stops
      the run at line 96 after six images; a missing [figures/] stops it
      at the first [savefig]; a file with no row, or no row with both an
      age and a frequency, stops it at line 29 with [TypeError] before
      anything is written; no row with both an age and a product stops it
      at the heatmap of line 86 with [ValueError] after five images.
    - [Tokenizer]: on a file with no quote and no carriage return the
      tokenizer refines the plain specification (non-blank lines split at
      each semicolon); it reads back any table written with quoted fields;
      outside a quoted field every line end eventually brings it back to
      the start of a record, rows kept (liveness), while inside an open
      quote no line end does and the file ends with [EOF inside string].
    - Bytes ([Utf8], [ByteTokenizer], [Loader]): the decoder is exactly
      the inverse of the encoder on Unicode scalar values; on the UTF-8
      bytes of a text, the tokenizer and [read_csv] on bytes give what
      the code-point model gives, errors included; a field that is not
      UTF-8 (a Windows-1252 euro sign) raises [UnicodeDecodeError].
    - [Loader]: every column is of one type, numbers, booleans or text; when no row
      after the first is longer than the first, [read_csv] gives a
      well-formed frame with one row per data row and the renamed header
      names as its column names, and a longer row raises; a first data
      row longer than the header raises nothing but shifts every column
      (the implicit index), so [Ticket] reads the next field; no string
      cell spells a missing value ([None] is read as NaN); a [Ticket]
      column of plain numbers, or of [True]/[False], holds no string and
      line 19 then raises [AttributeError]; a file written with another delimiter is one
      column, and the run stops at line 19 with [KeyError 'Ticket'] before
      any figure or print.
    - [Cleaner]: the cleaning's effect on the frame (rows, columns, the
      cleaned [Ticket], the stripped columns), the ticket parse on every
      input form, including the [ValueError] of a thousands comma, the
      idempotence of the strip loop, and the [Freq_num] column.
    - Aggregates: the rankings of lines 52 and 74 count every non-null value
      once, ascending; [crosstab] counts every pair, with positive row
      totals, so no row of the percentages of line 133 divides by zero;
      the grouped means list each key once with the mean of its group,
      sorted with NaN last; rounding moves a value by at most half a
      unit.  Claims that hold only of exact rationals (a row of
      percentages summing to exactly 100, a mean between the group's
      bounds) are not stated, since binary64 breaks them.
    - [Header]: the renaming of the header always ends, gives one name
      per field, all of them distinct, and keeps every name that occurs
      once.
    - [Styling] has no theorem of its own: [Examples.rc_default] evaluates
      it on matplotlib's defaults to give the rc figure size (6.4, 4.8)
      the concrete runs use.
    - Histograms: numpy's searchsorted counts equal bin membership; with a
      bin count every finite value falls in a bin; line 115 draws the six
      labels of [freq_map] as bars at 1-6, code 7 at 6.
    - Python builtins: [strip] removes exactly the outer whitespace, the
      [replace] scan equals a per-character map, [float] reads back the
      decimal text of a natural number.

    The liveness theorem uses no fuel: [eventually] is an inductive
    predicate over the characters still to read, so a proof of it is a
    finite prefix of the input after which the state is reached.

    Not modelled.  The imports (lines 1-4); of the styling, what colours
    and fonts look like (the [husl] palette is a value, not computed).
    Of [pd.read_csv]: opening the file (I/O), options other than [sep]
    (the script passes no other), the labels of an implicit index (no
    line reads [df.index]), the chunked reading of files of more than a
    buffer of rows (the type inference and the order of errors per
    chunk) and float overflow in [xstrtod], which needs binary64
    floats.  Binary64 rounding itself: float values are exact
    rationals, so the theorems hold of the values the code computes
    exactly, and [Series.round] is exact round half to even.  Of the
    Renderer, pixels, layout and the rendering of the style (colours,
    fonts, DPI, [bbox_inches]) and style sheets other than the one
    line 14 names: the model keeps which figure each call draws on,
    its size, its content and the files written.  Of the Reporter, the
    textual layout [print] gives a pandas object, which depends on
    display options and float formatting heuristics; the model keeps
    the rounded values printed, in order. *)

From stdpp Require Export base list decidable.
From Stdlib Require Export ZArith QArith Lia Lqa.

(** ** The result monad: a Python computation that may raise *)

Inductive result (E A : Type) : Type :=
| Ok (a : A)
| Err (e : E).
Arguments Ok {E A} a.
Arguments Err {E A} e.

Declare Scope py_scope.
Delimit Scope py_scope with py.

Definition rbind {E A B} (c : result E A) (k : A -> result E B) : result E B :=
  match c with Ok a => k a | Err e => Err e end.

Notation "x <- c ;; k" := (rbind c (fun x => k))
  (at level 100, c at next level, right associativity) : py_scope.
Notation "c ;;; k" := (rbind c (fun _ => k))
  (at level 100, right associativity) : py_scope.

Open Scope py_scope.

Definition rmap {E A B} (f : A -> B) (c : result E A) : result E B :=
  match c with Ok a => Ok (f a) | Err e => Err e end.

(** [[f(x) for x in l]] where [f] may raise: the first exception wins. *)
Fixpoint mapM {E A B} (f : A -> result E B) (l : list A) : result E (list B) :=
  match l with
  | [] => Ok []
  | x :: l' => y <- f x ;; ys <- mapM f l' ;; Ok (y :: ys)
  end.

Definition is_ok {E A} (c : result E A) : bool :=
  match c with Ok _ => true | Err _ => false end.

(** ** Shared automation *)

Create HintDb wine.
Create Rewrite HintDb wine_rw.

Ltac invc H := inversion H; subst; clear H.

(** Split every [rbind] whose scrutinee is a match or a call. *)
Ltac destruct_rbind :=
  repeat match goal with
  | H : context [rbind ?c _] |- _ =>
      let E := fresh "E" in destruct c eqn:E; simpl in H
  | |- context [rbind ?c _] =>
      let E := fresh "E" in destruct c eqn:E; simpl
  end.

(** ** Generic lemmas on the monad *)

Lemma rbind_Ok {E A B} (c : result E A) (k : A -> result E B) (b : B) :
  rbind c k = Ok b <-> exists a, c = Ok a /\ k a = Ok b.
Proof.
  destruct c as [a|e]; simpl; split.
  - intros H. eauto.
  - intros (a' & H1 & H2). invc H1. exact H2.
  - discriminate.
  - intros (a' & H1 & _). discriminate.
Qed.

Lemma mapM_Ok_iff {E A B} (f : A -> result E B) (l : list A) (l' : list B) :
  mapM f l = Ok l' <-> Forall2 (fun x y => f x = Ok y) l l'.
Proof.
  revert l'. induction l as [|x l IH]; intros l'; simpl.
  - split; [intros H; invc H; constructor | intros H; invc H; reflexivity].
  - rewrite rbind_Ok. split.
    + intros (y & Hy & Hk). apply rbind_Ok in Hk as (ys & Hys & Hk). invc Hk.
      constructor; [exact Hy | apply IH; exact Hys].
    + intros H. invc H. eexists. split; [eassumption|].
      apply rbind_Ok. eexists. split; [apply IH; eassumption | reflexivity].
Qed.

Lemma mapM_length {E A B} (f : A -> result E B) (l : list A) (l' : list B) :
  mapM f l = Ok l' -> length l' = length l.
Proof.
  intros H. apply mapM_Ok_iff in H. symmetry. eapply Forall2_length. exact H.
Qed.

Lemma mapM_Err_iff {E A B} (f : A -> result E B) (l : list A) :
  is_ok (mapM f l) = false <-> exists x e, x ∈ l /\ f x = Err e.
Proof.
  induction l as [|x l IH]; simpl.
  - split; [discriminate | intros (? & ? & H & _); inversion H].
  - destruct (f x) as [y|e] eqn:Hx; simpl.
    + destruct (mapM f l) as [ys|e] eqn:Hl; simpl.
      * split; [discriminate|]. intros (z & e & Hz & He).
        apply elem_of_cons in Hz as [->|Hz]; [congruence|].
        assert (Hf : is_ok (Ok (E:=E) ys) = false) by (apply IH; eauto).
        discriminate.
      * split; [|reflexivity]. intros _.
        destruct (proj1 IH eq_refl) as (z & e' & Hz & He).
        exists z, e'. split; [by apply elem_of_cons; right|exact He].
    + split; [|reflexivity]. intros _. exists x, e. split; [left|exact Hx].
Qed.

Lemma mapM_map_Ok {E A B} (f : A -> B) (l : list A) :
  mapM (E:=E) (fun x => Ok (f x)) l = Ok (map f l).
Proof. induction l as [|x l IH]; simpl; [reflexivity|]. by rewrite IH. Qed.

(** ** Generic lemmas on lists *)

Lemma In_elem {A} (x : A) (l : list A) : In x l -> x ∈ l.
Proof. apply list_elem_of_In. Qed.

Lemma elem_In {A} (x : A) (l : list A) : x ∈ l -> In x l.
Proof. apply list_elem_of_In. Qed.

Lemma filter_length_pos {A} (P : A -> Prop) `{!forall x, Decision (P x)} (x : A) (l : list A) :
  x ∈ l -> P x -> (0 < length (filter P l))%nat.
Proof.
  intros Hx HP. assert (Hf : x ∈ filter P l) by (apply list_elem_of_filter; split; done).
  destruct (filter P l); [by apply not_elem_of_nil in Hf|simpl; lia].
Qed.

(** ** Counting *)

Lemma sum_list_perm (l l' : list nat) : l ≡ₚ l' -> sum_list l = sum_list l'.
Proof. induction 1; simpl; lia. Qed.

Lemma length_filter_cons {A} (P : A -> Prop) `{!forall x, Decision (P x)} x l :
  length (filter P (x :: l)) = ((if decide (P x) then 1 else 0) + length (filter P l))%nat.
Proof. rewrite filter_cons. by destruct (decide (P x)). Qed.

Lemma sum_list_map_add {A} (f g : A -> nat) l :
  sum_list (map (fun x => f x + g x)%nat l) = (sum_list (map f l) + sum_list (map g l))%nat.
Proof. induction l as [|x l IH]; simpl; lia. Qed.

Lemma sum_list_map_zero {A} (l : list A) : sum_list (map (fun _ => 0%nat) l) = 0%nat.
Proof. induction l; simpl; lia. Qed.

(** Summing an indicator over duplicate-free keys counts [q] once or not
    at all. *)
Lemma sum_indicator {A} `{EqDecision A} (q : A) cols :
  NoDup cols -> sum_list (map (fun c => if decide (q = c) then 1%nat else 0%nat) cols) =
                if decide (q ∈ cols) then 1%nat else 0%nat.
Proof.
  induction 1 as [|c cols Hc Hnd IH]; simpl.
  - reflexivity.
  - rewrite IH. clear IH. destruct (decide (q = c)) as [->|Hne].
    + rewrite (decide_False (P := c ∈ cols)) by done.
      rewrite (decide_True (P := c ∈ c :: cols)) by (by left). reflexivity.
    + destruct (decide (q ∈ cols)) as [Hin|Hnin].
      * rewrite (decide_True (P := q ∈ c :: cols)) by (by right). reflexivity.
      * rewrite (decide_False (P := q ∈ c :: cols)); [reflexivity|]. rewrite elem_of_cons. tauto.
Qed.

(** Normalise a membership hypothesis to stdpp's [∈] (Stdlib's and stdpp's
    [Forall_forall] state membership differently). *)
Ltac to_elem H := first [apply In_elem in H | idtac].

#[export] Hint Resolve mapM_length In_elem elem_In : wine.
#[export] Hint Rewrite @mapM_map_Ok : wine_rw.
