(* ===== verification/PyString.v ===== *)
(** * Python [str]: the string operations the cleaning code calls

    A Python [str] is a sequence of Unicode code points; here a [list Z].
    This file models [str.isspace] (CPython's [Py_UNICODE_ISSPACE]),
    [str.strip()] with no argument, [str.replace(old, new)] with no count,
    and the lexicographic order [<] on [str] that pandas uses to sort group
    keys.  Script lines 19 and 24 apply them element-wise through the
    pandas [.str] accessor (see [Frame]). *)

From S2P Require Import Prelude.
From Stdlib Require Strings.String Strings.Ascii.
Import Stdlib.Strings.String.StringSyntax.

Abbreviation pystr := (list Z).

Module PyStr.

Local Open Scope Z_scope.

(** A Rocq ASCII literal as a Python [str]; used for column names and
    the constants of the script. *)
Definition py (s : String.string) : pystr :=
  map (fun a => Z.of_nat (Ascii.nat_of_ascii a)) (String.list_ascii_of_string s).
Arguments py s%_string_scope.

(** The euro sign U+20AC of line 19. *)
Definition euro : Z := 8364.

(** [Py_UNICODE_ISSPACE]: the code points with bidirectional type WS, B
    or S, or category Zs. *)
Definition isspace (c : Z) : bool :=
  ((9 <=? c) && (c <=? 13)) || ((28 <=? c) && (c <=? 32)) || (c =? 133) ||
  (c =? 160) || (c =? 5760) || ((8192 <=? c) && (c <=? 8202)) ||
  (c =? 8232) || (c =? 8233) || (c =? 8239) || (c =? 8287) || (c =? 12288).

Fixpoint drop_space (s : pystr) : pystr :=
  match s with
  | c :: r => if isspace c then drop_space r else s
  | [] => []
  end.

(** [str.lstrip()], [str.rstrip()] and [str.strip()]: CPython's [do_strip]
    advances [i] from the left and [j] from the right past whitespace and
    returns [s[i:j]]. *)
Definition lstrip (s : pystr) : pystr := drop_space s.
Definition rstrip (s : pystr) : pystr := rev (drop_space (rev s)).
Definition strip (s : pystr) : pystr := rstrip (lstrip s).

Fixpoint prefixb (p s : pystr) : bool :=
  match p, s with
  | [], _ => true
  | x :: p', y :: s' => (x =? y) && prefixb p' s'
  | _ :: _, [] => false
  end.

(** The left-to-right scan of [str.replace] for a non-empty [old]: at each
    position, an occurrence of [old] is replaced and the scan resumes after
    it ([skip] counts the code points of [old] still to pass over). *)
Fixpoint replace_go (old new : pystr) (skip : nat) (s : pystr) : pystr :=
  match s with
  | [] => []
  | c :: r =>
      match skip with
      | S k => replace_go old new k r
      | O => if prefixb old s then new ++ replace_go old new (pred (length old)) r
             else c :: replace_go old new O r
      end
  end.

(** [str.replace(old, new)]; an empty [old] inserts [new] around every
    code point, as CPython does. *)
Definition replace (old new s : pystr) : pystr :=
  match old with
  | [] => new ++ mjoin ((fun c => c :: new) <$> s)
  | _ :: _ => replace_go old new O s
  end.

(** [str.__lt__]: code-point lexicographic order, a proper prefix first. *)
Fixpoint ltb (a b : pystr) : bool :=
  match a, b with
  | [], _ :: _ => true
  | x :: a', y :: b' => if x =? y then ltb a' b' else x <? y
  | _, _ => false
  end.

(** The reference meaning of replacing a single code point. *)
Definition replace_char_ref (c : Z) (new s : pystr) : pystr :=
  mjoin ((fun x => if x =? c then new else [x]) <$> s).

(** ** Strip *)

Lemma drop_space_suffix s : exists pre, s = pre ++ drop_space s /\ Forall (fun c => isspace c = true) pre.
Proof.
  induction s as [|c r IH]; simpl.
  - exists []. split; [reflexivity | constructor].
  - destruct (isspace c) eqn:Hc.
    + destruct IH as (pre & Hr & Hpre). exists (c :: pre). split.
      * simpl. by rewrite <- Hr.
      * by constructor.
    + exists []. split; [reflexivity | constructor].
Qed.

Lemma drop_space_head s c r : drop_space s = c :: r -> isspace c = false.
Proof.
  induction s as [|x s IH]; simpl; [discriminate|].
  destruct (isspace x) eqn:Hx; [exact IH|]. intros H. by invc H.
Qed.

Lemma drop_space_idem s : drop_space (drop_space s) = drop_space s.
Proof.
  destruct (drop_space s) as [|c r] eqn:E; [reflexivity|].
  simpl. by rewrite (drop_space_head _ _ _ E).
Qed.

Lemma drop_space_app_nospace pre s :
  Forall (fun c => isspace c = true) pre ->
  drop_space (pre ++ s) = drop_space s.
Proof. induction 1 as [|c pre Hc _ IH]; simpl; [reflexivity|]. by rewrite Hc. Qed.

Lemma drop_space_id s :
  (forall c r, s = c :: r -> isspace c = false) -> drop_space s = s.
Proof. destruct s as [|c r]; simpl; [reflexivity|]. intros H. by rewrite (H c r). Qed.

(** No leading (resp. trailing) whitespace. *)
Definition no_lead_space (s : pystr) : Prop := forall c r, s = c :: r -> isspace c = false.
Definition no_trail_space (s : pystr) : Prop := forall r c, s = r ++ [c] -> isspace c = false.

Lemma no_lead_space_rev s : no_trail_space s <-> no_lead_space (rev s).
Proof.
  split.
  - intros H c r Hs. apply (H (rev r)). by rewrite <- (rev_involutive s), Hs.
  - intros H r c ->. apply (H c (rev r)). by rewrite rev_app_distr.
Qed.

Lemma no_lead_space_app s t : s <> [] -> no_lead_space s -> no_lead_space (s ++ t).
Proof. destruct s as [|x s]; [done|]. intros _ H c r Hs. invc Hs. by apply (H c s). Qed.

Lemma drop_space_no_lead s : no_lead_space (drop_space s).
Proof. intros c r. apply drop_space_head. Qed.

Lemma Forall_space_rev (l : pystr) :
  Forall (fun c => isspace c = true) l -> Forall (fun c => isspace c = true) (rev l).
Proof. intros H. apply Forall_rev. exact H. Qed.

Lemma no_lead_space_app_inv s t : s <> [] -> no_lead_space (s ++ t) -> no_lead_space s.
Proof. intros _ H c r ->. apply (H c (r ++ t)). reflexivity. Qed.

Lemma strip_id s : no_lead_space s -> no_trail_space s -> strip s = s.
Proof.
  intros Hl Ht. unfold strip, lstrip, rstrip.
  rewrite (drop_space_id s Hl).
  rewrite (drop_space_id (rev s)); [apply rev_involutive|].
  by apply no_lead_space_rev.
Qed.

(** The result of [strip] has no outer whitespace. *)
Lemma strip_no_outer s : no_lead_space (strip s) /\ no_trail_space (strip s).
Proof.
  unfold strip, lstrip, rstrip. split.
  - destruct (drop_space_suffix (rev (drop_space s))) as (pre2 & Ht & _).
    set (u := drop_space (rev (drop_space s))) in *.
    assert (Hsplit : drop_space s = rev u ++ rev pre2).
    { by rewrite <- rev_app_distr, <- Ht, rev_involutive. }
    destruct (rev u) as [|x r] eqn:Hu; [intros ?? Hc; discriminate|].
    apply (no_lead_space_app_inv _ (rev pre2)); [discriminate|].
    rewrite <- Hsplit. apply drop_space_no_lead.
  - apply no_lead_space_rev. rewrite rev_involutive. apply drop_space_no_lead.
Qed.

(** [s.strip()] removes exactly the whitespace around
    [s]: [s] is [pre ++ s.strip() ++ post] with [pre] and [post] made of
    whitespace, and the result neither starts nor ends with whitespace. *)
Theorem strip_spec s :
  exists pre post : pystr, s = pre ++ strip s ++ post /\
    Forall (fun c => isspace c = true) pre /\
    Forall (fun c => isspace c = true) post /\
    no_lead_space (strip s) /\ no_trail_space (strip s).
Proof.
  destruct (drop_space_suffix s) as (pre & Hs & Hpre).
  destruct (drop_space_suffix (rev (drop_space s))) as (pre2 & Ht & Hpre2).
  exists pre, (rev pre2). split_and!; [|exact Hpre|by apply Forall_rev|apply strip_no_outer..].
  unfold strip, lstrip, rstrip.
  set (u := drop_space (rev (drop_space s))) in *.
  assert (Hsplit : drop_space s = rev u ++ rev pre2).
  { by rewrite <- rev_app_distr, <- Ht, rev_involutive. }
  rewrite Hs at 1. by rewrite Hsplit.
Qed.

(** Stripping is idempotent: trimming an already-trimmed value returns it. *)
Lemma strip_idempotent s : strip (strip s) = strip s.
Proof. destruct (strip_no_outer s) as [Hl Ht]. by apply strip_id. Qed.

Lemma drop_space_all l : Forall (fun c => isspace c = true) l -> drop_space l = [].
Proof. induction 1 as [|c l Hc _ IH]; simpl; [reflexivity|]. by rewrite Hc. Qed.

(** Whitespace padding around a string without outer whitespace is what
    [strip] removes. *)
Lemma strip_pad pre x post :
  Forall (fun c => isspace c = true) pre -> Forall (fun c => isspace c = true) post ->
  no_lead_space x -> no_trail_space x -> strip (pre ++ x ++ post) = x.
Proof.
  intros Hpre Hpost Hl Ht. unfold strip, lstrip, rstrip.
  rewrite drop_space_app_nospace by exact Hpre.
  destruct x as [|c r].
  - simpl. rewrite (drop_space_all post) by exact Hpost.
    reflexivity.
  - rewrite (drop_space_id ((c :: r) ++ post)) by (intros c' r' Hx; invc Hx; by apply (Hl c' r)).
    rewrite rev_app_distr, drop_space_app_nospace by (by apply Forall_rev).
    rewrite drop_space_id; [apply rev_involutive|]. by apply no_lead_space_rev.
Qed.

Lemma strip_nospace x : Forall (fun c => isspace c = false) x -> strip x = x.
Proof.
  intros H. apply strip_id.
  - intros c r ->. by invc H.
  - intros r c ->. apply Forall_app in H as [_ H]. by invc H.
Qed.

(** ** Replace *)

Lemma replace_char_ref_cons c new x r :
  replace_char_ref c new (x :: r) = (if x =? c then new else [x]) ++ replace_char_ref c new r.
Proof. reflexivity. Qed.

Lemma replace_go_char c new s :
  replace_go [c] new O s = replace_char_ref c new s.
Proof.
  induction s as [|x r IH]; [reflexivity|].
  rewrite replace_char_ref_cons. simpl.
  rewrite andb_true_r, Z.eqb_sym. destruct (x =? c); simpl; by rewrite IH.
Qed.

(** The scan of [str.replace] with a
    one-code-point pattern equals the reference definition that maps each
    code point [x] to [new] when [x = c] and to [x] otherwise. *)
Theorem replace_char_correct c new s :
  replace [c] new s = replace_char_ref c new s.
Proof. apply replace_go_char. Qed.

Lemma replace_char_ref_elem c new s x :
  x ∈ replace_char_ref c new s <-> (x ∈ s /\ x <> c) \/ (c ∈ s /\ x ∈ new).
Proof.
  unfold replace_char_ref. rewrite list_elem_of_join. split.
  - intros (l & Hx & Hl). apply list_elem_of_fmap in Hl as (y & -> & Hy).
    destruct (Z.eqb_spec y c) as [Heq|Hne].
    + subst y. by right.
    + apply list_elem_of_singleton in Hx. subst x. by left.
  - intros [[Hx Hne]|[Hc Hx]].
    + exists [x]. split; [by apply list_elem_of_singleton|].
      apply list_elem_of_fmap. exists x. split; [|exact Hx].
      by destruct (Z.eqb_spec x c).
    + exists new. split; [exact Hx|]. apply list_elem_of_fmap. exists c.
      by rewrite Z.eqb_refl.
Qed.

(** After [s.replace(c, new)] with [c] not in [new], no [c] is left. *)
Lemma replace_char_removes c new s : c ∉ new -> c ∉ replace [c] new s.
Proof.
  intros Hn Hc. unfold replace in Hc. rewrite replace_go_char, replace_char_ref_elem in Hc.
  destruct Hc as [[_ Hne]|[_ Hin]]; [by apply Hne | by apply Hn].
Qed.

Lemma replace_char_ref_app c new s t :
  replace_char_ref c new (s ++ t) = replace_char_ref c new s ++ replace_char_ref c new t.
Proof. unfold replace_char_ref. by rewrite fmap_app, join_app. Qed.

Lemma replace_char_ref_notin c new s : c ∉ s -> replace_char_ref c new s = s.
Proof.
  induction s as [|x r IH]; intros Hc; [reflexivity|].
  rewrite replace_char_ref_cons. rewrite not_elem_of_cons in Hc.
  destruct Hc as [Hne Hr]. destruct (Z.eqb_spec x c) as [Heq|_]; [congruence|].
  simpl. by rewrite IH.
Qed.

(** ** The order on [str] *)

Lemma ltb_irrefl a : ltb a a = false.
Proof. induction a as [|x a IH]; simpl; [reflexivity|]. by rewrite Z.eqb_refl. Qed.

Lemma ltb_trans a b c : ltb a b = true -> ltb b c = true -> ltb a c = true.
Proof.
  revert b c. induction a as [|x a IH]; intros [|y b] [|z c]; simpl; try done.
  destruct (Z.eqb_spec x y) as [->|Hxy], (Z.eqb_spec y z) as [->|Hyz];
    rewrite ?Z.eqb_refl; intros H1 H2.
  - by apply (IH b).
  - exact H2.
  - rewrite (proj2 (Z.eqb_neq x z) Hxy). exact H1.
  - apply Z.ltb_lt in H1, H2. rewrite (proj2 (Z.eqb_neq x z)) by lia. apply Z.ltb_lt. lia.
Qed.

Lemma ltb_total a b : a <> b -> ltb a b = true \/ ltb b a = true.
Proof.
  revert b. induction a as [|x a IH]; intros [|y b] Hne; simpl.
  - by destruct Hne.
  - by left.
  - by right.
  - rewrite (Z.eqb_sym y x). destruct (Z.eqb_spec x y) as [->|Hxy].
    + apply IH. congruence.
    + destruct (Z.ltb_spec x y); [by left|]. right. apply Z.ltb_lt. lia.
Qed.

Lemma ltb_asym a b : ltb a b = true -> ltb b a = false.
Proof.
  intros H. destruct (ltb b a) eqn:H'; [|reflexivity].
  pose proof (ltb_trans _ _ _ H H') as Ha. by rewrite ltb_irrefl in Ha.
Qed.

End PyStr.
