(* ===== verification/Utf8.v ===== *)
(** * UTF-8: how the bytes of the data file become code points

    The C engine of [pd.read_csv] (script line 18) opens a path given with
    the default [encoding='utf-8'] in binary mode and tokenizes its bytes;
    each field is decoded afterwards with the strict UTF-8 codec
    ([encoding_errors='strict']).  This file models that codec on bytes
    as integers in [[0, 256)]: the encoder of CPython's [unicodeobject.c]
    and its decoder, which accepts exactly the well-formed sequences of the
    Unicode standard (table 3-7): no overlong form, no surrogate, nothing
    above U+10FFFF, no truncated sequence.  The main lemma characterises
    the decoder as the inverse of the encoder on valid code points. *)

From S2P Require Import Prelude PyString.

Module Utf8.
Local Open Scope Z_scope.

(** A Unicode scalar value: a code point that is not a surrogate. *)
Definition valid (c : Z) : Prop := 0 <= c <= 1114111 /\ ~ (55296 <= c <= 57343).

#[export] Instance valid_dec c : Decision (valid c).
Proof. unfold valid. apply _. Defined.

(** The bytes of one code point: [ch], [0xc0 | ch >> 6, 0x80 | ch & 0x3f],
    and so on, written arithmetically. *)
Definition utf8_char (c : Z) : list Z :=
  if c <? 128 then [c]
  else if c <? 2048 then [192 + c / 64; 128 + c mod 64]
  else if c <? 65536 then [224 + c / 4096; 128 + (c / 64) mod 64; 128 + c mod 64]
  else [240 + c / 262144; 128 + (c / 4096) mod 64; 128 + (c / 64) mod 64; 128 + c mod 64].

(** [str.encode('utf-8')]. *)
Definition utf8_encode (s : pystr) : list Z := concat (map utf8_char s).

Definition in_range (lo hi b : Z) : bool := (lo <=? b) && (b <=? hi).

(** A continuation byte, [10xxxxxx]. *)
Definition cont (b : Z) : bool := in_range 128 191 b.

(** The range of the byte after a three-byte lead: no overlong form after
    [0xe0], no surrogate after [0xed]. *)
Definition second3 (b0 : Z) : Z * Z :=
  if b0 =? 224 then (160, 191) else if b0 =? 237 then (128, 159) else (128, 191).

(** After a four-byte lead: no overlong form after [0xf0], nothing above
    U+10FFFF after [0xf4]. *)
Definition second4 (b0 : Z) : Z * Z :=
  if b0 =? 240 then (144, 191) else if b0 =? 244 then (128, 143) else (128, 191).

(** [bytes.decode('utf-8')] with [errors='strict']: [None] is the
    [UnicodeDecodeError]. *)
Fixpoint utf8_decode (bs : list Z) : option pystr :=
  match bs with
  | [] => Some []
  | b0 :: r0 =>
      if in_range 0 127 b0 then cons b0 <$> utf8_decode r0
      else if in_range 194 223 b0 then
        match r0 with
        | b1 :: r1 =>
            if cont b1 then cons ((b0 - 192) * 64 + (b1 - 128)) <$> utf8_decode r1 else None
        | [] => None
        end
      else if in_range 224 239 b0 then
        match r0 with
        | b1 :: b2 :: r2 =>
            if in_range (fst (second3 b0)) (snd (second3 b0)) b1 && cont b2
            then cons ((b0 - 224) * 4096 + (b1 - 128) * 64 + (b2 - 128)) <$> utf8_decode r2
            else None
        | _ => None
        end
      else if in_range 240 244 b0 then
        match r0 with
        | b1 :: b2 :: b3 :: r3 =>
            if in_range (fst (second4 b0)) (snd (second4 b0)) b1 && cont b2 && cont b3
            then cons ((b0 - 240) * 262144 + (b1 - 128) * 4096 + (b2 - 128) * 64 + (b3 - 128))
                   <$> utf8_decode r3
            else None
        | _ => None
        end
      else None
  end.

(** ** Lemmas *)

Lemma utf8_encode_app s1 s2 : utf8_encode (s1 ++ s2) = utf8_encode s1 ++ utf8_encode s2.
Proof. unfold utf8_encode. by rewrite map_app, concat_app. Qed.

Lemma utf8_encode_cons c s : utf8_encode (c :: s) = utf8_char c ++ utf8_encode s.
Proof. reflexivity. Qed.

Lemma utf8_char_ascii c : 0 <= c < 128 -> utf8_char c = [c].
Proof. intros Hc. unfold utf8_char. by rewrite (proj2 (Z.ltb_lt _ _)) by lia. Qed.

Lemma in_range_t lo hi b : lo <= b <= hi -> in_range lo hi b = true.
Proof. intros. unfold in_range. apply andb_true_intro. split; apply Z.leb_le; lia. Qed.

Lemma in_range_f lo hi b : b < lo \/ hi < b -> in_range lo hi b = false.
Proof.
  intros H. unfold in_range. destruct (Z.leb_spec lo b), (Z.leb_spec b hi); simpl; auto; lia.
Qed.

Lemma in_range_spec lo hi b : in_range lo hi b = true <-> lo <= b <= hi.
Proof. unfold in_range. rewrite andb_true_iff, !Z.leb_le. done. Qed.

(** The base-64 digits of a code point. *)
Lemma digit64 c : 0 <= c -> c = 64 * (c / 64) + c mod 64 /\ 0 <= c mod 64 < 64 /\ 0 <= c / 64.
Proof. intros. split; [apply Z.div_mod; lia|]. split; [apply Z.mod_pos_bound; lia|]. apply Z.div_pos; lia. Qed.

Ltac digits c q d :=
  destruct (digit64 c) as (?Hq & ?Hd & ?Hq0); [lia|];
  set (q := c / 64) in *; set (d := c mod 64) in *; clearbody q d.

Ltac rng := first [rewrite in_range_t by lia | rewrite in_range_f by lia].

(** One valid code point decodes back from its bytes. *)
Lemma utf8_decode_char c r :
  valid c -> utf8_decode (utf8_char c ++ r) = cons c <$> utf8_decode r.
Proof.
  intros [Hc Hs]. unfold utf8_char.
  destruct (Z.ltb_spec c 128).
  { simpl. by rewrite in_range_t by lia. }
  destruct (Z.ltb_spec c 2048).
  { digits c q d. cbn [app utf8_decode]. unfold cont.
    rewrite in_range_f, in_range_t, in_range_t by lia. do 2 f_equal. lia. }
  replace (c / 4096) with (c / 64 / 64) by (rewrite Z.div_div by lia; reflexivity).
  replace (c / 262144) with (c / 64 / 64 / 64) by (rewrite !Z.div_div by lia; reflexivity).
  digits c q d. digits q q2 d2.
  destruct (Z.ltb_spec c 65536).
  { cbn [app utf8_decode]. unfold cont.
    rewrite in_range_f, in_range_f, in_range_t by lia.
    unfold second3. cbn [fst snd].
    destruct (Z.eqb_spec (224 + q2) 224); [|destruct (Z.eqb_spec (224 + q2) 237)]; cbn [fst snd];
      rewrite in_range_t, in_range_t by lia; simpl; do 2 f_equal; lia. }
  digits q2 q3 d3.
  cbn [app utf8_decode]. unfold cont.
  rewrite in_range_f, in_range_f, in_range_f, in_range_t by lia.
  unfold second4.
  destruct (Z.eqb_spec (240 + q3) 240); [|destruct (Z.eqb_spec (240 + q3) 244)]; cbn [fst snd];
    rewrite in_range_t, in_range_t, in_range_t by lia; simpl; do 2 f_equal; lia.
Qed.

Lemma utf8_decode_encode s : Forall valid s -> utf8_decode (utf8_encode s) = Some s.
Proof.
  induction 1 as [|c s Hc _ IH]; [done|].
  by rewrite utf8_encode_cons, utf8_decode_char, IH.
Qed.

Lemma div_mod64 a b : 0 <= b < 64 -> (64 * a + b) / 64 = a /\ (64 * a + b) mod 64 = b.
Proof.
  intros Hb. split.
  - rewrite Z.add_comm, Z.mul_comm, Z.div_add by lia. rewrite Z.div_small by lia. lia.
  - rewrite Z.add_comm, Z.mul_comm, Z.mod_add by lia. by apply Z.mod_small.
Qed.

(** The bytes a decoded sequence came from are those of its code point. *)
Lemma utf8_char_2 b0 b1 :
  194 <= b0 <= 223 -> 128 <= b1 <= 191 ->
  utf8_char ((b0 - 192) * 64 + (b1 - 128)) = [b0; b1].
Proof.
  intros H0 H1. replace ((b0 - 192) * 64 + (b1 - 128)) with (64 * (b0 - 192) + (b1 - 128)) by lia.
  destruct (div_mod64 (b0 - 192) (b1 - 128)) as [Hq Hr]; [lia|].
  unfold utf8_char. rewrite Hq, Hr.
  destruct (Z.ltb_spec (64 * (b0 - 192) + (b1 - 128)) 128); [lia|].
  destruct (Z.ltb_spec (64 * (b0 - 192) + (b1 - 128)) 2048); [|lia]. do 2 f_equal; lia.
Qed.

Lemma utf8_char_3 b0 b1 b2 c :
  c = (b0 - 224) * 4096 + (b1 - 128) * 64 + (b2 - 128) ->
  224 <= b0 <= 239 -> 128 <= b1 <= 191 -> 128 <= b2 <= 191 -> 2048 <= c ->
  utf8_char c = [b0; b1; b2].
Proof.
  intros -> H0 H1 H2 Hc.
  replace ((b0 - 224) * 4096 + (b1 - 128) * 64 + (b2 - 128))
    with (64 * (64 * (b0 - 224) + (b1 - 128)) + (b2 - 128)) in * by lia.
  destruct (div_mod64 (64 * (b0 - 224) + (b1 - 128)) (b2 - 128)) as [Hq Hr]; [lia|].
  destruct (div_mod64 (b0 - 224) (b1 - 128)) as [Hq2 Hr2]; [lia|].
  unfold utf8_char.
  replace ((64 * (64 * (b0 - 224) + (b1 - 128)) + (b2 - 128)) / 4096)
    with ((64 * (64 * (b0 - 224) + (b1 - 128)) + (b2 - 128)) / 64 / 64)
    by (rewrite Z.div_div by lia; reflexivity).
  rewrite Hq, Hr, Hq2, Hr2.
  destruct (Z.ltb_spec (64 * (64 * (b0 - 224) + (b1 - 128)) + (b2 - 128)) 128); [lia|].
  destruct (Z.ltb_spec (64 * (64 * (b0 - 224) + (b1 - 128)) + (b2 - 128)) 2048); [lia|].
  destruct (Z.ltb_spec (64 * (64 * (b0 - 224) + (b1 - 128)) + (b2 - 128)) 65536); [|lia].
  repeat f_equal; lia.
Qed.

Lemma utf8_char_4 b0 b1 b2 b3 c :
  c = (b0 - 240) * 262144 + (b1 - 128) * 4096 + (b2 - 128) * 64 + (b3 - 128) ->
  240 <= b0 <= 244 -> 128 <= b1 <= 191 -> 128 <= b2 <= 191 -> 128 <= b3 <= 191 -> 65536 <= c ->
  utf8_char c = [b0; b1; b2; b3].
Proof.
  intros -> H0 H1 H2 H3 Hc.
  set (x := 64 * (64 * (b0 - 240) + (b1 - 128)) + (b2 - 128)).
  replace ((b0 - 240) * 262144 + (b1 - 128) * 4096 + (b2 - 128) * 64 + (b3 - 128))
    with (64 * x + (b3 - 128)) in * by (unfold x; lia).
  destruct (div_mod64 x (b3 - 128)) as [Hq Hr]; [lia|].
  destruct (div_mod64 (64 * (b0 - 240) + (b1 - 128)) (b2 - 128)) as [Hq2 Hr2]; [lia|].
  destruct (div_mod64 (b0 - 240) (b1 - 128)) as [Hq3 Hr3]; [lia|].
  unfold utf8_char.
  replace ((64 * x + (b3 - 128)) / 4096) with ((64 * x + (b3 - 128)) / 64 / 64)
    by (rewrite Z.div_div by lia; reflexivity).
  replace ((64 * x + (b3 - 128)) / 262144) with ((64 * x + (b3 - 128)) / 64 / 64 / 64)
    by (rewrite !Z.div_div by lia; reflexivity).
  rewrite Hq. unfold x. rewrite Hq2, Hr2, Hq3, Hr3. fold x. rewrite Hr.
  destruct (Z.ltb_spec (64 * x + (b3 - 128)) 128); [lia|].
  destruct (Z.ltb_spec (64 * x + (b3 - 128)) 2048); [lia|].
  destruct (Z.ltb_spec (64 * x + (b3 - 128)) 65536); [lia|].
  repeat f_equal; lia.
Qed.

Ltac decode_tail IH r :=
  lazymatch goal with
  | |- context [utf8_decode r] =>
      destruct (utf8_decode r) as [?s1|] eqn:?Hr; [|done]; intros [= <-];
      destruct (IH r ltac:(simpl; lia) _ ltac:(eassumption)) as [?Hv ?He]
  end.

(** Whatever the decoder accepts is the encoding of valid code points. *)
Lemma utf8_decode_sound bs s : utf8_decode bs = Some s -> Forall valid s /\ utf8_encode s = bs.
Proof.
  revert s. induction bs as [bs IH] using (induction_ltof1 _ (@length Z)); unfold ltof in IH.
  intros s. destruct bs as [|b0 r0]; cbn [utf8_decode]; [intros [= <-]; done|].
  destruct (in_range 0 127 b0) eqn:H0.
  { decode_tail IH r0. apply in_range_spec in H0.
    split; [constructor; [unfold valid; lia|done]|]. rewrite utf8_encode_cons, He, utf8_char_ascii by lia. done. }
  destruct (in_range 194 223 b0) eqn:H1.
  { destruct r0 as [|b1 r1]; [done|]. destruct (cont b1) eqn:Hb1; [|done].
    decode_tail IH r1. apply in_range_spec in H1, Hb1.
    split; [constructor; [unfold valid; lia|done]|]. rewrite utf8_encode_cons, He, utf8_char_2 by lia. done. }
  destruct (in_range 224 239 b0) eqn:H2.
  { destruct r0 as [|b1 [|b2 r2]]; try done.
    destruct (in_range _ _ b1) eqn:Hb1, (cont b2) eqn:Hb2; try done. cbn [andb].
    decode_tail IH r2. apply in_range_spec in H2, Hb2. apply in_range_spec in Hb1.
    apply not_true_iff_false in H0, H1. rewrite in_range_spec in H0, H1.
    unfold second3 in Hb1.
    assert (Hrange : 2048 <= (b0 - 224) * 4096 + (b1 - 128) * 64 + (b2 - 128) <= 65535 /\
      ~ (55296 <= (b0 - 224) * 4096 + (b1 - 128) * 64 + (b2 - 128) <= 57343)).
    { destruct (Z.eqb_spec b0 224); [|destruct (Z.eqb_spec b0 237)]; cbn [fst snd] in Hb1; lia. }
    split; [constructor; [unfold valid; lia|done]|].
    rewrite utf8_encode_cons, He, (utf8_char_3 b0 b1 b2); try done; try lia.
    destruct (Z.eqb_spec b0 224); [|destruct (Z.eqb_spec b0 237)]; cbn [fst snd] in Hb1; lia. }
  destruct (in_range 240 244 b0) eqn:H3; [|done].
  destruct r0 as [|b1 [|b2 [|b3 r3]]]; try done.
  destruct (in_range _ _ b1) eqn:Hb1, (cont b2) eqn:Hb2, (cont b3) eqn:Hb3; try done. cbn [andb].
  decode_tail IH r3. apply in_range_spec in H3, Hb2, Hb3. apply in_range_spec in Hb1.
  unfold second4 in Hb1.
  assert (Hrange : 65536 <= (b0 - 240) * 262144 + (b1 - 128) * 4096 + (b2 - 128) * 64 + (b3 - 128) <= 1114111).
  { destruct (Z.eqb_spec b0 240); [|destruct (Z.eqb_spec b0 244)]; cbn [fst snd] in Hb1; lia. }
  split; [constructor; [unfold valid; lia|done]|].
  rewrite utf8_encode_cons, He, (utf8_char_4 b0 b1 b2 b3); try done; try lia.
  all: destruct (Z.eqb_spec b0 240); [|destruct (Z.eqb_spec b0 244)]; cbn [fst snd] in Hb1; lia.
Qed.

(** A code point outside ASCII is encoded by bytes outside ASCII only, so
    no byte of it is a delimiter, a quote, a line end or a blank. *)
Lemma utf8_char_high c :
  valid c -> 128 <= c -> utf8_char c <> [] /\ Forall (fun b => 128 <= b) (utf8_char c).
Proof.
  intros [Hc _] H. unfold utf8_char. split.
  - repeat case_match; discriminate.
  - destruct (Z.ltb_spec c 128); [lia|].
    pose proof (Z.mod_pos_bound c 64). pose proof (Z.mod_pos_bound (c / 64) 64).
    pose proof (Z.mod_pos_bound (c / 4096) 64). pose proof (Z.div_pos c 64).
    pose proof (Z.div_pos c 4096). pose proof (Z.div_pos c 262144).
    repeat case_match; repeat constructor; lia.
Qed.

(** ** Properties *)

(** C22: The strict UTF-8 decoder [read_csv] applies to the bytes of the
    file is exactly the inverse of the encoder: a byte string decodes, and
    to [s], if and only if it is the UTF-8 encoding of [s] and [s] holds
    Unicode scalar values only; overlong forms, surrogates, code points
    above U+10FFFF, stray continuation bytes and truncated sequences are
    all rejected. *)
Theorem utf8_decode_spec bs s : utf8_decode bs = Some s <-> Forall valid s /\ utf8_encode s = bs.
Proof. split; [apply utf8_decode_sound|intros [Hv <-]; by apply utf8_decode_encode]. Qed.

End Utf8.
