(* ===== verification/PyFloat.v ===== *)
(** * Python [float]: values, the [float(str)] parser, arithmetic

    [Series.astype(float)] on an object column (script line 19) converts
    each string with Python's [float(str)], i.e. CPython's
    [float_from_string]: strip whitespace, check and remove digit
    separators ([_Py_string_to_number_with_underscores]), then
    [PyOS_string_to_double], which runs [_Py_dg_strtod] and, when that
    converts nothing, [_Py_parse_inf_or_nan]; anything left over raises
    [ValueError].

    Values are exact: a finite float is a rational; NaN and the two
    infinities are constructors.  The binary64 rounding of [_Py_dg_strtod]
    (including overflow of huge exponents to [inf]) and the sign of zero are
    not modelled, and neither is the translation of non-ASCII Unicode
    decimal digits to ASCII (such digits are rejected here). *)

From S2P Require Import Prelude PyString.
From Stdlib Require Strings.String.
Import Stdlib.Strings.String.StringSyntax.

Inductive pyfloat : Type :=
| Fin (q : Q)
| Inf (neg : bool)
| NaN.

(** Syntactic equality of the representation (not Python's [==]). *)
#[export] Instance Q_eq_dec : EqDecision Q.
Proof. intros [a b] [c d]. destruct (decide (a = c)), (decide (b = d)); [left|right..]; congruence. Defined.

#[export] Instance pyfloat_eq_dec : EqDecision pyfloat.
Proof. solve_decision. Defined.

Module FloatParse.
Import PyStr.
Local Open Scope Z_scope.

Definition is_digit (c : Z) : bool := (48 <=? c) && (c <=? 57).

(** The longest prefix of ASCII digits, and the rest. *)
Fixpoint span_digits (s : pystr) : pystr * pystr :=
  match s with
  | c :: r => if is_digit c then let '(ds, t) := span_digits r in (c :: ds, t) else ([], s)
  | [] => ([], [])
  end.

Definition digits_val (ds : pystr) : Z :=
  fold_left (fun acc d => acc * 10 + (d - 48)) ds 0.

(** An optional ['+'] or ['-']; [true] for a minus sign. *)
Definition take_sign (s : pystr) : bool * pystr :=
  match s with
  | 45 :: r => (true, r)
  | 43 :: r => (false, r)
  | _ => (false, s)
  end.

(** [m * 10^d] as an exact rational. *)
Definition scale10 (m d : Z) : Q :=
  if 0 <=? d then inject_Z (m * 10 ^ d) else Qmake m (Z.to_pos (10 ^ (- d))).

(** [_Py_dg_strtod]: [[sign] digits [. digits] [(e|E) [sign] digits]] with at
    least one mantissa digit; an exponent marker not followed by a digit is
    not consumed.  Returns the value and the unconsumed rest, or [None] when
    nothing is converted. *)
Definition strtod (s : pystr) : option (Q * pystr) :=
  let '(neg, s1) := take_sign s in
  let '(ip, s2) := span_digits s1 in
  let '(fp, s3) := match s2 with
                   | 46 :: r => span_digits r
                   | _ => ([], s2)
                   end in
  match ip ++ fp with
  | [] => None
  | mant =>
      let '(e, rest) :=
        match s3 with
        | c :: r =>
            if (c =? 101) || (c =? 69) then
              let '(eneg, r1) := take_sign r in
              let '(eds, r2) := span_digits r1 in
              match eds with
              | [] => (0, s3)
              | _ => (if eneg then - digits_val eds else digits_val eds, r2)
              end
            else (0, s3)
        | [] => (0, s3)
        end in
      let m := digits_val mant in
      Some (scale10 (if neg then - m else m) (e - Z.of_nat (length fp)), rest)
  end.

(** ASCII case folding, for the [inf]/[nan] spellings. *)
Definition lower (c : Z) : Z := if (65 <=? c) && (c <=? 90) then c + 32 else c.

Definition match_ci (word s : pystr) : option pystr :=
  if prefixb word (map lower s) then Some (drop (length word) s) else None.

(** [_Py_parse_inf_or_nan]. *)
Definition parse_inf_or_nan (s : pystr) : option (pyfloat * pystr) :=
  let '(neg, s1) := take_sign s in
  match match_ci (py "inf") s1 with
  | Some r =>
      Some (Inf neg, match match_ci (py "inity") r with Some r' => r' | None => r end)
  | None =>
      match match_ci (py "nan") s1 with
      | Some r => Some (NaN, r)
      | None => None
      end
  end.

(** [_Py_string_to_number_with_underscores]: an underscore must follow a
    digit and precede a digit; the underscores are then dropped.  [prev] is
    the previous code point (0 at the start). *)
Fixpoint underscores_go (prev : Z) (s : pystr) : option pystr :=
  match s with
  | [] => if prev =? 95 then None else Some []
  | c :: r =>
      if c =? 95 then
        if is_digit prev then underscores_go c r else None
      else if (prev =? 95) && negb (is_digit c) then None
      else option_map (cons c) (underscores_go c r)
  end.

Definition strip_underscores (s : pystr) : option pystr :=
  if existsb (fun c => c =? 95) s then underscores_go 0 s else Some s.

(** [float(s)] for a [str] [s]: [None] is the [ValueError]. *)
Definition float_of_str (s : pystr) : option pyfloat :=
  match strip_underscores (strip s) with
  | None => None
  | Some t =>
      match strtod t with
      | Some (q, []) => Some (Fin q)
      | Some (_, _ :: _) => None
      | None =>
          match parse_inf_or_nan t with
          | Some (f, []) => Some f
          | _ => None
          end
      end
  end.

(** The decimal printer of a natural number, as [str(n)] writes it. *)
Fixpoint digits_of_pos (fuel : nat) (n : Z) (acc : pystr) : pystr :=
  match fuel with
  | O => acc
  | S f => if n <? 10 then (48 + n) :: acc
           else digits_of_pos f (n / 10) ((48 + n mod 10) :: acc)
  end.

Definition str_of_nat (n : nat) : pystr := digits_of_pos (S n) (Z.of_nat n) [].

Definition all_digits (s : pystr) : Prop := Forall (fun c => is_digit c = true) s.

(** ** Lemmas on the pieces of the parser *)

Lemma digit_not_space c : is_digit c = true -> isspace c = false.
Proof.
  unfold is_digit, isspace. intros H. apply andb_prop in H as [H1 H2].
  apply Z.leb_le in H1. apply Z.leb_le in H2.
  repeat match goal with |- context [?a <=? ?b] => destruct (Z.leb_spec a b) end;
  repeat match goal with |- context [?a =? ?b] => destruct (Z.eqb_spec a b) end;
  simpl; lia.
Qed.

Lemma span_digits_app a r :
  all_digits a -> (forall c r', r = c :: r' -> is_digit c = false) ->
  span_digits (a ++ r) = (a, r).
Proof.
  intros Ha Hr. induction Ha as [|c a Hc _ IH]; simpl.
  - destruct r as [|c r']; [reflexivity|]. simpl. by rewrite (Hr c r').
  - by rewrite Hc, IH.
Qed.

Lemma span_digits_all a : all_digits a -> span_digits a = (a, []).
Proof. intros Ha. rewrite <- (app_nil_r a) at 1. apply span_digits_app; [exact Ha|done]. Qed.

Lemma digits_val_acc l acc :
  fold_left (fun acc d => acc * 10 + (d - 48)) l acc = acc * 10 ^ Z.of_nat (length l) + digits_val l.
Proof.
  unfold digits_val. revert acc. induction l as [|d l IH]; intros acc; simpl.
  - lia.
  - rewrite (IH (acc * 10 + (d - 48))), (IH (0 * 10 + (d - 48))).
    rewrite Nat2Z.inj_succ, Z.pow_succ_r by lia. lia.
Qed.

Lemma digits_val_app a b :
  digits_val (a ++ b) = digits_val a * 10 ^ Z.of_nat (length b) + digits_val b.
Proof. unfold digits_val at 1. by rewrite fold_left_app, digits_val_acc. Qed.

Lemma take_sign_nosign c r : c <> 45 -> c <> 43 -> take_sign (c :: r) = (false, c :: r).
Proof.
  intros H1 H2. unfold take_sign.
  destruct c as [|p|p]; try reflexivity;
  repeat (destruct p as [p|p|]; try reflexivity); lia.
Qed.

Lemma strip_underscores_none s : Forall (fun c => is_digit c = true \/ c = 46) s -> strip_underscores s = Some s.
Proof.
  intros H. unfold strip_underscores.
  replace (existsb (fun c => c =? 95) s) with false; [reflexivity|].
  symmetry. apply not_true_iff_false. rewrite existsb_exists. intros (c & Hin & Hc).
  apply Z.eqb_eq in Hc. subst c. rewrite Forall_forall in H.
  apply (H 95) in Hin as [Hd|Hd]; [discriminate|lia].
Qed.

Lemma scale10_neg m k : scale10 m (- Z.of_nat k) == inject_Z m / inject_Z (10 ^ Z.of_nat k).
Proof.
  unfold scale10. destruct k as [|k]; simpl.
  - rewrite Z.mul_1_r. change (inject_Z (10 ^ Z.of_nat 0)) with 1%Q. field.
  - replace (0 <=? - Z.pos (Pos.of_succ_nat k)) with false by reflexivity.
    rewrite Z.opp_involutive, Qmake_Qdiv. rewrite Z2Pos.id; [reflexivity|].
    apply Z.pow_pos_nonneg; lia.
Qed.

Lemma take_sign_unsigned s :
  (forall c r, s = c :: r -> c <> 45 /\ c <> 43) -> take_sign s = (false, s).
Proof.
  destruct s as [|c r]; [reflexivity|]. intros H.
  destruct (H c r eq_refl). by apply take_sign_nosign.
Qed.

(** The characters of a plain decimal literal. *)
Definition dec_char (c : Z) : Prop := is_digit c = true \/ c = 46.

Lemma dec_char_not_space c : dec_char c -> isspace c = false.
Proof. intros [H| ->]; [by apply digit_not_space | reflexivity]. Qed.

Lemma dec_char_unsigned c : dec_char c -> c <> 45 /\ c <> 43.
Proof.
  intros [H| ->]; [|lia]. unfold is_digit in H.
  apply andb_prop in H as [H1 _]. apply Z.leb_le in H1. lia.
Qed.

(** [strtod] reads digits, a point and digits, and stops before [rest]. *)
Lemma strtod_point a b rest :
  all_digits a -> all_digits b -> a ++ b <> [] ->
  (forall c r, rest = c :: r -> is_digit c = false /\ c <> 101 /\ c <> 69) ->
  strtod (a ++ 46 :: b ++ rest) =
    Some (scale10 (digits_val (a ++ b)) (- Z.of_nat (length b)), rest).
Proof.
  intros Ha Hb Hab Hr. unfold strtod.
  rewrite take_sign_unsigned.
  2: { intros c r Hs. apply dec_char_unsigned. destruct a as [|x a]; simpl in Hs; invc Hs;
       [by right | left; by invc Ha]. }
  rewrite span_digits_app by (done || (intros c r' H; invc H; reflexivity)).
  rewrite span_digits_app by (done || (intros c r' H; by apply Hr in H as [? _])).
  destruct (a ++ b) as [|m ms] eqn:Hm; [done|]. rewrite <- Hm.
  destruct rest as [|c r].
  - repeat f_equal; lia.
  - destruct (Hr c r eq_refl) as (_ & H1 & H2).
    apply Z.eqb_neq in H1, H2. rewrite H1, H2. simpl. repeat f_equal; lia.
Qed.

(** [strtod] reads a run of digits with no point and stops before [rest]. *)
Lemma strtod_int a rest :
  all_digits a -> a <> [] ->
  (forall c r, rest = c :: r -> is_digit c = false /\ c <> 46 /\ c <> 101 /\ c <> 69) ->
  strtod (a ++ rest) = Some (inject_Z (digits_val a), rest).
Proof.
  intros Ha Hne Hr. unfold strtod.
  rewrite take_sign_unsigned.
  2: { intros c r Hs. apply dec_char_unsigned. destruct a as [|x a]; [done|].
       invc Hs. left. by invc Ha. }
  rewrite span_digits_app by (done || (intros c r' H; by apply Hr in H as [? _])).
  assert (Hs3 : match rest with 46 :: r => span_digits r | _ => ([], rest) end = ([], rest)).
  { destruct rest as [|c r]; [reflexivity|]. destruct (Hr c r eq_refl) as (_ & H46 & _).
    destruct c as [|p|p]; try reflexivity; repeat (destruct p as [p|p|]; try reflexivity); lia. }
  rewrite Hs3, app_nil_r.
  destruct a as [|m ms]; [done|].
  unfold scale10. destruct rest as [|c r].
  - simpl. by rewrite Z.mul_1_r.
  - destruct (Hr c r eq_refl) as (_ & _ & H1 & H2).
    apply Z.eqb_neq in H1, H2. rewrite H1, H2. simpl. by rewrite Z.mul_1_r.
Qed.

(** Once [strtod] consumes a whole padded decimal literal, [float] returns
    its value. *)
Lemma float_of_str_strtod pre t post q :
  Forall (fun c => isspace c = true) pre -> Forall (fun c => isspace c = true) post ->
  Forall dec_char t -> strtod t = Some (q, []) ->
  float_of_str (pre ++ t ++ post) = Some (Fin q).
Proof.
  intros Hpre Hpost Ht Hq. unfold float_of_str.
  assert (Hns : Forall (fun c => isspace c = false) t).
  { eapply Forall_impl; [|exact Ht]. apply dec_char_not_space. }
  rewrite strip_pad by (done || (intros c r ->; by invc Hns) ||
                        (intros r c ->; apply Forall_app in Hns as [_ Hc]; by invc Hc)).
  by rewrite strip_underscores_none, Hq.
Qed.

Lemma all_digits_dec a : all_digits a -> Forall dec_char a.
Proof. intros H. eapply Forall_impl; [|exact H]. intros c Hc. by left. Qed.

Lemma digits_val_cons d l :
  digits_val (d :: l) = (d - 48) * 10 ^ Z.of_nat (length l) + digits_val l.
Proof. unfold digits_val at 1. simpl. by rewrite digits_val_acc. Qed.

Lemma is_digit_code n : 0 <= n < 10 -> is_digit (48 + n) = true.
Proof. intros H. unfold is_digit. apply andb_true_intro. split; apply Z.leb_le; lia. Qed.

Lemma digits_of_pos_spec fuel n acc :
  0 <= n < Z.of_nat fuel -> all_digits acc ->
  all_digits (digits_of_pos fuel n acc) /\ digits_of_pos fuel n acc <> [] /\
  digits_val (digits_of_pos fuel n acc) = n * 10 ^ Z.of_nat (length acc) + digits_val acc.
Proof.
  revert n acc. induction fuel as [|f IH]; intros n acc Hn Hacc; [lia|]. simpl.
  destruct (Z.ltb_spec n 10) as [Hlt|Hge].
  - split; [constructor; [apply is_digit_code; lia|exact Hacc]|split; [done|]].
    rewrite digits_val_cons. lia.
  - assert (Hm : 0 <= n mod 10 < 10) by (apply Z.mod_pos_bound; lia).
    destruct (IH (n / 10) ((48 + n mod 10) :: acc)) as (Hd & Hne & Hv).
    + split; [apply Z.div_pos; lia|]. apply Z.div_lt_upper_bound; lia.
    + constructor; [by apply is_digit_code|exact Hacc].
    + split; [exact Hd|split; [exact Hne|]]. rewrite Hv, digits_val_cons.
      simpl length. rewrite Nat2Z.inj_succ, Z.pow_succ_r by lia.
      pose proof (Z.div_mod n 10 ltac:(lia)). nia.
Qed.

(** [float(s)] on a decimal literal
    [digits "." digits] (with at least one digit) padded by whitespace
    returns the exact value [a + b / 10^|b|]: the form [Ticket] takes once
    its decimal comma became a point. *)
Lemma float_of_str_point pre a b post :
  Forall (fun c => isspace c = true) pre -> Forall (fun c => isspace c = true) post ->
  all_digits a -> all_digits b -> a ++ b <> [] ->
  exists q, float_of_str (pre ++ (a ++ 46 :: b) ++ post) = Some (Fin q) /\
    q == inject_Z (digits_val a) + inject_Z (digits_val b) / inject_Z (10 ^ Z.of_nat (length b)).
Proof.
  intros Hpre Hpost Ha Hb Hab. eexists. split.
  - apply float_of_str_strtod; [exact Hpre|exact Hpost| |].
    + apply Forall_app. split; [by apply all_digits_dec|].
      constructor; [by right|by apply all_digits_dec].
    + rewrite <- (app_nil_r b) at 1. by apply strtod_point.
  - rewrite scale10_neg, digits_val_app, inject_Z_plus, inject_Z_mult.
    field. intros H. unfold Qeq in H. simpl in H.
    pose proof (Z.pow_pos_nonneg 10 (Z.of_nat (length b))). lia.
Qed.

(** [float(s)] on a run of digits returns its integer value. *)
Lemma float_of_str_int pre a post :
  Forall (fun c => isspace c = true) pre -> Forall (fun c => isspace c = true) post ->
  all_digits a -> a <> [] ->
  float_of_str (pre ++ a ++ post) = Some (Fin (inject_Z (digits_val a))).
Proof.
  intros Hpre Hpost Ha Hne. apply float_of_str_strtod; [exact Hpre|exact Hpost| |].
  - by apply all_digits_dec.
  - rewrite <- (app_nil_r a) at 1. by apply strtod_int.
Qed.

(** [float(s)] raises on a string of
    digits holding two decimal points, such as ["1.234.50"]. *)
Lemma float_of_str_two_points a b c :
  all_digits a -> all_digits b -> all_digits c ->
  float_of_str (a ++ 46 :: b ++ 46 :: c) = None.
Proof.
  intros Ha Hb Hc. unfold float_of_str.
  assert (Hdec : Forall dec_char (a ++ 46 :: b ++ 46 :: c)).
  { repeat (apply Forall_app; split) || constructor; by (apply all_digits_dec || right). }
  rewrite strip_nospace by (eapply Forall_impl; [|exact Hdec]; apply dec_char_not_space).
  rewrite strip_underscores_none by exact Hdec.
  destruct (decide (a ++ b = [])) as [Hab|Hab].
  - apply app_eq_nil in Hab as [-> ->]. reflexivity.
  - rewrite strtod_point; [reflexivity|exact Ha|exact Hb|exact Hab|].
    intros c' r Hr. invc Hr. repeat split; discriminate.
Qed.

(** Reading back the decimal text of a
    natural number with [float] gives that number. *)
Theorem float_of_str_roundtrip n :
  float_of_str (str_of_nat n) = Some (Fin (inject_Z (Z.of_nat n))).
Proof.
  destruct (digits_of_pos_spec (S n) (Z.of_nat n) [] ltac:(lia) ltac:(constructor))
    as (Hd & Hne & Hv).
  pose proof (float_of_str_int [] (digits_of_pos (S n) (Z.of_nat n) []) []
                ltac:(constructor) ltac:(constructor) Hd Hne) as H.
  rewrite app_nil_r, app_nil_l in H. unfold str_of_nat. rewrite H, Hv. simpl.
  by rewrite Z.mul_1_r, Z.add_0_r.
Qed.

End FloatParse.

(** ** Float arithmetic and order *)

Module FloatArith.

Definition is_nan (x : pyfloat) : bool := match x with NaN => true | _ => false end.

(** Boolean [<] on rationals. *)
Definition Qlt_bool (a b : Q) : bool := negb (Qle_bool b a).

Lemma Qlt_bool_iff a b : Qlt_bool a b = true <-> a < b.
Proof.
  unfold Qlt_bool. rewrite negb_true_iff. split.
  - intros H. apply Qnot_le_lt. intros H'. apply Qle_bool_iff in H'. congruence.
  - intros H. destruct (Qle_bool b a) eqn:E; [|reflexivity]. apply Qle_bool_iff in E. lra.
Qed.

(** IEEE addition on exact values. *)
Definition fadd (x y : pyfloat) : pyfloat :=
  match x, y with
  | NaN, _ | _, NaN => NaN
  | Fin a, Fin b => Fin (a + b)
  | Inf s, Fin _ | Fin _, Inf s => Inf s
  | Inf s, Inf t => if Bool.eqb s t then Inf s else NaN
  end.

(** IEEE multiplication on exact values ([0 * inf] is NaN). *)
Definition fmul (x y : pyfloat) : pyfloat :=
  match x, y with
  | NaN, _ | _, NaN => NaN
  | Fin a, Fin b => Fin (a * b)
  | Inf s, Fin b | Fin b, Inf s =>
      if Qeq_bool b 0 then NaN else Inf (xorb s (Qlt_bool b 0))
  | Inf s, Inf t => Inf (xorb s t)
  end.

(** IEEE true division ([x / 0] is [±inf], [0 / 0] is NaN; the sign of
    zero is not modelled, a zero divisor counts as [+0]). *)
Definition fdiv (x y : pyfloat) : pyfloat :=
  match x, y with
  | NaN, _ | _, NaN => NaN
  | Fin a, Fin b =>
      if Qeq_bool b 0 then
        (if Qeq_bool a 0 then NaN else Inf (Qlt_bool a 0))
      else Fin (a / b)
  | Fin _, Inf _ => Fin 0
  | Inf s, Fin b => Inf (xorb s (Qlt_bool b 0))
  | Inf _, Inf _ => NaN
  end.

(** Strictly less, [-inf < finite < +inf]; false when a NaN is involved. *)
Definition flt (x y : pyfloat) : bool :=
  match x, y with
  | Fin a, Fin b => Qlt_bool a b
  | Inf true, Fin _ | Fin _, Inf false | Inf true, Inf false => true
  | _, _ => false
  end.

Definition fsum (xs : list pyfloat) : pyfloat := fold_left fadd xs (Fin 0).

Definition of_nat (n : nat) : pyfloat := Fin (inject_Z (Z.of_nat n)).

(** Two floats with the same value ([Fin] up to [Qeq]); NaN is related to
    itself here, unlike Python's [==]. *)
Definition feq (x y : pyfloat) : Prop :=
  match x, y with
  | Fin a, Fin b => a == b
  | Inf s, Inf t => s = t
  | NaN, NaN => True
  | _, _ => False
  end.

#[export] Instance feq_equiv : Equivalence feq.
Proof.
  split.
  - intros [a|s|]; simpl; reflexivity.
  - intros x y. destruct x as [a|s|], y as [b|t|]; simpl; try done; intros H; by symmetry.
  - intros x y z. destruct x as [a|s|], y as [b|t|], z as [c|u|]; simpl; try done; intros H1 H2; by rewrite H1.
Qed.

#[export] Instance Fin_proper : Proper (Qeq ==> feq) Fin.
Proof. intros a b H. exact H. Qed.

Lemma Qeq_bool_compat a a' : a == a' -> Qeq_bool a 0 = Qeq_bool a' 0.
Proof.
  intros H. destruct (Qeq_bool a 0) eqn:E1, (Qeq_bool a' 0) eqn:E2; try reflexivity.
  - apply Qeq_bool_iff in E1. apply Qeq_bool_neq in E2. exfalso. apply E2. by rewrite <- H.
  - apply Qeq_bool_iff in E2. apply Qeq_bool_neq in E1. exfalso. apply E1. by rewrite H.
Qed.

Lemma Qlt_bool_compat a a' : a == a' -> Qlt_bool a 0 = Qlt_bool a' 0.
Proof.
  intros H. destruct (Qlt_bool a 0) eqn:E1, (Qlt_bool a' 0) eqn:E2; try reflexivity; exfalso.
  - apply Qlt_bool_iff in E1. apply not_true_iff_false in E2. apply E2, Qlt_bool_iff. lra.
  - apply Qlt_bool_iff in E2. apply not_true_iff_false in E1. apply E1, Qlt_bool_iff. lra.
Qed.

(** Rewrite the tests on [a] and [b] to tests on [a'] and [b'], split
    them, and close the cases by [Qeq] rewriting. *)
Ltac float_compat Ha Hb :=
  repeat first [ rewrite (Qeq_bool_compat _ _ Ha) | rewrite (Qeq_bool_compat _ _ Hb)
               | rewrite (Qlt_bool_compat _ _ Ha) | rewrite (Qlt_bool_compat _ _ Hb) ];
  repeat match goal with |- context [if ?c then _ else _] => destruct c end;
  simpl; try reflexivity; try (rewrite Ha, Hb; reflexivity).

#[export] Instance fadd_proper : Proper (feq ==> feq ==> feq) fadd.
Proof.
  intros [a|s|] [a'|s'|] Ha [b|t|] [b'|t'|] Hb; simpl in *; try done; subst.
  all: float_compat Ha Hb.
Qed.

#[export] Instance fdiv_proper : Proper (feq ==> feq ==> feq) fdiv.
Proof.
  intros [a|s|] [a'|s'|] Ha [b|t|] [b'|t'|] Hb; simpl in *; try done; subst.
  all: float_compat Ha Hb.
Qed.

#[export] Instance fmul_proper : Proper (feq ==> feq ==> feq) fmul.
Proof.
  intros [a|s|] [a'|s'|] Ha [b|t|] [b'|t'|] Hb; simpl in *; try done; subst.
  all: float_compat Ha Hb.
Qed.

End FloatArith.
