(* ===== verification/Frame.v ===== *)
(** * pandas: cells, Series and DataFrames

    The part of pandas the script touches when it reads and writes columns:
    - a cell holds a Python [str], a float or a [bool] (what [read_csv]
      puts in a column of [True]/[False] answers); a missing value is
      [NaN] (what [read_csv] puts in an empty field);
    - a Series is the list of its cells (the script never reindexes: every
      Series shares the [RangeIndex] of [df]);
    - a DataFrame is its ordered list of named columns and its row count;
    - [df[col]] ([DataFrame.__getitem__]) raises [KeyError] on an unknown
      column; [df[col] = s] ([__setitem__]) replaces a column in place or
      appends a new one at the end, and raises [ValueError] when the length
      differs from the index;
    - the [.str] accessor ([StringMethods._validate]) raises
      [AttributeError] on a Series that holds no string; its methods map a
      [str] element with the Python method and any other element to [NaN];
    - [astype(float)] converts each string with [float(str)], raising
      [ValueError] at the first string that does not parse, and a [bool]
      to 1.0 or 0.0;
    - [Series.map(dict)] looks each value up and gives [NaN] when absent. *)

From S2P Require Import Prelude PyString PyFloat.
From Stdlib Require Strings.String.
Import Stdlib.Strings.String.StringSyntax.

(** The exceptions the script can raise. *)
Inductive exn : Type :=
| KeyError (key : pystr)
| ValueError (what : pystr)
| AttributeError
| OSError (path : pystr)
| TypeError (what : pystr).

Inductive cell : Type :=
| CStr (s : pystr)
| CNum (x : pyfloat)
| CBool (b : bool).

#[export] Instance cell_eq_dec : EqDecision cell.
Proof. solve_decision. Defined.

Abbreviation series := (list cell).

Record frame : Type := mkFrame {
  fcols : list (pystr * series);
  nrows : nat
}.

Module Frame.

Definition isna (c : cell) : bool :=
  match c with CNum NaN => true | _ => false end.

(** The float in a numeric cell.  After the Cleaner the [Ticket] and
    [Freq_num] columns hold numbers only, so [mean] and [hist] never meet a
    string there. *)
Definition cell_float (c : cell) : option pyfloat :=
  match c with CNum x => Some x | CStr _ | CBool _ => None end.

(** [Series.dropna()]. *)
Definition dropna (s : series) : series := filter (fun c => isna c = false) s.

Definition is_str (c : cell) : bool :=
  match c with CStr _ => true | CNum _ | CBool _ => false end.

(** A well-formed DataFrame: distinct column names, every column as long as
    the index. *)
Definition wf_frame (df : frame) : Prop :=
  NoDup (map fst (fcols df)) /\ Forall (fun nc => length (snd nc) = nrows df) (fcols df).

Fixpoint lookup_col (c : pystr) (cols : list (pystr * series)) : option series :=
  match cols with
  | [] => None
  | (n, s) :: rest => if decide (n = c) then Some s else lookup_col c rest
  end.

(** [df[c]]. *)
Definition getcol (df : frame) (c : pystr) : result exn series :=
  match lookup_col c (fcols df) with
  | Some s => Ok s
  | None => Err (KeyError c)
  end.

Fixpoint replace_col (c : pystr) (s : series) (cols : list (pystr * series)) : list (pystr * series) :=
  match cols with
  | [] => []
  | (n, s0) :: rest => if decide (n = c) then (n, s) :: rest else (n, s0) :: replace_col c s rest
  end.

(** [df[c] = s]. *)
Definition setcol (df : frame) (c : pystr) (s : series) : result exn frame :=
  if decide (length s = nrows df) then
    match lookup_col c (fcols df) with
    | Some _ => Ok (mkFrame (replace_col c s (fcols df)) (nrows df))
    | None => Ok (mkFrame (fcols df ++ [(c, s)]) (nrows df))
    end
  else Err (ValueError (PyStr.py "Length of values does not match length of index")).

(** [StringMethods._validate]: the inferred dtype must be string-like. *)
Definition str_ok (s : series) : bool :=
  match s with [] => true | _ => existsb is_str s end.

(** What a [.str] method does to one element. *)
Definition str_elem (f : pystr -> pystr) (c : cell) : cell :=
  match c with CStr x => CStr (f x) | CNum _ | CBool _ => CNum NaN end.

(** [s.str.<method>()] for a method [f : str -> str]. *)
Definition str_apply (f : pystr -> pystr) (s : series) : result exn series :=
  if str_ok s then Ok (map (str_elem f) s) else Err AttributeError.

Definition cell_to_float (c : cell) : result exn cell :=
  match c with
  | CStr x =>
      match FloatParse.float_of_str x with
      | Some f => Ok (CNum f)
      | None => Err (ValueError x)
      end
  | CNum f => Ok (CNum f)
  | CBool b => Ok (CNum (Fin (if b then 1 else 0)))
  end.

(** [s.astype(float)]. *)
Definition astype_float (s : series) : result exn series := mapM cell_to_float s.

Fixpoint dict_get (d : list (pystr * Z)) (k : pystr) : option Z :=
  match d with
  | [] => None
  | (k', v) :: rest => if decide (k' = k) then Some v else dict_get rest k
  end.

(** What [s.map(d)] does to one element, for a dict [d] from [str] to
    [int]. *)
Definition dict_cell (d : list (pystr * Z)) (c : cell) : cell :=
  match c with
  | CStr x => match dict_get d x with
              | Some v => CNum (Fin (inject_Z v))
              | None => CNum NaN
              end
  | CNum _ | CBool _ => CNum NaN
  end.

(** [s.map(d)]. *)
Definition map_dict (d : list (pystr * Z)) (s : series) : series := map (dict_cell d) s.

(** ** Column access *)

Lemma dict_get_pair d k v : dict_get d k = Some v -> (k, v) ∈ d.
Proof.
  induction d as [|[k' v'] d IH]; simpl; [discriminate|].
  destruct (decide (k' = k)) as [->|]; intros H; [invc H; left|right; by apply IH].
Qed.

Lemma lookup_col_replace_eq c s cols :
  is_Some (lookup_col c cols) -> lookup_col c (replace_col c s cols) = Some s.
Proof.
  induction cols as [|[n s0] rest IH]; simpl; intros H; [by destruct H|].
  destruct (decide (n = c)); simpl; [by rewrite decide_True|].
  rewrite decide_False by done. by apply IH.
Qed.

Lemma lookup_col_replace_ne c c' s cols :
  c <> c' -> lookup_col c' (replace_col c s cols) = lookup_col c' cols.
Proof.
  intros Hne. induction cols as [|[n s0] rest IH]; simpl; [reflexivity|].
  destruct (decide (n = c)) as [->|]; simpl.
  - by rewrite !decide_False.
  - destruct (decide (n = c')); [reflexivity|exact IH].
Qed.

Lemma lookup_col_app_new c s cols :
  lookup_col c cols = None -> lookup_col c (cols ++ [(c, s)]) = Some s.
Proof.
  induction cols as [|[n s0] rest IH]; simpl; intros H; [by rewrite decide_True|].
  destruct (decide (n = c)); [discriminate|exact (IH H)].
Qed.

Lemma lookup_col_app_ne c c' s cols :
  c <> c' -> lookup_col c' (cols ++ [(c, s)]) = lookup_col c' cols.
Proof.
  intros Hne. induction cols as [|[n s0] rest IH]; simpl; [by rewrite decide_False|].
  destruct (decide (n = c')); [reflexivity|exact IH].
Qed.

Lemma lookup_col_None c cols : lookup_col c cols = None <-> c ∉ map fst cols.
Proof.
  induction cols as [|[n s0] rest IH]; simpl; [split; [intros _; apply not_elem_of_nil|done]|].
  rewrite not_elem_of_cons. destruct (decide (n = c)) as [->|Hne].
  - split; [discriminate|intros [[] _]; reflexivity].
  - rewrite IH. split; [intros H; split; [congruence|exact H]|intros [_ H]; exact H].
Qed.

Lemma map_fst_replace_col c s cols : map fst (replace_col c s cols) = map fst cols.
Proof.
  induction cols as [|[n s0] rest IH]; simpl; [reflexivity|].
  destruct (decide (n = c)); simpl; [reflexivity|by rewrite IH].
Qed.

Lemma replace_col_lengths c s cols k :
  length s = k -> Forall (fun nc => length (snd nc) = k) cols ->
  Forall (fun nc => length (snd nc) = k) (replace_col c s cols).
Proof.
  intros Hs H. induction H as [|[n s0] rest Hn Hrest IH]; simpl; [constructor|].
  destruct (decide (n = c)); constructor; simpl; done.
Qed.

(** [df[c] = s] leaves the columns other than [c] as they were, keeps the row
    count, and keeps the frame well formed; it adds [c] at the end when [c]
    is new. *)
Lemma setcol_spec df c s df' :
  setcol df c s = Ok df' ->
  length s = nrows df /\ nrows df' = nrows df /\
  map fst (fcols df') = match lookup_col c (fcols df) with
                        | Some _ => map fst (fcols df)
                        | None => map fst (fcols df) ++ [c] end /\
  lookup_col c (fcols df') = Some s /\
  (forall c', c <> c' -> lookup_col c' (fcols df') = lookup_col c' (fcols df)).
Proof.
  unfold setcol. destruct (decide (length s = nrows df)) as [Hl|]; [|discriminate].
  destruct (lookup_col c (fcols df)) eqn:Hc; intros H; invc H; simpl.
  - split_and!; [done|done|apply map_fst_replace_col| |].
    + apply lookup_col_replace_eq. by rewrite Hc.
    + intros c' Hne. by apply lookup_col_replace_ne.
  - split_and!; [done|done|by rewrite map_app| |].
    + by apply lookup_col_app_new.
    + intros c' Hne. by apply lookup_col_app_ne.
Qed.

Lemma setcol_wf df c s df' : wf_frame df -> setcol df c s = Ok df' -> wf_frame df'.
Proof.
  intros [Hnd Hlen] H. pose proof (setcol_spec _ _ _ _ H) as (Hs & Hn & Hnames & _).
  unfold setcol in H. rewrite decide_True in H by exact Hs.
  split; [rewrite Hnames|].
  - destruct (lookup_col c (fcols df)) eqn:Hc; [exact Hnd|].
    apply list.NoDup_app. split_and!; [exact Hnd| |by apply NoDup_singleton].
    intros x Hx Hx'. apply list_elem_of_singleton in Hx' as ->.
    by apply lookup_col_None in Hc.
  - destruct (lookup_col c (fcols df)); invc H; simpl.
    + by apply replace_col_lengths.
    + apply Forall_app. split; [exact Hlen|by constructor].
Qed.

Lemma str_apply_length f s s' : str_apply f s = Ok s' -> length s' = length s.
Proof. unfold str_apply. destruct (str_ok s); intros H; invc H. apply length_map. Qed.

Lemma astype_float_length s s' : astype_float s = Ok s' -> length s' = length s.
Proof. apply mapM_length. Qed.

Lemma str_ok_map f s : str_ok (map (str_elem f) s) = str_ok s.
Proof.
  destruct s as [|c s]; [reflexivity|]. unfold str_ok. simpl map.
  change (existsb is_str (str_elem f c :: map (str_elem f) s)) with
    (is_str (str_elem f c) || existsb is_str (map (str_elem f) s)).
  change (existsb is_str (c :: s)) with (is_str c || existsb is_str s).
  f_equal; [by destruct c|]. induction s as [|c' s IH]; [reflexivity|]. simpl.
  rewrite IH. by destruct c'.
Qed.

Lemma str_ok_false s : s <> [] -> Forall (fun c => is_str c = false) s -> str_ok s = false.
Proof.
  intros Hne Hall. destruct s as [|c s]; [done|]. unfold str_ok.
  apply not_true_is_false. intros H. apply existsb_exists in H as (d & Hd & Hstr).
  rewrite Forall_forall in Hall. to_elem Hd.
  specialize (Hall d ltac:(first [exact Hd|by apply elem_In])). congruence.
Qed.

Lemma str_apply_ok f s : str_ok s = true -> str_apply f s = Ok (map (str_elem f) s).
Proof. unfold str_apply. by intros ->. Qed.

Lemma replace_col_same c s cols : lookup_col c cols = Some s -> replace_col c s cols = cols.
Proof.
  induction cols as [|[n s0] rest IH]; simpl; [discriminate|].
  destruct (decide (n = c)); intros H; [by invc H|]. by rewrite IH.
Qed.

(** Assigning a column that exists keeps the names and the row count. *)
Lemma setcol_existing df c s0 s df' :
  lookup_col c (fcols df) = Some s0 -> setcol df c s = Ok df' ->
  map fst (fcols df') = map fst (fcols df) /\ nrows df' = nrows df.
Proof.
  intros Hc H. destruct (setcol_spec _ _ _ _ H) as (_ & Hn & Hnames & _).
  rewrite Hc in Hnames. by split.
Qed.

(** Assigning a column the value it already has changes nothing. *)
Lemma lookup_col_elem c cols s : lookup_col c cols = Some s -> (c, s) ∈ cols.
Proof.
  induction cols as [|[n s0] rest IH]; simpl; [discriminate|].
  destruct (decide (n = c)) as [->|]; intros H; [invc H; left|right; by apply IH].
Qed.

Lemma lookup_col_length df c s : wf_frame df -> lookup_col c (fcols df) = Some s -> length s = nrows df.
Proof.
  intros [_ Hlen] Hc. apply lookup_col_elem in Hc. rewrite Forall_forall in Hlen.
  to_elem Hc. apply (Hlen (c, s)). first [exact Hc|by apply elem_In].
Qed.

Lemma setcol_ok df c s : length s = nrows df -> exists df', setcol df c s = Ok df'.
Proof. intros Hl. unfold setcol. rewrite decide_True by exact Hl. destruct (lookup_col c (fcols df)); eauto. Qed.

Lemma setcol_same df c s :
  lookup_col c (fcols df) = Some s -> length s = nrows df -> setcol df c s = Ok df.
Proof.
  intros Hc Hl. unfold setcol. rewrite decide_True by exact Hl. rewrite Hc.
  rewrite replace_col_same by exact Hc. by destruct df.
Qed.

#[export] Hint Resolve str_apply_length astype_float_length setcol_wf : wine.

End Frame.
