(* ===== verification/Cleaner.v ===== *)
(** * The Cleaner: script lines 19-24 and 105-113

    Line 19 rewrites the [Ticket] column with
    [df['Ticket'].str.replace('€', '').str.replace(',', '.').str.strip().astype(float)];
    lines 21-24 strip the seven categorical columns of [string_columns] in
    list order; lines 105-113 add the ordinal column [Freq_num] by mapping
    [Wine frequency consumption] through [freq_map].  Each assignment is a
    [Frame.setcol] on the shared DataFrame, so a failure in the middle
    leaves the run stopped with the exception, as in the script. *)

From S2P Require Import Prelude PyString PyFloat Frame.
From Stdlib Require Strings.String.
Import Stdlib.Strings.String.StringSyntax.

Module Cleaner.
Import PyStr FloatParse Frame.

Definition Ticket : pystr := py "Ticket".
Definition Wine_frequency : pystr := py "Wine frequency consumption".
Definition Freq_num : pystr := py "Freq_num".

(** Line 21. *)
Definition string_columns : list pystr :=
  [Wine_frequency; py "Payment mode"; py "Place to drink";
   py "Additional products"; py "Gender"; py "Education"; py "Age"].

(** Line 19, right-hand side: the three [.str] passes and the conversion. *)
Definition clean_ticket_series (s : series) : result exn series :=
  s1 <- str_apply (replace [euro] []) s ;;
  s2 <- str_apply (replace (py ",") (py ".")) s1 ;;
  s3 <- str_apply strip s2 ;;
  astype_float s3.

(** Line 19. *)
Definition clean_ticket (df : frame) : result exn frame :=
  s <- getcol df Ticket ;;
  s' <- clean_ticket_series s ;;
  setcol df Ticket s'.

(** Lines 23-24: [for col in string_columns: df[col] = df[col].str.strip()]. *)
Fixpoint strip_columns (cols : list pystr) (df : frame) : result exn frame :=
  match cols with
  | [] => Ok df
  | c :: rest =>
      s <- getcol df c ;;
      s' <- str_apply strip s ;;
      df' <- setcol df c s' ;;
      strip_columns rest df'
  end.

(** Lines 18-24 after the load. *)
Definition clean (df : frame) : result exn frame :=
  df1 <- clean_ticket df ;;
  strip_columns string_columns df1.

(** Lines 105-112. *)
Definition freq_map : list (pystr * Z) :=
  [(py "Once per month", 1%Z); (py "More than once per month", 2%Z);
   (py "1 to 2 times per week", 3%Z); (py "3 to 4 times per week", 4%Z);
   (py "5 to 6 times per week", 5%Z); (py "Once per day", 7%Z)].

(** Line 113. *)
Definition add_freq_num (df : frame) : result exn frame :=
  s <- getcol df Wine_frequency ;;
  setcol df Freq_num (map_dict freq_map s).

(** The cleaning of one [Ticket] string, composed per value: what the three
    [.str] passes and [float] do to a single [str]. *)
Definition ticket_value (x : pystr) : result exn pyfloat :=
  let t := strip (replace (py ",") (py ".") (replace [euro] [] x)) in
  match float_of_str t with
  | Some f => Ok f
  | None => Err (ValueError t)
  end.

Definition ticket_cell (c : cell) : result exn cell :=
  match c with
  | CStr x => rmap CNum (ticket_value x)
  | CNum _ | CBool _ => Ok (CNum NaN)
  end.

(** ** One [Ticket] value *)

Lemma not_elem_of_Forall (P : Z -> Prop) c (s : pystr) : Forall P s -> ~ P c -> c ∉ s.
Proof. intros H Hc Hin. rewrite Forall_forall in H. apply Hc, H. by apply list_elem_of_In. Qed.

Lemma comma_point : py "," = [44%Z] /\ py "." = [46%Z].
Proof. split; reflexivity. Qed.

(** The characters of a ticket literal: padding, digits, the comma. *)
Definition lit_char (c : Z) : Prop := isspace c = true \/ is_digit c = true \/ c = 44%Z.

Lemma lit_char_not_euro s : Forall lit_char s -> euro ∉ s.
Proof. intros H. apply (not_elem_of_Forall lit_char); [exact H|]. intros [H1|[H1|H1]]; discriminate. Qed.

Lemma lit_chars_space s : Forall (fun c => isspace c = true) s -> Forall lit_char s.
Proof. intros H. eapply Forall_impl; [|exact H]. intros c Hc. by left. Qed.

Lemma lit_chars_digit s : all_digits s -> Forall lit_char s.
Proof. intros H. eapply Forall_impl; [|exact H]. intros c Hc. by right; left. Qed.

Lemma replace_euro_gone pre e s :
  e = [] \/ e = [euro] -> Forall lit_char pre -> Forall lit_char s ->
  replace [euro] [] (pre ++ e ++ s) = pre ++ s.
Proof.
  intros He Hpre Hs. unfold replace. rewrite replace_go_char, !replace_char_ref_app.
  rewrite (replace_char_ref_notin _ _ s), (replace_char_ref_notin _ _ pre)
    by (by apply lit_char_not_euro).
  by destruct He as [-> | ->].
Qed.

Lemma comma_not_in s : Forall (fun c => isspace c = true \/ is_digit c = true) s -> 44%Z ∉ s.
Proof. intros H. apply (not_elem_of_Forall _ _ _ H). intros [H1|H1]; discriminate. Qed.

Lemma space_or_digit_l s : Forall (fun c => isspace c = true) s ->
  Forall (fun c => isspace c = true \/ is_digit c = true) s.
Proof. intros H. eapply Forall_impl; [|exact H]. intros c Hc. by left. Qed.

Lemma space_or_digit_r s : all_digits s ->
  Forall (fun c => isspace c = true \/ is_digit c = true) s.
Proof. intros H. eapply Forall_impl; [|exact H]. intros c Hc. by right. Qed.

(** Push [replace_char_ref] through appends and conses, then drop it on the
    pieces free of the replaced character. *)
Ltac expand_replace :=
  unfold replace; rewrite replace_go_char;
  repeat (rewrite replace_char_ref_app || rewrite replace_char_ref_cons || rewrite Z.eqb_refl).

Ltac lit_chars :=
  repeat (apply Forall_app; split) || constructor;
  first [ by apply lit_chars_space | by apply lit_chars_digit | by right; right
        | by apply space_or_digit_l | by apply space_or_digit_r ].

(** C5: A [Ticket] written as an optional euro
    sign, digits, a decimal comma and digits, with whitespace around, cleans
    to the float [a + b / 10^|b|]: ["12,50"] gives [12.5] and [" 8,00 "]
    gives [8.0] (spec, section 8). *)
Theorem ticket_value_decimal pre e a b post :
  Forall (fun c => isspace c = true) pre -> Forall (fun c => isspace c = true) post ->
  e = [] \/ e = [euro] -> all_digits a -> a <> [] -> all_digits b ->
  exists q, ticket_value (pre ++ e ++ a ++ 44%Z :: b ++ post) = Ok (Fin q) /\
    q == inject_Z (digits_val a) + inject_Z (digits_val b) / inject_Z (10 ^ Z.of_nat (length b)).
Proof.
  intros Hpre Hpost He Ha Hne Hb. unfold ticket_value.
  rewrite replace_euro_gone by (done || lit_chars).
  destruct comma_point as [-> ->]. expand_replace.
  rewrite !replace_char_ref_notin by (apply comma_not_in; lit_chars).
  destruct (float_of_str_point [] a b [] ltac:(constructor) ltac:(constructor) Ha Hb)
    as (q & Hq & Hv); [by destruct a|].
  rewrite !app_nil_r, app_nil_l in Hq.
  replace (a ++ [46%Z] ++ b ++ post) with ((a ++ 46%Z :: b) ++ post) by (by rewrite <- app_assoc).
  rewrite (strip_pad pre (a ++ 46%Z :: b) post Hpre Hpost).
  - simpl. rewrite Hq. eauto.
  - intros c r Hs. destruct a as [|x a]; [done|]. invc Hs. apply digit_not_space. by invc Ha.
  - intros r c Hs. destruct b as [|y b] using rev_ind.
    + apply app_inj_tail in Hs as [_ <-]. reflexivity.
    + rewrite app_comm_cons, app_assoc in Hs. apply app_inj_tail in Hs as [_ <-].
      apply digit_not_space. apply Forall_app in Hb as [_ Hy]. by invc Hy.
Qed.

(** C6: A [Ticket] holding two commas, as a
    thousands separator and a decimal comma (["€1,234,50"]), makes the run
    raise [ValueError]: line 19 turns every comma into a point, and
    [float('1.234.50')] fails.  The spec says thousands commas are removed. *)
Theorem ticket_value_thousands e a b c :
  e = [] \/ e = [euro] -> all_digits a -> all_digits b -> all_digits c ->
  ticket_value (e ++ a ++ 44%Z :: b ++ 44%Z :: c) = Err (ValueError (a ++ 46%Z :: b ++ 46%Z :: c)).
Proof.
  intros He Ha Hb Hc. unfold ticket_value.
  rewrite <- (app_nil_l (e ++ _)), replace_euro_gone by (done || lit_chars).
  destruct comma_point as [-> ->]. simpl app. expand_replace.
  rewrite !replace_char_ref_notin by (apply comma_not_in; lit_chars). simpl app.
  rewrite strip_nospace.
  - by rewrite float_of_str_two_points.
  - repeat (apply Forall_app; split) || constructor;
      first [ eapply Forall_impl; [|eassumption]; apply digit_not_space | reflexivity ].
Qed.

(** The three [.str] passes and [astype(float)] of line 19 compose into
    [ticket_cell] on each element. *)
Lemma clean_ticket_series_cells s :
  str_ok s = true -> clean_ticket_series s = mapM ticket_cell s.
Proof.
  intros Hs. unfold clean_ticket_series.
  rewrite str_apply_ok by exact Hs. simpl.
  rewrite str_apply_ok by (by rewrite str_ok_map). simpl.
  rewrite str_apply_ok by (by rewrite !str_ok_map). simpl.
  unfold astype_float. clear Hs. induction s as [|c s IH]; [reflexivity|]. simpl.
  rewrite IH. destruct c as [x|f|b]; simpl; [|reflexivity..].
  unfold ticket_value. by destruct (float_of_str _).
Qed.

(** ** The whole DataFrame *)

Lemma clean_ticket_shape df df' :
  clean_ticket df = Ok df' ->
  exists s cells, lookup_col Ticket (fcols df) = Some s /\ mapM ticket_cell s = Ok cells /\
    setcol df Ticket cells = Ok df'.
Proof.
  unfold clean_ticket, getcol. destruct (lookup_col Ticket (fcols df)) as [s|] eqn:Hs; [|discriminate].
  simpl. destruct (clean_ticket_series s) as [cells|e] eqn:Hc; [|discriminate]. simpl. intros H.
  exists s, cells. split_and!; [done| |done].
  destruct (str_ok s) eqn:Hok.
  - by rewrite clean_ticket_series_cells in Hc.
  - unfold clean_ticket_series, str_apply in Hc. by rewrite Hok in Hc.
Qed.

(** What [strip_columns] does: every listed column is replaced by its
    stripped self, every other column is left alone, and the frame keeps
    its shape. *)
Lemma strip_columns_spec cols df df' :
  NoDup cols -> wf_frame df -> strip_columns cols df = Ok df' ->
  wf_frame df' /\ nrows df' = nrows df /\ map fst (fcols df') = map fst (fcols df) /\
  (forall c, c ∈ cols -> exists s, lookup_col c (fcols df) = Some s /\ str_ok s = true /\
                           lookup_col c (fcols df') = Some (map (str_elem strip) s)) /\
  (forall c, c ∉ cols -> lookup_col c (fcols df') = lookup_col c (fcols df)).
Proof.
  revert df. induction cols as [|c cols IH]; intros df Hnd Hwf H; simpl in H.
  - invc H. split_and!; try done. intros c Hc. by apply not_elem_of_nil in Hc.
  - apply list.NoDup_cons in Hnd as [Hc Hnd].
    unfold getcol in H. destruct (lookup_col c (fcols df)) as [s|] eqn:Hs; [|discriminate].
    simpl in H. unfold str_apply in H. destruct (str_ok s) eqn:Hok; [|discriminate]. simpl in H.
    destruct (setcol df c (map (str_elem strip) s)) as [df1|e] eqn:Hset; [|discriminate]. simpl in H.
    destruct (setcol_spec _ _ _ _ Hset) as (_ & Hn1 & _ & Hc1 & Hother1).
    destruct (setcol_existing _ _ _ _ _ Hs Hset) as [Hnames1 _].
    destruct (IH df1 Hnd (setcol_wf _ _ _ _ Hwf Hset) H) as (Hwf' & Hn' & Hnames' & Hin' & Hout').
    split_and!; [done|congruence|congruence| |].
    + intros c' Hc'. apply elem_of_cons in Hc' as [->|Hc'].
      * exists s. split_and!; [done|done|]. by rewrite Hout'.
      * destruct (Hin' c' Hc') as (s' & Hs' & Hok' & Hfin). exists s'.
        rewrite <- Hother1 by (intros ->; contradiction). done.
    + intros c' Hc'. apply not_elem_of_cons in Hc' as [Hne Hc'].
      rewrite Hout' by exact Hc'. by apply Hother1.
Qed.

Lemma string_columns_NoDup : NoDup string_columns.
Proof. apply NoDup_ListNoDup. repeat constructor; simpl; intuition discriminate. Qed.

Lemma Ticket_not_string_column : Ticket ∉ string_columns.
Proof. unfold string_columns. repeat (apply not_elem_of_cons; split; [discriminate|]). apply not_elem_of_nil. Qed.

(** C4: Cleaning (lines 19-24) keeps the frame well
    formed, keeps the row count and the columns in their order, replaces
    [Ticket] by its per-value cleaning [ticket_cell], replaces each column
    of [string_columns] by its stripped self, and leaves every other column
    as loaded. *)
Theorem clean_spec df df' :
  wf_frame df -> clean df = Ok df' ->
  wf_frame df' /\ nrows df' = nrows df /\ map fst (fcols df') = map fst (fcols df) /\
  (exists s cells, lookup_col Ticket (fcols df) = Some s /\ mapM ticket_cell s = Ok cells /\
     lookup_col Ticket (fcols df') = Some cells) /\
  (forall c, c ∈ string_columns -> exists s, lookup_col c (fcols df) = Some s /\
     lookup_col c (fcols df') = Some (map (str_elem strip) s)) /\
  (forall c, c <> Ticket -> c ∉ string_columns -> lookup_col c (fcols df') = lookup_col c (fcols df)).
Proof.
  intros Hwf H. unfold clean in H.
  destruct (clean_ticket df) as [df1|e] eqn:H1; [|discriminate]. simpl in H.
  destruct (clean_ticket_shape _ _ H1) as (s & cells & Hs & Hcells & Hset).
  destruct (setcol_spec _ _ _ _ Hset) as (_ & Hn1 & _ & Hc1 & Hother1).
  destruct (setcol_existing _ _ _ _ _ Hs Hset) as [Hnames1 _].
  destruct (strip_columns_spec _ _ _ string_columns_NoDup (setcol_wf _ _ _ _ Hwf Hset) H)
    as (Hwf' & Hn' & Hnames' & Hin' & Hout').
  split_and!; [done|congruence|congruence| | |].
  - exists s, cells. split_and!; [done|done|]. rewrite Hout' by apply Ticket_not_string_column.
    exact Hc1.
  - intros c Hc. destruct (Hin' c Hc) as (s' & Hs' & _ & Hfin). exists s'.
    rewrite <- Hother1 by (intros <-; by apply Ticket_not_string_column). done.
  - intros c Hne Hc. rewrite Hout' by exact Hc. by apply Hother1.
Qed.

(** ** Failure of the cleaning *)

Lemma str_ok_of_str s x : CStr x ∈ s -> str_ok s = true.
Proof.
  intros Hx. destruct s as [|c s]; [by apply not_elem_of_nil in Hx|].
  unfold str_ok. apply existsb_exists. exists (CStr x). split; [|reflexivity].
  by apply list_elem_of_In.
Qed.

Lemma ticket_cell_err c e : ticket_cell c = Err e -> exists t, e = ValueError t.
Proof.
  destruct c as [x|f|b]; simpl; [|discriminate..]. unfold ticket_value.
  destruct (float_of_str _); simpl; intros H; invc H; eauto.
Qed.

Lemma mapM_ticket_err s e : mapM ticket_cell s = Err e -> exists t, e = ValueError t.
Proof.
  induction s as [|c s IH]; simpl; [discriminate|].
  destruct (ticket_cell c) eqn:Hc; simpl; [|intros H; invc H; by eapply ticket_cell_err].

  destruct (mapM ticket_cell s); simpl; [discriminate|]. intros H; invc H. by apply IH.
Qed.

(** C34: If one [Ticket] string does not clean
    to a float, the cleaning raises [ValueError] and no DataFrame comes out
    (the run stops, spec section 7). *)
Theorem clean_bad_ticket_raises df s x e :
  lookup_col Ticket (fcols df) = Some s -> CStr x ∈ s -> ticket_value x = Err e ->
  exists t, clean df = Err (ValueError t).
Proof.
  intros Hs Hx He. unfold clean, clean_ticket, getcol. rewrite Hs. simpl.
  rewrite clean_ticket_series_cells by (eapply str_ok_of_str; exact Hx).
  destruct (mapM ticket_cell s) as [cells|e'] eqn:Hm.
  - exfalso. assert (Hf : is_ok (mapM ticket_cell s) = false).
    { apply mapM_Err_iff. exists (CStr x), e. split; [exact Hx|]. simpl. by rewrite He. }
    by rewrite Hm in Hf.
  - simpl. destruct (mapM_ticket_err _ _ Hm) as [t ->]. eauto.
Qed.

(** C7: A [Ticket] column holding no string makes the first [.str] of
    line 19 raise [AttributeError].  This is what [pd.read_csv] gives when
    every ticket of the file is a plain number such as 12, which the spec's
    ticket format admits, or when every ticket cell is empty. *)
Theorem clean_numeric_ticket_raises df s :
  lookup_col Ticket (fcols df) = Some s -> s <> [] -> Forall (fun c => is_str c = false) s ->
  clean df = Err AttributeError.
Proof.
  intros Hs Hne Hnum. unfold clean, clean_ticket, getcol. rewrite Hs. simpl.
  unfold clean_ticket_series, str_apply. by rewrite str_ok_false.
Qed.

(** ** Stripping again changes nothing *)

Lemma str_elem_strip_idem s : map (str_elem strip) (map (str_elem strip) s) = map (str_elem strip) s.
Proof.
  induction s as [|c s IH]; simpl; [reflexivity|]. rewrite IH.
  destruct c; simpl; [by rewrite strip_idempotent|reflexivity..].
Qed.

(** A frame whose listed columns are already stripped is a fixpoint of
    [strip_columns]. *)
Lemma strip_columns_fixed cols df :
  (forall c, c ∈ cols -> exists s, lookup_col c (fcols df) = Some s /\ str_ok s = true /\
     map (str_elem strip) s = s /\ length s = nrows df) ->
  strip_columns cols df = Ok df.
Proof.
  induction cols as [|c cols IH]; intros H; simpl; [reflexivity|].
  destruct (H c ltac:(left)) as (s & Hs & Hok & Hfix & Hlen).
  unfold getcol. rewrite Hs. simpl. rewrite str_apply_ok by exact Hok. simpl.
  rewrite Hfix, setcol_same by done. simpl. apply IH.
  intros c' Hc'. apply H. by right.
Qed.

Lemma clean_decompose df df' :
  clean df = Ok df' ->
  exists s cells df1, lookup_col Ticket (fcols df) = Some s /\ mapM ticket_cell s = Ok cells /\
    setcol df Ticket cells = Ok df1 /\ strip_columns string_columns df1 = Ok df'.
Proof.
  unfold clean. destruct (clean_ticket df) as [df1|e] eqn:H1; [|discriminate]. simpl. intros H.
  destruct (clean_ticket_shape _ _ H1) as (s & cells & Hs & Hcells & Hset). eauto 10.
Qed.

(** After a successful cleaning the frame is well formed and has [Ticket]
    and every column of [string_columns]. *)
Lemma clean_cols df0 df : wf_frame df0 -> clean df0 = Ok df ->
  wf_frame df /\ forall c, c ∈ Ticket :: string_columns -> exists s, lookup_col c (fcols df) = Some s.
Proof.
  intros Hwf H. destruct (clean_decompose _ _ H) as (s & cells & df1 & _ & _ & Hset & Hstrip).
  pose proof (setcol_wf _ _ _ _ Hwf Hset) as Hwf1.
  destruct (setcol_spec _ _ _ _ Hset) as (_ & _ & _ & Hc1 & _).
  destruct (strip_columns_spec _ _ _ string_columns_NoDup Hwf1 Hstrip) as (Hwf' & _ & _ & Hin & Hout).
  split; [exact Hwf'|]. intros c Hc. apply elem_of_cons in Hc as [->|Hc].
  - rewrite Hout by apply Ticket_not_string_column. eauto.
  - destruct (Hin c Hc) as (s' & _ & _ & Hs'). eauto.
Qed.

(** C35: After the cleaning, running the
    stripping loop of lines 23-24 again leaves the DataFrame unchanged:
    trimming is idempotent on the whole table (spec, section 8). *)
Theorem clean_strip_idempotent df df' :
  wf_frame df -> clean df = Ok df' -> strip_columns string_columns df' = Ok df'.
Proof.
  intros Hwf H. destruct (clean_decompose _ _ H) as (s & cells & df1 & _ & _ & Hset & Hstrip).
  destruct (strip_columns_spec _ _ _ string_columns_NoDup (setcol_wf _ _ _ _ Hwf Hset) Hstrip)
    as ([_ Hlen] & _ & _ & Hin & _).
  apply strip_columns_fixed. intros c Hc. destruct (Hin c Hc) as (s0 & _ & Hok & Hfin).
  exists (map (str_elem strip) s0). split_and!; [exact Hfin|by rewrite str_ok_map|apply str_elem_strip_idem|].
  rewrite Forall_forall in Hlen. apply (Hlen (c, map (str_elem strip) s0)).
  apply list_elem_of_In. clear -Hfin. induction (fcols df') as [|[n s'] rest IH]; simpl in *; [discriminate|].
  destruct (decide (n = c)) as [->|]; [invc Hfin; by left|right; by apply IH].
Qed.

(** ** The ordinal column [Freq_num] *)

Lemma dict_get_in d k v : dict_get d k = Some v -> v ∈ map snd d.
Proof.
  induction d as [|[k' v'] d IH]; simpl; [discriminate|].
  destruct (decide (k' = k)); intros H; [invc H; left|right; by apply IH].
Qed.

(** C33: Line 113 maps each frequency label to its
    ordinal: a label among the six keys of [freq_map] gives its value, one
    of 1, 2, 3, 4, 5, 7 (never 6), and any other cell, a missing one
    included, gives NaN (not 0, not 5). *)
Theorem freq_num_cells s :
  Forall2 (fun c r =>
      (r = CNum NaN /\ forall x, c = CStr x -> dict_get freq_map x = None) \/
      (exists x k, c = CStr x /\ dict_get freq_map x = Some k /\
                   k ∈ [1; 2; 3; 4; 5; 7]%Z /\ r = CNum (Fin (inject_Z k))))
    s (map_dict freq_map s).
Proof.
  induction s as [|c s IH]; [constructor|].
  change (map_dict freq_map (c :: s)) with (dict_cell freq_map c :: map_dict freq_map s).
  constructor; [|exact IH].
  unfold dict_cell. destruct c as [x|f|b].
  - destruct (dict_get freq_map x) as [k|] eqn:Hk.
    + right. exists x, k. split_and!; [done|exact Hk| |done]. exact (dict_get_in _ _ _ Hk).
    + left. split; [done|]. intros x' Hx. by invc Hx.
  - left. split; [done|]. intros x' Hx. discriminate.
  - left. split; [done|]. intros x' Hx. discriminate.
Qed.

(** C32: On a well-formed frame without a
    [Freq_num] column, line 113 adds exactly one column, [Freq_num], at the
    end: the row count and every other column are unchanged, and the new
    column is the mapped frequency column. *)
Theorem add_freq_num_spec df df' :
  wf_frame df -> Freq_num ∉ map fst (fcols df) -> add_freq_num df = Ok df' ->
  wf_frame df' /\ nrows df' = nrows df /\
  map fst (fcols df') = map fst (fcols df) ++ [Freq_num] /\
  (exists s, lookup_col Wine_frequency (fcols df) = Some s /\
             lookup_col Freq_num (fcols df') = Some (map_dict freq_map s)) /\
  (forall c, c <> Freq_num -> lookup_col c (fcols df') = lookup_col c (fcols df)).
Proof.
  intros Hwf Hnew H. unfold add_freq_num, getcol in H.
  destruct (lookup_col Wine_frequency (fcols df)) as [s|] eqn:Hs; [|discriminate]. simpl in H.
  destruct (setcol_spec _ _ _ _ H) as (_ & Hn & Hnames & Hc & Hother).
  apply lookup_col_None in Hnew. rewrite Hnew in Hnames.
  split_and!; [exact (setcol_wf _ _ _ _ Hwf H)|done|done| |intros c Hne; apply Hother; congruence]. eauto.
Qed.

End Cleaner.
