(* ===== verification/Header.v ===== *)
(** * The header row of [read_csv]: names of unnamed and duplicate columns

    [TextReader._get_header] of pandas' [parsers.pyx] turns the fields of
    the header row into column names in two passes:
    - an empty field [i] is named [Unnamed: i];
    - the names are then made distinct, named columns first and unnamed ones
      after, each in column order: a name already taken is replaced by
      [name.k], where a [while] loop tries [k = 1, 2, ...], skipping every
      candidate that is a name of the header row and every candidate
      already given out.
    The dictionary [counts] is a [gmap]; the [while] loop is [mangle_while],
    a recursion on fuel.  [dedup_header] gives it the length of the header
    plus two, which [dedup_header_total] proves always enough. *)

From stdpp Require Import gmap.
From S2P Require Import Prelude PyString PyFloat.
From Stdlib Require Strings.String.
Import Stdlib.Strings.String.StringSyntax.

Module Header.
Import PyStr FloatParse.

(** [f"Unnamed: {i}"]. *)
Definition unnamed (i : nat) : pystr := py "Unnamed: " ++ str_of_nat i.

(** The names after the first pass. *)
Definition header_names (fs : list pystr) : list pystr :=
  imap (fun i w => if bool_decide (w = []) then unnamed i else w) fs.

(** [col_loop_order]: the named columns, then the unnamed ones. *)
Definition loop_order (fs : list pystr) : list nat :=
  filter (fun i => fs !! i <> Some []) (seq 0 (length fs)) ++
  filter (fun i => fs !! i = Some []) (seq 0 (length fs)).

(** [f"{old_col}.{cur_count}"]. *)
Definition dotted (old : pystr) (k : nat) : pystr := old ++ py "." ++ str_of_nat k.

(** [counts.get(x, 0)]. *)
Definition cnt (c : gmap pystr nat) (x : pystr) : nat := default 0%nat (c !! x).

(** [while cur_count > 0: ...]: the new [counts] and the name chosen. *)
Fixpoint mangle_while (fuel : nat) (hdr : list pystr) (c : gmap pystr nat)
    (old col : pystr) (cur : nat) : option (gmap pystr nat * pystr) :=
  match fuel with
  | O => None
  | S f =>
      match cur with
      | O => Some (c, col)
      | S _ =>
          let c' := <[old := S cur]> c in
          let col' := dotted old cur in
          if bool_decide (col' ∈ hdr) then mangle_while f hdr c' old col' (S cur)
          else mangle_while f hdr c' old col' (cnt c' col')
      end
  end.

(** [for i in col_loop_order: ...]: [this_header] is [hdr], updated in
    place. *)
Fixpoint mangle_for (fuel : nat) (order : list nat) (hdr : list pystr)
    (c : gmap pystr nat) : option (list pystr) :=
  match order with
  | [] => Some hdr
  | i :: order' =>
      let old := default [] (hdr !! i) in
      match mangle_while fuel hdr c old old (cnt c old) with
      | Some (c', col) => mangle_for fuel order' (<[i := col]> hdr) (<[col := 1%nat]> c')
      | None => None
      end
  end.

Definition dedup_header (fs : list pystr) : option (list pystr) :=
  let hdr := header_names fs in
  mangle_for (length hdr + 2) (loop_order fs) hdr ∅.

(** ** Lemmas *)

Lemma str_of_nat_val n : digits_val (str_of_nat n) = Z.of_nat n.
Proof.
  unfold str_of_nat. destruct (digits_of_pos_spec (S n) (Z.of_nat n) []) as (_ & _ & ->);
    [lia|constructor|]. unfold digits_val. simpl. lia.
Qed.

#[local] Instance dotted_inj old : Inj (=) (=) (dotted old).
Proof.
  intros k1 k2 H. unfold dotted in H. apply app_inv_head, app_inv_head in H.
  apply (f_equal digits_val) in H. rewrite !str_of_nat_val in H. lia.
Qed.

Lemma dotted_ne old k : dotted old k <> old.
Proof.
  intros H. apply (f_equal length) in H. unfold dotted in H.
  rewrite !length_app in H. simpl in H. lia.
Qed.

(** The candidates [old.k] of one run of the loop are distinct names of the
    header, so there are at most as many as the header has names. *)
Lemma dotted_run_bound hdr old cur r :
  (forall k, (cur <= k < cur + r)%nat -> dotted old k ∈ hdr) -> (r <= length hdr)%nat.
Proof.
  intros Hin. assert (H : (length (dotted old <$> seq cur r) <= length hdr)%nat).
  { apply submseteq_length, NoDup_submseteq.
    - apply NoDup_fmap_2; [apply _|apply NoDup_seq].
    - intros x (k & -> & Hk%elem_of_seq)%list_elem_of_fmap. by apply Hin. }
  by rewrite length_fmap, length_seq in H.
Qed.

Lemma cnt_insert_eq c x v : cnt (<[x := v]> c) x = v.
Proof. unfold cnt. by rewrite lookup_insert_eq. Qed.

Lemma cnt_insert_ne c x y v : x <> y -> cnt (<[x := v]> c) y = cnt c y.
Proof. intros H. unfold cnt. by rewrite lookup_insert_ne. Qed.

(** The [while] loop, entered with a name already given out: it stops with
    a name that is neither in the header nor given out, and only the count of
    [old] changes, staying positive.  Enough fuel is two more than the
    longest run of candidates found in the header. *)
Lemma mangle_while_ok fuel hdr c old col cur :
  (forall x, (0 < cnt c x)%nat -> x ∈ hdr) -> old ∈ hdr -> (0 < cur)%nat ->
  (forall r, (forall k, (cur <= k < cur + r)%nat -> dotted old k ∈ hdr) -> (r + 2 <= fuel)%nat) ->
  exists c' col', mangle_while fuel hdr c old col cur = Some (c', col') /\
    (col' ∉ hdr) /\ cnt c' col' = 0%nat /\ (0 < cnt c' old)%nat /\
    (forall x, x <> old -> cnt c' x = cnt c x).
Proof.
  revert c col cur; induction fuel as [|f IH]; intros c col cur Hc Hold Hcur Hfuel.
  { specialize (Hfuel 0%nat ltac:(intros; lia)). lia. }
  destruct cur as [|n]; [lia|]. cbn [mangle_while].
  assert (Hc' : forall x, (0 < cnt (<[old := S (S n)]> c) x)%nat -> x ∈ hdr).
  { intros x. destruct (decide (x = old)) as [->|Hne]; [done|].
    rewrite cnt_insert_ne by congruence. apply Hc. }
  case_bool_decide as Hin.
  - destruct (IH (<[old := S (S n)]> c) (dotted old (S n)) (S (S n))) as (c' & col' & Hrun & H1 & H2 & H3 & H4);
      [done|done|lia| |].
    + intros r Hr. enough (r + 1 + 2 <= S f)%nat by lia. apply Hfuel.
      intros k Hk. destruct (decide (k = S n)) as [->|]; [done|]. apply Hr. lia.
    + exists c', col'. split_and!; try done. intros x Hx. rewrite H4 by done.
      by apply cnt_insert_ne.
  - assert (H0 : cnt (<[old := S (S n)]> c) (dotted old (S n)) = 0%nat).
    { destruct (cnt _ _) eqn:E; [done|]. exfalso. apply Hin, Hc'. lia. }
    rewrite H0. destruct f as [|f]; [specialize (Hfuel 0%nat ltac:(intros; lia)); lia|].
    cbn [mangle_while]. eexists _, _. split_and!; [reflexivity|done|done| |].
    + rewrite cnt_insert_eq. lia.
    + intros x Hx. by apply cnt_insert_ne.
Qed.

Section ForLoop.
(** The names of the first pass, which [this_header] starts from. *)
Variable orig : list pystr.

(** The invariant of the [for] loop after the columns [P]: the counts
    given out are the names of the columns done; these names are distinct;
    a column not done still has its first-pass name; a done column shares
    its name with a column not done only when it kept its own name; and a
    column whose name occurs once keeps it. *)
Definition for_inv (P : list nat) (hdr : list pystr) (c : gmap pystr nat) : Prop :=
  length hdr = length orig /\
  (forall x, (0 < cnt c x)%nat <-> exists j, j ∈ P /\ hdr !! j = Some x) /\
  (forall j1 j2 x, j1 ∈ P -> j2 ∈ P -> hdr !! j1 = Some x -> hdr !! j2 = Some x -> j1 = j2) /\
  (forall j, j ∉ P -> hdr !! j = orig !! j) /\
  (forall j i x, j ∈ P -> i ∉ P -> hdr !! j = Some x -> hdr !! i = Some x -> orig !! j = Some x) /\
  (forall j x, j ∈ P -> orig !! j = Some x -> (forall j', orig !! j' = Some x -> j' = j) ->
     hdr !! j = Some x).

Lemma for_inv_nil : for_inv [] orig ∅.
Proof.
  split_and!; try done.
  - intros x. unfold cnt. rewrite lookup_empty. simpl. split; [lia|].
    intros (j & Hj & _). by apply not_elem_of_nil in Hj.
  - intros j1 j2 x Hj. by apply not_elem_of_nil in Hj.
Qed.

(** One turn of the [for] loop keeps the invariant. *)
Lemma for_inv_step P hdr c i :
  for_inv P hdr c -> i ∉ P -> (i < length orig)%nat ->
  exists c' col,
    mangle_while (length orig + 2) hdr c (default [] (hdr !! i)) (default [] (hdr !! i))
      (cnt c (default [] (hdr !! i))) = Some (c', col) /\
    for_inv (i :: P) (<[i := col]> hdr) (<[col := 1%nat]> c').
Proof.
  intros (Hlen & Hcnt & Hdist & Hrest & Hshare & Hkeep) HiP Hi.
  destruct (lookup_lt_is_Some_2 hdr i) as [old Hold]; [lia|].
  assert (Horig : orig !! i = Some old) by (rewrite <- Hrest; done).
  assert (Hne_i : forall j, j ∈ P -> i <> j) by (intros j Hj ->; contradiction).
  rewrite Hold. simpl. destruct (cnt c old) as [|n] eqn:Hc0.
  - exists c, old. split; [by rewrite Nat.add_comm|]. rewrite list_insert_id by done.
    split_and!; [done| | | | |].
    + intros x. destruct (decide (x = old)) as [->|Hne].
      * rewrite cnt_insert_eq. split; [intros _; exists i; split; [left|done]|lia].
      * rewrite cnt_insert_ne, Hcnt by congruence. split.
        -- intros (j & Hj & Hx). exists j. split; [by right|done].
        -- intros (j & [->|Hj]%elem_of_cons & Hx); [congruence|eauto].
    + intros j1 j2 x [->|H1]%elem_of_cons [->|H2]%elem_of_cons H1x H2x; try done.
      * rewrite Hold in H1x. simplify_eq.
        assert (0 < cnt c x)%nat by (apply Hcnt; eauto). lia.
      * rewrite Hold in H2x. simplify_eq.
        assert (0 < cnt c x)%nat by (apply Hcnt; eauto). lia.
      * eauto.
    + intros j Hj. apply Hrest. intros HjP. apply Hj. by right.
    + intros j i' x [->|HjP]%elem_of_cons Hi' Hjx Hi'x.
      * by rewrite Hold in Hjx; simplify_eq.
      * apply (Hshare j i' x); try done. intros H; apply Hi'; by right.
    + intros j x [->|HjP]%elem_of_cons Hjo Huniq; [by rewrite Horig in Hjo; simplify_eq|].
      by apply Hkeep.
  - destruct (mangle_while_ok (length orig + 2) hdr c old old (S n))
      as (c' & col & Hrun & Hcol & Hc'col & Hc'old & Hc'x).
    + intros x Hx. apply Hcnt in Hx as (j & _ & Hj). by eapply list_elem_of_lookup_2.
    + by eapply list_elem_of_lookup_2.
    + lia.
    + intros r Hr. apply dotted_run_bound in Hr. lia.
    + exists c', col. split; [done|].
      destruct (proj1 (Hcnt old) ltac:(lia)) as (jo & HjoP & Hjo).
      assert (Hcolj : forall j, hdr !! j <> Some col)
        by (intros j Hj; apply Hcol; by eapply list_elem_of_lookup_2).
      split_and!.
      * by rewrite length_insert.
      * intros x. destruct (decide (x = col)) as [->|Hne].
        -- rewrite cnt_insert_eq. split; [|lia]. intros _. exists i.
           split; [left|apply list_lookup_insert_eq; lia].
        -- rewrite cnt_insert_ne by congruence. split.
           ++ intros Hx. destruct (decide (x = old)) as [->|Hxo].
              ** exists jo. split; [by right|]. by rewrite list_lookup_insert_ne by auto.
              ** rewrite Hc'x in Hx by done. apply Hcnt in Hx as (j & HjP & Hj).
                 exists j. split; [by right|]. by rewrite list_lookup_insert_ne by auto.
           ++ intros (j & [->|HjP]%elem_of_cons & Hx).
              ** rewrite list_lookup_insert_eq in Hx by lia. congruence.
              ** rewrite list_lookup_insert_ne in Hx by auto.
                 destruct (decide (x = old)) as [->|Hxo]; [lia|].
                 rewrite Hc'x by done. apply Hcnt. eauto.
      * intros j1 j2 x [->|H1]%elem_of_cons [->|H2]%elem_of_cons H1x H2x; try done.
        -- rewrite list_lookup_insert_eq in H1x by lia. rewrite list_lookup_insert_ne in H2x by auto.
           simplify_eq. by apply Hcolj in H2x.
        -- rewrite list_lookup_insert_eq in H2x by lia. rewrite list_lookup_insert_ne in H1x by auto.
           simplify_eq. by apply Hcolj in H1x.
        -- rewrite list_lookup_insert_ne in H1x, H2x by auto. eauto.
      * intros j Hj. rewrite list_lookup_insert_ne by (intros ->; apply Hj; left).
        apply Hrest. intros ?; apply Hj; by right.
      * intros j i' x [->|HjP]%elem_of_cons Hi' Hjx Hi'x;
          (assert (i' <> i) by (intros ->; apply Hi'; left));
          rewrite list_lookup_insert_ne in Hi'x by auto.
        -- rewrite list_lookup_insert_eq in Hjx by lia. simplify_eq. by apply Hcolj in Hi'x.
        -- rewrite list_lookup_insert_ne in Hjx by auto.
           apply (Hshare j i' x); try done. intros ?; apply Hi'; by right.
      * intros j x [->|HjP]%elem_of_cons Hjo' Huniq.
        -- rewrite Horig in Hjo'. simplify_eq. exfalso.
           assert (orig !! jo = Some x) by (apply (Hshare jo i x); auto).
           apply HiP. rewrite <- (Huniq jo) by done. done.
        -- rewrite list_lookup_insert_ne by auto. by apply Hkeep.
Qed.

Lemma mangle_for_ok R P hdr c :
  for_inv P hdr c -> NoDup R -> (forall i, i ∈ R -> (i ∉ P) /\ (i < length orig)%nat) ->
  exists hs c', mangle_for (length orig + 2) R hdr c = Some hs /\ for_inv (rev R ++ P) hs c'.
Proof.
  revert P hdr c; induction R as [|i R IH]; intros P hdr c Hinv HR Hin.
  { exists hdr, c. by split. }
  apply list.NoDup_cons in HR as [HiR HR].
  destruct (Hin i ltac:(left)) as [HiP Hi].
  destruct (for_inv_step P hdr c i Hinv HiP Hi) as (c' & col & Hrun & Hinv').
  destruct (IH (i :: P) _ _ Hinv' HR) as (hs & c'' & Hfor & Hinv'').
  - intros i' Hi'. destruct (Hin i' ltac:(by right)) as [Hi'P Hi'n]. split; [|done].
    intros [->|?]%elem_of_cons; [done|contradiction].
  - exists hs, c''. simpl. rewrite Hrun. split; [done|]. by rewrite <- app_assoc.
Qed.

End ForLoop.

Lemma loop_order_NoDup fs : NoDup (loop_order fs).
Proof.
  unfold loop_order. apply list.NoDup_app. split_and!; [apply list.NoDup_filter, NoDup_seq| |apply list.NoDup_filter, NoDup_seq].
  intros i (Hne & _)%list_elem_of_filter (Heq & _)%list_elem_of_filter. contradiction.
Qed.

Lemma elem_of_loop_order fs i : i ∈ loop_order fs <-> (i < length fs)%nat.
Proof.
  unfold loop_order. rewrite elem_of_app, !list_elem_of_filter, elem_of_seq.
  split; [intros [[_ ?]|[_ ?]]; lia|].
  intros ?. destruct (decide (fs !! i = Some [])); [right|left]; split; auto; lia.
Qed.

Lemma length_header_names fs : length (header_names fs) = length fs.
Proof. apply length_imap. Qed.

(** The run of both loops on the whole header. *)
Lemma dedup_header_inv fs :
  exists hs c, dedup_header fs = Some hs /\
    for_inv (header_names fs) (rev (loop_order fs) ++ []) hs c.
Proof.
  apply mangle_for_ok; [apply for_inv_nil|apply loop_order_NoDup|].
  intros i Hi. split; [apply not_elem_of_nil|].
  rewrite length_header_names. by apply elem_of_loop_order.
Qed.

(** Both loops on any header: they end, and give distinct names that keep
    every name occurring once. *)
Lemma dedup_header_sound fs :
  exists hs, dedup_header fs = Some hs /\ length hs = length fs /\ NoDup hs /\
    (forall j x, header_names fs !! j = Some x ->
       (forall j', header_names fs !! j' = Some x -> j' = j) -> hs !! j = Some x).
Proof.
  destruct (dedup_header_inv fs) as (hs & c & Hd & Hlen & _ & Hdist & _ & _ & Hkeep).
  rewrite length_header_names in Hlen. exists hs. split_and!; [done|done| |].
  - apply NoDup_alt. intros j1 j2 x H1 H2.
    apply (Hdist j1 j2 x); try done; rewrite app_nil_r; apply In_elem, (proj1 (in_rev _ _)), elem_In;
      apply elem_of_loop_order; rewrite <- Hlen; eapply lookup_lt_Some; eauto.
  - intros j x Hj Huniq. apply Hkeep; try done. rewrite app_nil_r.
    apply In_elem, (proj1 (in_rev _ _)), elem_In, elem_of_loop_order.
    rewrite <- length_header_names. eapply lookup_lt_Some; eauto.
Qed.

(** ** Properties *)

(** C19: The renaming of the header always ends: the [while] loop of
    [_get_header] never needs more turns than the header has names, so the
    fuel [dedup_header] gives is enough and it returns one name per field. *)
Theorem dedup_header_total fs :
  exists hs, dedup_header fs = Some hs /\ length hs = length fs.
Proof. destruct (dedup_header_sound fs) as (hs & Hd & Hlen & _). by exists hs. Qed.

(** C20: The column names [read_csv] gives are distinct, and a name that
    occurs once among the header's names (an empty field counting as
    [Unnamed: i]) is kept as it is. *)
Theorem dedup_header_nodup fs hs :
  dedup_header fs = Some hs ->
  NoDup hs /\
  (forall j x, header_names fs !! j = Some x ->
     (forall j', header_names fs !! j' = Some x -> j' = j) -> hs !! j = Some x).
Proof.
  intros Hd. destruct (dedup_header_sound fs) as (hs' & Hd' & _ & Hnd & Hkeep).
  rewrite Hd in Hd'. by injection Hd' as <-.
Qed.

End Header.
