(* ===== verification/Tokenizer.v ===== *)
(** * The tokenizer of [pd.read_csv]: the lexical pass of script line 18

    [tokenize_bytes] of pandas' [tokenizer.c] as a state machine over the
    characters of the file: [tstate] lists its states for the default
    dialect (quote character U+0022 doubled inside a quoted field, no escape
    character, line ends [\n], [\r\n] and [\r], blank and whitespace-only
    lines skipped), [tok_step] is one character, and [tok_eof] is the end of
    the input ([EOF inside string] when a quoted field is still open).
    The field-count check and padding of [end_line] depend only on the
    lengths of the rows and are modelled by the reader ([Loader]).

    Alongside: the plain specification [split_rows] the tokenizer refines on
    files without quotes and carriage returns, a quote-all writer for the
    round trip, and the liveness of the machine: outside a quoted field
    every line end brings it back to the start of a record. *)

From S2P Require Import Prelude PyString.
From Stdlib Require Strings.String.
Import Stdlib.Strings.String.StringSyntax.

Module Tokenizer.
Import PyStr.
Local Open Scope Z_scope.

(** ** The tokenizer *)

Inductive tstate : Type :=
| StartRecord
| StartField
| InField
| InQuoted
| QuoteInQuoted
| EatCrnl
| EatCrnlNop
| WhitespaceLine (ws : pystr).

(** The parser: its state, the field being read, the fields of the current
    row and the rows read so far. *)
Record tok : Type := mkTok {
  tst : tstate;
  tfield : pystr;
  trow : list pystr;
  trows : list (list pystr)
}.

Definition tok_init : tok := mkTok StartRecord [] [] [].

Definition is_lf (c : Z) : bool := c =? 10.
Definition is_cr (c : Z) : bool := c =? 13.
Definition is_delim (c : Z) : bool := c =? 59.
Definition is_quote (c : Z) : bool := c =? 34.
(** [IS_WHITESPACE]: a blank or a tab. *)
Definition is_blank (c : Z) : bool := (c =? 32) || (c =? 9).

Definition set_state (s : tstate) (t : tok) : tok :=
  mkTok s (tfield t) (trow t) (trows t).

(** [PUSH_CHAR]. *)
Definition push_char (c : Z) (s : tstate) (t : tok) : tok :=
  mkTok s (tfield t ++ [c]) (trow t) (trows t).

(** [END_FIELD]. *)
Definition end_field (t : tok) : tok :=
  mkTok (tst t) [] (trow t ++ [tfield t]) (trows t).

(** [END_LINE]: the row is complete and the next record starts. *)
Definition end_line (t : tok) : tok :=
  mkTok StartRecord (tfield t) [] (trows t ++ [trow t]).

(** [case IN_FIELD]. *)
Definition in_field_step (c : Z) (t : tok) : tok :=
  if is_lf c then end_line (end_field t)
  else if is_cr c then set_state EatCrnl (end_field t)
  else if is_delim c then set_state StartField (end_field t)
  else push_char c InField t.

(** [case START_FIELD]. *)
Definition start_field_step (c : Z) (t : tok) : tok :=
  if is_lf c then end_line (end_field t)
  else if is_cr c then set_state EatCrnl (end_field t)
  else if is_quote c then set_state InQuoted t
  else if is_delim c then set_state StartField (end_field t)
  else push_char c InField t.

(** [case START_RECORD]: with [skip_blank_lines] an empty line is skipped
    and a line that starts with blanks is watched in [WHITESPACE_LINE]. *)
Definition start_record_step (c : Z) (t : tok) : tok :=
  if is_lf c then t
  else if is_cr c then set_state EatCrnlNop t
  else if is_blank c then set_state (WhitespaceLine [c]) t
  else start_field_step c t.

(** One character. *)
Definition tok_step (t : tok) (c : Z) : tok :=
  match tst t with
  | StartRecord => start_record_step c t
  | StartField => start_field_step c t
  | InField => in_field_step c t
  | InQuoted =>
      if is_quote c then set_state QuoteInQuoted t else push_char c InQuoted t
  | QuoteInQuoted =>
      if is_quote c then push_char c InQuoted t
      else if is_delim c then set_state StartField (end_field t)
      else if is_lf c then end_line (end_field t)
      else if is_cr c then set_state EatCrnl (end_field t)
      else push_char c InField t
  | EatCrnl =>
      (* a [\r] ended the line: [\n] completes [\r\n], any other character
         is read again at the start of the next record *)
      if is_lf c then end_line t else start_record_step c (end_line t)
  | EatCrnlNop =>
      if is_lf c || is_delim c then set_state StartRecord t
      else start_record_step c (set_state StartRecord t)
  | WhitespaceLine ws =>
      if is_lf c then set_state StartRecord t
      else if is_cr c then set_state EatCrnlNop t
      else if is_blank c then set_state (WhitespaceLine (ws ++ [c])) t
      else
        (* not a blank line after all: the line is read again from its
           start, the blanks becoming the first characters of a field *)
        in_field_step c (mkTok InField (tfield t ++ ws) (trow t) (trows t))
  end.

(** [parser_handle_eof]: the rows read, and [false] when the input ends
    inside a quoted field ([EOF inside string]). *)
Definition tok_eof (t : tok) : list (list pystr) * bool :=
  match tst t with
  | StartRecord | WhitespaceLine _ | EatCrnlNop => (trows t, true)
  | InQuoted => (trows t, false)
  | EatCrnl => (trows (end_line t), true)
  | StartField | InField | QuoteInQuoted => (trows (end_line (end_field t)), true)
  end.

(** The tokenizer skips a byte order mark at the start of the data. *)
Definition skip_bom (text : pystr) : pystr :=
  match text with c :: r => if c =? 65279 then r else text | [] => [] end.

Definition tokenize (text : pystr) : list (list pystr) * bool :=
  tok_eof (fold_left tok_step (skip_bom text) tok_init).

(** ** The rows of a plain file

    The specification the tokenizer refines on a file with no quote and no
    carriage return: cut the text at each line feed, drop the lines made of
    blanks only, cut each remaining line at each semicolon; in Python,
    [[l.split(';') for l in text.split('\n') if l.strip(' \t')]]. *)

(** [str.split(sep)]. *)
Fixpoint split_on (sep : Z) (s : pystr) : list pystr :=
  match s with
  | [] => [[]]
  | c :: r =>
      if c =? sep then [] :: split_on sep r
      else match split_on sep r with w :: ws => (c :: w) :: ws | [] => [[c]] end
  end.

Definition blank_line (l : pystr) : bool := forallb is_blank l.

Definition split_rows (text : pystr) : list (list pystr) :=
  map (split_on 59) (List.filter (fun l => negb (blank_line l)) (split_on 10 text)).

(** The tokenizer in the middle of a line [p] of a plain file: on a blank
    prefix it is still at the start of the record (or watching blanks);
    after a non-blank character, the fields ended so far and the field
    being read are the fields of [p]. *)
Definition line_state (p : pystr) (t : tok) : Prop :=
  (blank_line p = true /\ trow t = [] /\ tfield t = [] /\
     ((tst t = StartRecord /\ p = []) \/ tst t = WhitespaceLine p)) \/
  (blank_line p = false /\ (tst t = StartField \/ tst t = InField) /\
     trow t ++ [tfield t] = split_on 59 p).

(** ** Writing a table

    The inverse direction, for the round trip: [csv.writer] with
    [quoting=QUOTE_ALL], [delimiter=';'] and [lineterminator='\n'] quotes
    every field and doubles the quote characters inside it. *)

Definition escape (w : pystr) : pystr :=
  concat (map (fun c => if is_quote c then [34; 34] else [c]) w).

Definition quote_field (w : pystr) : pystr := 34 :: escape w ++ [34].

Fixpoint join_fields (fs : list pystr) : pystr :=
  match fs with
  | [] => []
  | [w] => w
  | w :: r => w ++ 59 :: join_fields r
  end.

Definition write_row (r : list pystr) : pystr :=
  join_fields (map quote_field r) ++ [10].

Definition write_csv (rows : list (list pystr)) : pystr :=
  concat (map write_row rows).

(** Without semicolons and quotes every row read has exactly one field. *)
Definition one_field (t : tok) : Prop :=
  Forall (fun r => length r = 1%nat) (trows t) /\
  match tst t with
  | EatCrnl => length (trow t) = 1%nat
  | StartField | InQuoted | QuoteInQuoted => False
  | _ => trow t = []
  end.

(** ** The tokenizer's lemmas *)

Lemma tok_step_in_quoted f r rs c :
  tok_step (mkTok InQuoted f r rs) c
  = if is_quote c then mkTok QuoteInQuoted f r rs else mkTok InQuoted (f ++ [c]) r rs.
Proof. reflexivity. Qed.

Lemma tok_fold_escape w t :
  tst t = InQuoted ->
  fold_left tok_step (escape w) t = mkTok InQuoted (tfield t ++ w) (trow t) (trows t).
Proof.
  revert t; induction w as [|c w IH]; intros [s f r rs] Hs; simpl in Hs; subst.
  - simpl. by rewrite app_nil_r.
  - unfold escape; cbn [map concat]. change (concat (map _ w)) with (escape w).
    destruct (is_quote c) eqn:Hq; cbn [app fold_left].
    + unfold is_quote in Hq. apply Z.eqb_eq in Hq. subst.
      rewrite IH by reflexivity. cbn. by rewrite <- app_assoc.
    + rewrite tok_step_in_quoted, Hq, IH by reflexivity. cbn. by rewrite <- app_assoc.
Qed.

(** A quoted field read from the start of a field, up to its closing quote. *)
Lemma tok_fold_quote_field w rest t :
  (tst t = StartRecord \/ tst t = StartField) -> tfield t = [] ->
  fold_left tok_step (quote_field w ++ rest) t
  = fold_left tok_step rest (mkTok QuoteInQuoted w (trow t) (trows t)).
Proof.
  intros Hs Hf. destruct t as [s f r rs]; cbn [tst tfield trow trows] in *; subst.
  unfold quote_field. rewrite <- app_comm_cons, <- app_assoc. cbn [fold_left].
  assert (Hq : tok_step (mkTok s [] r rs) 34 = mkTok InQuoted [] r rs)
    by (destruct Hs; subst; reflexivity).
  rewrite Hq, fold_left_app, tok_fold_escape by reflexivity. reflexivity.
Qed.

Lemma tok_fold_row r t :
  r <> [] -> (tst t = StartRecord \/ tst t = StartField) -> tfield t = [] ->
  fold_left tok_step (join_fields (map quote_field r) ++ [10]) t
  = mkTok StartRecord [] [] (trows t ++ [trow t ++ r]).
Proof.
  revert t; induction r as [|w r IH]; intros t Hr Hs Hf; [done|].
  destruct r as [|w' r].
  - cbn [map join_fields]. rewrite tok_fold_quote_field by done. destruct t. by cbn.
  - change (join_fields (map quote_field (w :: w' :: r)))
      with (quote_field w ++ 59 :: join_fields (map quote_field (w' :: r))).
    rewrite <- app_assoc, tok_fold_quote_field by done. cbn [app fold_left].
    rewrite IH by (cbn; auto || done). destruct t. cbn. by rewrite <- app_assoc.
Qed.

Lemma skip_bom_write_csv rows :
  Forall (fun r => r <> []) rows -> skip_bom (write_csv rows) = write_csv rows.
Proof.
  intros Hr. destruct Hr as [|r rows Hne _]; [done|].
  destruct r as [|w [|w' r]]; [done| |]; reflexivity.
Qed.

Lemma tok_fold_write_csv rows t :
  Forall (fun r => r <> []) rows -> tst t = StartRecord -> tfield t = [] -> trow t = [] ->
  fold_left tok_step (write_csv rows) t = mkTok StartRecord [] [] (trows t ++ rows).
Proof.
  intros Hr; revert t; induction Hr as [|r rows Hne _ IH]; intros [s f row rs] Hs Hf Hrow;
    cbn [tst tfield trow trows] in *; subst.
  - by rewrite app_nil_r.
  - unfold write_csv; cbn [map concat]. rewrite fold_left_app.
    unfold write_row. rewrite tok_fold_row by auto. cbn.
    fold (write_csv rows). rewrite IH by done. cbn. by rewrite <- app_assoc.
Qed.

(** ** The refinement's lemmas *)

Lemma split_on_last sep p : exists xs x, split_on sep p = xs ++ [x].
Proof.
  assert (Hne : split_on sep p <> []).
  { destruct p as [|c p]; simpl; [done|]. destruct (c =? sep); [done|]. by destruct (split_on sep p). }
  destruct (exists_last Hne) as (xs & x & ->). by exists xs, x.
Qed.

Lemma split_on_snoc sep p c xs x :
  split_on sep p = xs ++ [x] ->
  split_on sep (p ++ [c]) = if c =? sep then xs ++ [x; []] else xs ++ [x ++ [c]].
Proof.
  revert xs x; induction p as [|d p IH]; intros xs x Hp.
  - destruct xs as [|? [|]]; simpl in Hp; invc Hp. simpl. by destruct (c =? sep).
  - destruct (split_on_last sep p) as (ys & y & Hy). specialize (IH _ _ Hy).
    simpl in *. rewrite IH. rewrite Hy in Hp. destruct (d =? sep).
    + rewrite app_comm_cons in Hp. apply app_inj_tail in Hp as [<- <-].
      by destruct (c =? sep).
    + destruct ys as [|y0 ys]; simpl in Hp |- *.
      * apply (app_inj_tail [] xs) in Hp as [<- <-]. by destruct (c =? sep).
      * rewrite app_comm_cons in Hp. apply app_inj_tail in Hp as [<- <-].
        by destruct (c =? sep).
Qed.

Lemma blank_line_snoc p c : blank_line (p ++ [c]) = blank_line p && is_blank c.
Proof. unfold blank_line. rewrite forallb_app. simpl. by rewrite andb_true_r. Qed.

Lemma split_on_none sep p : sep ∉ p -> split_on sep p = [p].
Proof.
  induction p as [|c p IH]; simpl; [done|]. intros Hp.
  rewrite IH by (intros H; apply Hp; by right).
  destruct (Z.eqb_spec c sep); [subst; destruct Hp; left|done].
Qed.

Lemma blank_no_delim p : blank_line p = true -> 59 ∉ p.
Proof.
  unfold blank_line. rewrite forallb_forall. intros Hp Hin%elem_In.
  apply Hp in Hin. discriminate.
Qed.

Lemma split_on_blank p : blank_line p = true -> split_on 59 p = [p].
Proof. intros Hb. by apply split_on_none, blank_no_delim. Qed.

Lemma split_on_app_sep sep p s : sep ∉ p -> split_on sep (p ++ sep :: s) = p :: split_on sep s.
Proof.
  induction p as [|c p IH]; simpl; intros Hp; [by rewrite Z.eqb_refl|].
  rewrite IH by (intros H; apply Hp; by right).
  destruct (Z.eqb_spec c sep); [subst; destruct Hp; left|done].
Qed.

(** The rows of one line of a plain file. *)
Definition line_rows (p : pystr) : list (list pystr) :=
  if blank_line p then [] else [split_on 59 p].

Lemma split_rows_line p : 10 ∉ p -> split_rows p = line_rows p.
Proof.
  intros Hp. unfold split_rows, line_rows. rewrite split_on_none by done. simpl.
  by destruct (blank_line p).
Qed.

Lemma split_rows_app p s : 10 ∉ p -> split_rows (p ++ 10 :: s) = line_rows p ++ split_rows s.
Proof.
  intros Hp. unfold split_rows, line_rows. rewrite split_on_app_sep by done. simpl.
  by destruct (blank_line p).
Qed.

Lemma line_state_step p t c :
  c <> 10 -> c <> 13 -> c <> 34 -> line_state p t ->
  line_state (p ++ [c]) (tok_step t c) /\ trows (tok_step t c) = trows t.
Proof.
  intros H10 H13 H34. apply Z.eqb_neq in H10, H13, H34.
  unfold line_state; rewrite blank_line_snoc.
  intros [(Hb & Hr & Hf & [[Hs ->]|Hs])|(Hb & Hs & Hsp)];
    destruct t as [st f r rs]; simpl in *; subst;
    unfold tok_step, start_record_step, start_field_step, in_field_step,
      is_lf, is_cr, is_quote, is_delim, end_field, set_state, push_char; simpl;
    rewrite ?H10, ?H13, ?H34, ?Hb; simpl.
  - destruct (is_blank c) eqn:Hc; [split; [left; cbn; split_and!; auto|done]|].
    destruct (c =? 59) eqn:Hd; (split; [right; cbn; split_and!; auto|done]).
  - rewrite (split_on_snoc _ _ _ [] p) by (by apply split_on_blank).
    destruct (is_blank c) eqn:Hc; [split; [left; cbn; split_and!; auto|done]|].
    destruct (c =? 59) eqn:Hd; (split; [right; cbn; split_and!; auto|done]).
  - rewrite (split_on_snoc _ _ _ r f) by done.
    destruct Hs as [-> | ->]; cbn; rewrite ?H10, ?H13, ?H34; destruct (c =? 59) eqn:Hd;
      (split; [right; cbn; split_and!; auto; by rewrite <- app_assoc|done]).
Qed.

Lemma line_state_lf p t :
  line_state p t -> line_state [] (tok_step t 10) /\ trows (tok_step t 10) = trows t ++ line_rows p.
Proof.
  unfold line_state, line_rows.
  intros [(Hb & Hr & Hf & [[Hs ->]|Hs])|(Hb & [Hs|Hs] & Hsp)];
    destruct t as [st f r rs]; simpl in *; subst; rewrite ?Hb; cbn;
    (split; [left; split_and!; auto|]); rewrite ?app_nil_r, ?Hsp; done.
Qed.

Lemma line_state_eof p t : line_state p t -> tok_eof t = (trows t ++ line_rows p, true).
Proof.
  unfold line_state, line_rows.
  intros [(Hb & Hr & Hf & [[Hs ->]|Hs])|(Hb & [Hs|Hs] & Hsp)];
    destruct t as [st f r rs]; simpl in *; subst; rewrite ?Hb; cbn;
    rewrite ?app_nil_r, ?Hsp; done.
Qed.

Lemma tok_fold_plain s p t :
  Forall (fun c => c <> 13 /\ c <> 34) s -> 10 ∉ p -> line_state p t ->
  tok_eof (fold_left tok_step s t) = (trows t ++ split_rows (p ++ s), true).
Proof.
  intros Hs; revert p t; induction Hs as [|c s [H13 H34] _ IH]; intros p t Hp Ht; simpl.
  - by rewrite app_nil_r, split_rows_line, (line_state_eof p).
  - destruct (Z.eqb_spec c 10) as [->|H10].
    + destruct (line_state_lf p t Ht) as [Ht' Hrows].
      rewrite (IH [] _), split_rows_app, Hrows, app_assoc by (done || apply not_elem_of_nil).
      done.
    + destruct (line_state_step p t c H10 H13 H34 Ht) as [Ht' Hrows].
      rewrite (IH (p ++ [c]) _), Hrows, <- app_assoc; [done| |done].
      rewrite elem_of_app, list_elem_of_singleton. intros [?|?]; auto.
Qed.

Lemma skip_bom_sub text c : c ∈ skip_bom text -> c ∈ text.
Proof. destruct text as [|d r]; simpl; [done|]. destruct (d =? 65279); [by right|done]. Qed.

Lemma one_field_step t c :
  is_delim c = false -> is_quote c = false -> one_field t -> one_field (tok_step t c).
Proof.
  intros Hd Hq. destruct t as [st f r rs]. unfold one_field; cbn [tst trow trows].
  intros [Hrs Hst].
  destruct st; try done; unfold tok_step, start_record_step, start_field_step, in_field_step;
    rewrite ?Hd, ?Hq; cbn [tst trow trows];
    repeat match goal with |- context [if ?b then _ else _] => destruct b end;
    cbn; subst; rewrite ?Forall_app; simpl; auto.
  all: destruct r as [|? [|]]; simpl in *; try lia; auto.
Qed.

Lemma one_field_fold text t :
  Forall (fun c => is_delim c = false /\ is_quote c = false) text ->
  one_field t -> one_field (fold_left tok_step text t).
Proof.
  intros Htext; revert t; induction Htext as [|c text [Hd Hq] _ IH]; intros t Ht; [done|].
  simpl. by apply IH, one_field_step.
Qed.

Lemma one_field_tokenize text rows closed :
  Forall (fun c => is_delim c = false /\ is_quote c = false) text ->
  tokenize text = (rows, closed) -> closed = true /\ Forall (fun r => length r = 1%nat) rows.
Proof.
  intros Htext. unfold tokenize.
  assert (Hb : Forall (fun c => is_delim c = false /\ is_quote c = false) (skip_bom text))
    by (destruct Htext as [|c ? ? Hr]; [done|]; simpl; destruct (c =? 65279); auto).
  pose proof (one_field_fold _ tok_init Hb (conj (Forall_nil _) eq_refl)) as [Hrs Hst].
  destruct (fold_left tok_step (skip_bom text) tok_init) as [[] f r rs]; cbn in *;
    try done; intros [= <- <-]; rewrite ?Forall_app; subst; auto.
Qed.

(** ** Liveness: every line end outside quotes ends the record

    The tokenizer run on its input as a transition system whose step reads
    one character; [eventually P t s] holds when some prefix of [s] read
    from [t] leads to a state satisfying [P] (the [eventually] of
    omni-semantics, for a deterministic step). *)

Inductive eventually (P : tok -> Prop) : tok -> pystr -> Prop :=
| ev_now t s : P t -> eventually P t s
| ev_step t c s : eventually P (tok_step t c) s -> eventually P t (c :: s).

(** The tokenizer is back at the start of a record, every row read from
    [t] on kept. *)
Definition record_start (t : tok) (t' : tok) : Prop :=
  tst t' = StartRecord /\ trows t `prefix_of` trows t'.

Lemma eventually_impl (P Q : tok -> Prop) t s :
  (forall t', P t' -> Q t') -> eventually P t s -> eventually Q t s.
Proof. intros HPQ. induction 1; [apply ev_now|apply ev_step]; auto. Qed.

Lemma eventually_app P t s1 s2 :
  eventually P (fold_left tok_step s1 t) s2 -> eventually P t (s1 ++ s2).
Proof. revert t; induction s1 as [|c s1 IH]; intros t H; simpl in *; [done|]. by apply ev_step, IH. Qed.

Lemma start_record_rows c t : trows t `prefix_of` trows (start_record_step c t).
Proof.
  unfold start_record_step, start_field_step, in_field_step.
  repeat case_match; simpl; by try apply prefix_app_r.
Qed.

(** No step forgets a row. *)
Lemma tok_step_rows t c : trows t `prefix_of` trows (tok_step t c).
Proof.
  destruct t as [[] f r rs]; unfold tok_step, in_field_step, start_field_step;
    try apply start_record_rows;
    repeat case_match; simpl; try apply prefix_app_r; try done.
  all: first [apply start_record_rows | etrans; [|apply start_record_rows]; simpl; by apply prefix_app_r].
Qed.

Lemma tok_fold_rows s t : trows t `prefix_of` trows (fold_left tok_step s t).
Proof. revert t; induction s as [|c s IH]; intros t; simpl; [done|]. etrans; [apply tok_step_rows|apply IH]. Qed.

(** Outside a quoted field a character other than a quote never opens
    one ... *)
Lemma tok_step_unquoted t c :
  tst t <> InQuoted -> is_quote c = false -> tst (tok_step t c) <> InQuoted.
Proof.
  destruct t as [[] f r rs]; intros Hq Hc; try done;
    unfold tok_step, start_record_step, start_field_step, in_field_step; rewrite ?Hc;
    repeat case_match; simpl; discriminate.
Qed.

Lemma tok_fold_unquoted s t :
  Forall (fun c => is_quote c = false) s -> tst t <> InQuoted ->
  tst (fold_left tok_step s t) <> InQuoted.
Proof. intros Hs; revert t; induction Hs; intros t Ht; simpl; [done|]. by apply IHHs, tok_step_unquoted. Qed.

(** ... and a line feed read outside one ends the record. *)
Lemma tok_step_lf t : tst t <> InQuoted -> tst (tok_step t 10) = StartRecord.
Proof. by destruct t as [[] f r rs]. Qed.

(** Inside a quoted field, a text without quotes is field content. *)
Lemma tok_fold_in_quoted s f r rs :
  Forall (fun c => is_quote c = false) s ->
  fold_left tok_step s (mkTok InQuoted f r rs) = mkTok InQuoted (f ++ s) r rs.
Proof.
  intros Hs; revert f; induction Hs as [|c s Hc _ IH]; intros f; simpl; [by rewrite app_nil_r|].
  rewrite tok_step_in_quoted, Hc, IH. by rewrite <- app_assoc.
Qed.

Lemma quote_free (l : pystr) : 34 ∉ l -> Forall (fun c => is_quote c = false) l.
Proof. intros H. apply Forall_forall. intros c Hc%In_elem. apply Z.eqb_neq. by intros ->. Qed.

(** ** Properties *)

(** C21: The tokenizer reads back a table written with every field quoted:
    whatever the fields hold (semicolons, quotes, line ends, blanks or the
    NA spellings), [tokenize] returns the rows written, with no open quote,
    as long as no row is empty. *)
Theorem tokenize_write_csv rows :
  Forall (fun r => r <> []) rows -> tokenize (write_csv rows) = (rows, true).
Proof.
  intros Hr. unfold tokenize. rewrite skip_bom_write_csv, tok_fold_write_csv by done.
  reflexivity.
Qed.

(** C16: On a file with no quote and no carriage return, the character-level
    tokenizer refines the plain specification [split_rows]: its rows are the
    lines of the file (after the byte order mark) that hold a non-blank
    character, each cut at every semicolon. *)
Theorem tokenize_plain text :
  13 ∉ text -> 34 ∉ text -> tokenize text = (split_rows (skip_bom text), true).
Proof.
  intros H13 H34. unfold tokenize.
  rewrite (tok_fold_plain _ []); [done| |apply not_elem_of_nil|left; cbn; split_and!; auto].
  apply Forall_forall. intros c Hc%In_elem%skip_bom_sub.
  split; intros ->; auto.
Qed.

(** C17: Liveness of the tokenizer: from any state outside a quoted field,
    a line without quote characters followed by a line feed brings the
    machine back to the start of a record, with every row read so far
    kept, whatever comes after; a malformed line never spoils the lines
    after it.  Inside an open quoted field no line end does: a text without
    quotes is read into the field, line feeds included, and the file then
    ends with [EOF inside string]. *)
Theorem tokenize_resync t l rest :
  34 ∉ l ->
  (tst t <> InQuoted -> eventually (record_start t) t (l ++ 10 :: rest)) /\
  (tst t = InQuoted -> 34 ∉ rest ->
     fold_left tok_step (l ++ 10 :: rest) t = mkTok InQuoted (tfield t ++ l ++ 10 :: rest) (trow t) (trows t) /\
     snd (tok_eof (fold_left tok_step (l ++ 10 :: rest) t)) = false).
Proof.
  intros Hl%quote_free. split.
  - intros Ht. apply eventually_app, ev_step, ev_now. split.
    + by apply tok_step_lf, tok_fold_unquoted.
    + etrans; [apply tok_fold_rows|apply tok_step_rows].
  - intros Ht Hr%quote_free. destruct t as [st f r rs]; simpl in Ht; subst.
    rewrite tok_fold_in_quoted; [done|]. apply Forall_app. split; [done|]. by constructor.
Qed.

End Tokenizer.
