(* ===== verification/ByteTokenizer.v ===== *)
(** * The tokenizer on the bytes of the file

    pandas' C tokenizer runs on the bytes of the file, not on code points
    ([Utf8]): [tokenize_bytes] is [tokenize_bytes] of [tokenizer.c] with
    its [CHECK_FOR_BOM] on the first three bytes, the same state machine
    [Tokenizer.tok_step] read byte by byte.  Every byte the machine treats
    specially (line feed, carriage return, [;], the quote, blank, tab) is
    ASCII, and no byte of a multi-byte UTF-8 sequence is, so on the
    encoding of a text the byte machine simulates the code-point machine:
    [tok_fold_encode] relates their states through [enc_tok], and
    [tokenize_bytes_encode] says that tokenizing the bytes gives the
    encodings of the fields of the text. *)

From S2P Require Import Prelude PyString Utf8 Tokenizer.

Module ByteTokenizer.
Import PyStr Utf8 Tokenizer.
Local Open Scope Z_scope.

(** [CHECK_FOR_BOM]. *)
Definition skip_bom_bytes (bs : list Z) : list Z :=
  if bool_decide (take 3 bs = [239; 187; 191]) then drop 3 bs else bs.

Definition tokenize_bytes (bs : list Z) : list (list (list Z)) * bool :=
  tok_eof (fold_left tok_step (skip_bom_bytes bs) tok_init).

(** ** The simulation *)

Definition enc_state (s : tstate) : tstate :=
  match s with WhitespaceLine ws => WhitespaceLine (utf8_encode ws) | s => s end.

(** The byte machine's state on the encoding of what the code-point machine
    read. *)
Definition enc_tok (t : tok) : tok :=
  mkTok (enc_state (tst t)) (utf8_encode (tfield t)) (map utf8_encode (trow t))
        (map (map utf8_encode) (trows t)).

(** A character the machine never treats specially. *)
Definition plain (x : Z) : bool :=
  negb (is_lf x || is_cr x || is_delim x || is_quote x || is_blank x).

(** What happens before a plain character is pushed: the pending line
    end of [EAT_CRNL] is taken, the blanks watched in [WHITESPACE_LINE]
    become the start of the field. *)
Definition plain_pre (t : tok) : tok :=
  match tst t with
  | EatCrnl => end_line t
  | WhitespaceLine ws => mkTok InField (tfield t ++ ws) (trow t) (trows t)
  | _ => t
  end.

Definition plain_target (s : tstate) : tstate :=
  match s with InQuoted => InQuoted | _ => InField end.

(** ** Lemmas *)

Lemma tok_step_plain t x :
  plain x = true -> tok_step t x = push_char x (plain_target (tst t)) (plain_pre t).
Proof.
  unfold plain. destruct (is_lf x) eqn:Hl, (is_cr x) eqn:Hc, (is_delim x) eqn:Hd,
    (is_quote x) eqn:Hq, (is_blank x) eqn:Hb; try discriminate; intros _.
  destruct t as [[] f r rs]; unfold tok_step, start_record_step, start_field_step, in_field_step;
    cbn [tst]; by rewrite ?Hl, ?Hc, ?Hd, ?Hq, ?Hb.
Qed.

Lemma high_plain x : 128 <= x -> plain x = true.
Proof.
  intros Hx. unfold plain, is_lf, is_cr, is_delim, is_quote, is_blank.
  repeat match goal with |- context [?a =? ?b] => destruct (Z.eqb_spec a b); [lia|] end. done.
Qed.

(** Inside a field, plain characters are pushed one after the other. *)
Lemma tok_fold_field xs st f r rs :
  st = InField \/ st = InQuoted -> Forall (fun x => plain x = true) xs ->
  fold_left tok_step xs (mkTok st f r rs) = mkTok st (f ++ xs) r rs.
Proof.
  intros Hst Hxs. revert f. induction Hxs as [|x xs Hx _ IH]; intros f; simpl; [by rewrite app_nil_r|].
  rewrite tok_step_plain by done.
  destruct Hst as [-> | ->]; unfold plain_pre, plain_target, push_char; cbn [tst tfield trow trows];
    rewrite IH; by rewrite <- app_assoc.
Qed.

Lemma utf8_encode_single c : 0 <= c < 128 -> utf8_encode [c] = [c].
Proof. intros. unfold utf8_encode. simpl. by rewrite utf8_char_ascii. Qed.

(** An ASCII character: the two machines take the same step. *)
Lemma tok_step_ascii t c : 0 <= c < 128 -> tok_step (enc_tok t) c = enc_tok (tok_step t c).
Proof.
  intros Hc. destruct t as [[] f r rs];
    unfold tok_step, start_record_step, start_field_step, in_field_step, enc_tok;
    cbn [tst tfield trow trows enc_state];
    destruct (is_lf c), (is_cr c), (is_delim c), (is_quote c), (is_blank c); cbn [orb];
    unfold end_line, end_field, push_char, set_state; cbn [tst tfield trow trows enc_state map];
    rewrite ?map_app; cbn [map];
    rewrite ?map_app, ?utf8_encode_app, ?utf8_encode_single by done; reflexivity.
Qed.

Lemma plain_pre_enc t : plain_pre (enc_tok t) = enc_tok (plain_pre t).
Proof.
  destruct t as [[] f r rs]; unfold plain_pre, enc_tok, end_line; cbn [tst tfield trow trows enc_state];
    rewrite ?map_app, ?utf8_encode_app; reflexivity.
Qed.

Lemma plain_target_enc s : plain_target (enc_state s) = plain_target s.
Proof. by destruct s. Qed.

(** A code point outside ASCII: the byte machine pushes its bytes where the
    code-point machine pushes it. *)
Lemma tok_fold_high t c :
  valid c -> 128 <= c -> fold_left tok_step (utf8_char c) (enc_tok t) = enc_tok (tok_step t c).
Proof.
  intros Hv Hc. destruct (utf8_char_high c Hv Hc) as [Hne Hall].
  destruct (utf8_char c) as [|b bs] eqn:Hu; [done|]. inversion Hall as [|? ? Hb Hbs]; subst.
  simpl. rewrite (tok_step_plain _ b) by (by apply high_plain).
  rewrite (tok_step_plain t c) by (by apply high_plain).
  change (tst (enc_tok t)) with (enc_state (tst t)). rewrite plain_pre_enc, plain_target_enc.
  destruct (plain_pre t) as [st f r rs] eqn:Hp.
  unfold push_char, enc_tok. cbn [tst tfield trow trows].
  rewrite tok_fold_field.
  - unfold utf8_encode. rewrite map_app, concat_app. simpl. rewrite Hu, app_nil_r.
    rewrite <- app_assoc. by destruct (tst t).
  - destruct (tst t); auto.
  - eapply Forall_impl; [|exact Hbs]. intros x Hx. by apply high_plain.
Qed.

(** The simulation over a whole valid text. *)
Lemma tok_fold_encode s t :
  Forall valid s -> fold_left tok_step (utf8_encode s) (enc_tok t) = enc_tok (fold_left tok_step s t).
Proof.
  intros Hs. revert t. induction Hs as [|c s Hc _ IH]; intros t; [done|].
  rewrite utf8_encode_cons, fold_left_app. simpl fold_left.
  destruct (Z.ltb_spec c 128).
  - rewrite utf8_char_ascii by (destruct Hc; lia). simpl. rewrite tok_step_ascii by (destruct Hc; lia).
    apply IH.
  - rewrite tok_fold_high by done. apply IH.
Qed.

Lemma tok_eof_enc t :
  tok_eof (enc_tok t) = (map (map utf8_encode) (fst (tok_eof t)), snd (tok_eof t)).
Proof.
  destruct t as [[] f r rs]; unfold tok_eof, enc_tok, end_line, end_field;
    cbn [tst tfield trow trows enc_state fst snd]; rewrite ?map_app; cbn [map];
    rewrite ?map_app; reflexivity.
Qed.

(** Only U+FEFF is encoded with the three bytes [CHECK_FOR_BOM] skips. *)
Lemma take3_utf8_char c rest :
  valid c -> c <> 65279 -> take 3 (utf8_char c ++ rest) <> [239; 187; 191].
Proof.
  intros [Hc _] Hne. unfold utf8_char.
  destruct (Z.ltb_spec c 128); [simpl; intros [=]; lia|].
  destruct (Z.ltb_spec c 2048).
  { simpl. intros [= E1 _]. pose proof (Z.div_pos c 64). assert (c / 64 < 32) by (apply Z.div_lt_upper_bound; lia). lia. }
  destruct (Z.ltb_spec c 65536).
  { simpl. intros [= E1 E2 E3].
    replace (c / 4096) with (c / 64 / 64) in E1 by (rewrite Z.div_div by lia; reflexivity).
    destruct (digit64 c) as (Ha & Hb & _); [lia|].
    destruct (digit64 (c / 64)) as (Ha2 & Hb2 & _); [lia|]. lia. }
  simpl. intros [= E1 _]. pose proof (Z.div_pos c 262144). lia.
Qed.

Lemma skip_bom_bytes_encode text :
  Forall valid text -> skip_bom_bytes (utf8_encode text) = utf8_encode (skip_bom text).
Proof.
  intros Hv. destruct text as [|c r]; [done|]. inversion Hv as [|? ? Hc _]; subst.
  unfold skip_bom. destruct (Z.eqb_spec c 65279) as [->|Hne]; [reflexivity|].
  unfold skip_bom_bytes. rewrite bool_decide_false; [done|]. by apply take3_utf8_char.
Qed.

Lemma enc_tok_init : enc_tok tok_init = tok_init.
Proof. reflexivity. Qed.

(** Every character the tokenizer puts in a field was read from its input. *)
Definition tok_all (P : Z -> Prop) (t : tok) : Prop :=
  Forall P (tfield t) /\ Forall (Forall P) (trow t) /\ Forall (Forall (Forall P)) (trows t) /\
  match tst t with WhitespaceLine ws => Forall P ws | _ => True end.

Ltac forall_app :=
  repeat match goal with
  | |- Forall _ (_ ++ _) => apply Forall_app; split
  | |- Forall _ (_ :: _) => constructor
  | |- Forall _ [] => constructor
  | |- _ /\ _ => split
  | |- True => exact I
  end; try assumption.

Lemma tok_all_step P t c : P c -> tok_all P t -> tok_all P (tok_step t c).
Proof.
  intros Hc. destruct t as [[] f r rs]; unfold tok_all; cbn [tst tfield trow trows];
    intros (Hf & Hr & Hrs & Hw);
    unfold tok_step, start_record_step, start_field_step, in_field_step;
    destruct (is_lf c), (is_cr c), (is_delim c), (is_quote c), (is_blank c); cbn [orb];
    unfold end_line, end_field, push_char, set_state; cbn [tst tfield trow trows]; forall_app.
Qed.

Lemma tok_all_fold P s t : Forall P s -> tok_all P t -> tok_all P (fold_left tok_step s t).
Proof. intros Hs; revert t; induction Hs; intros t Ht; simpl; [done|]. auto using tok_all_step. Qed.

Lemma tokenize_all P text : Forall P text -> Forall (Forall (Forall P)) (fst (tokenize text)).
Proof.
  intros Hv. unfold tokenize.
  assert (Hb : Forall P (skip_bom text)).
  { destruct text as [|c r]; [done|]. simpl. inversion Hv; subst. by destruct (c =? 65279). }
  pose proof (tok_all_fold P _ tok_init Hb ltac:(unfold tok_all; simpl; forall_app)) as Ht.
  destruct (fold_left tok_step (skip_bom text) tok_init) as [[] f r rs];
    destruct Ht as (Hf & Hr & Hrs & _); unfold tok_eof, end_line, end_field; cbn; forall_app.
Qed.

(** ** The tokenizer on bytes refines the tokenizer on code points *)

(** On the UTF-8 encoding of a valid text, the byte tokenizer gives the
    encodings of the rows and fields the code-point tokenizer gives, and
    the same verdict on an open quote. *)
Lemma tokenize_bytes_encode text :
  Forall valid text ->
  tokenize_bytes (utf8_encode text) =
    (map (map utf8_encode) (fst (tokenize text)), snd (tokenize text)).
Proof.
  intros Hv. unfold tokenize_bytes, tokenize. rewrite skip_bom_bytes_encode by done.
  rewrite <- enc_tok_init, tok_fold_encode, tok_eof_enc; [done|].
  destruct text as [|c r]; [done|]. simpl. inversion Hv; subst.
  by destruct (c =? 65279).
Qed.

End ByteTokenizer.
