(* ===== verification/Loader.v ===== *)
(** * The Loader: script line 18, [pd.read_csv('data/Wine_Data.csv', sep=';')]

    The reader of the C engine ([TextReader] in [parsers.pyx]) over the rows
    of the tokenizer ([Tokenizer]): the first row is the header, renamed
    by [_get_header] ([Header]); the field count of every data row is
    checked and padded as [end_line] of [tokenizer.c] does; a first data
    row longer than the header makes its leading fields an implicit index;
    each field of the default [na_values] becomes [NaN] and each column is
    typed: numeric when every other field parses with [xstrtod]
    (surrounding ASCII blanks allowed, the whole field consumed) or is an
    [inf] word, else [bool] when every other field is [True] or [False]
    in any case, text otherwise.  A text column keeps its fields as they
    are, blanks included: the Cleaner strips them afterwards. *)

From S2P Require Import Prelude PyString Utf8 PyFloat Frame Cleaner Header Tokenizer ByteTokenizer.
From Stdlib Require Strings.String.
Import Stdlib.Strings.String.StringSyntax.

Module Loader.
Import PyStr Utf8 FloatParse Frame Cleaner Header Tokenizer ByteTokenizer.
Local Open Scope Z_scope.

(** ** Fields to cells *)

(** [STR_NA_VALUES], the default [na_values] of pandas 2. *)
Definition na_values : list pystr :=
  [py "-1.#IND"; py "1.#QNAN"; py "1.#IND"; py "-1.#QNAN"; py "#N/A N/A";
   py "#N/A"; py "N/A"; py "n/a"; py "NA"; py "<NA>"; py "#NA"; py
   "NULL"; py "null"; py "NaN"; py "-NaN"; py "nan"; py "-nan"; py
   "None"; []].

Definition is_na (w : pystr) : bool := bool_decide (w ∈ na_values).

(** [isspace_ascii]. *)
Definition is_ascii_space (c : Z) : bool := (c =? 32) || ((9 <=? c) && (c <=? 13)).

Fixpoint drop_ascii_space (s : pystr) : pystr :=
  match s with
  | c :: r => if is_ascii_space c then drop_ascii_space r else s
  | [] => []
  end.

Definition word_is (w spelling : pystr) : bool :=
  match match_ci spelling w with Some [] => true | _ => false end.

(** [_try_double]: [xstrtod] skips ASCII blanks around the number and must
    consume the whole field; otherwise the field may spell an infinity. *)
Definition csv_number (w : pystr) : option Q :=
  match strtod (drop_ascii_space w) with
  | Some (q, rest) => if bool_decide (drop_ascii_space rest = []) then Some q else None
  | None => None
  end.

Definition csv_float (w : pystr) : option pyfloat :=
  match csv_number w with
  | Some q => Some (Fin q)
  | None =>
      if existsb (word_is w) [py "inf"; py "+inf"; py "infinity"; py "+infinity"]
      then Some (Inf false)
      else if existsb (word_is w) [py "-inf"; py "-infinity"]
      then Some (Inf true) else None
  end.

(** A field becomes a cell of a numeric column ... *)
Definition num_cell (w : pystr) : cell :=
  if is_na w then CNum NaN else CNum (default NaN (csv_float w)).

(** ... or of a text ([object]) column. *)
Definition str_cell (w : pystr) : cell :=
  if is_na w then CNum NaN else CStr w.

(** [_try_bool_flex]: a field of [true_values] ([True], [TRUE], [true]) or
    [false_values] ([False], [FALSE], [false]), or failing that one that
    [to_boolean] accepts, [TRUE] or [FALSE] in any case: together, the
    two words in any case, nothing around them. *)
Definition csv_bool (w : pystr) : option bool :=
  if word_is w (py "true") then Some true
  else if word_is w (py "false") then Some false
  else None.

(** ... or of a [bool] column, which [_maybe_upcast] turns into an
    [object] column of [True], [False] and [NaN] when a field is missing. *)
Definition bool_cell (w : pystr) : cell :=
  if is_na w then CNum NaN else CBool (default false (csv_bool w)).

(** [_convert_tokens] tries the dtypes of [dtype_cast_order] in turn:
    [int64], then [float64] (one test here: [int64] values are the
    integral [float64] ones), then [bool], then [object]. *)
Definition numeric_column (ws : list pystr) : bool :=
  forallb (fun w => is_na w || bool_decide (is_Some (csv_float w))) ws.

Definition bool_column (ws : list pystr) : bool :=
  forallb (fun w => is_na w || bool_decide (is_Some (csv_bool w))) ws.

Definition convert_column (ws : list pystr) : series :=
  if numeric_column ws then map num_cell ws
  else if bool_column ws then map bool_cell ws
  else map str_cell ws.

(** ** The reader *)

(** [EmptyDataError] and [ParserError] are subclasses of [ValueError]. *)
Definition no_columns : exn := ValueError (py "No columns to parse from file").
Definition eof_in_string : exn := ValueError (py "EOF inside string").
Definition too_many_fields : exn := ValueError (py "Error tokenizing data").

(** [end_line] pads a short row with empty fields; a field past the end of
    a row reads as the empty field. *)
Definition field_at (r : list pystr) (j : nat) : pystr := default [] (r !! j).

Definition column (rows : list (list pystr)) (j : nat) : list pystr :=
  map (fun r => field_at r j) rows.

(** The column names: the header row after [_get_header]'s renaming (see
    [Header]); the fallback to the first-pass names is never taken, by
    [Header.dedup_header_total]. *)
Definition column_names (header : list pystr) : list pystr :=
  default (header_names header) (dedup_header header).

(** [end_line]'s field count check on the lines after the first data
    line ([lines > header_end + 1]): a line with more fields than
    [ex_fields], the field count of the line before it, is a bad line and
    raises ([on_bad_lines='error']); a shorter one is padded up to
    [ex_fields], which the next line is checked against in turn. *)
Fixpoint fields_ok (ex : nat) (rs : list (list pystr)) : bool :=
  match rs with
  | [] => true
  | r :: rs' => if (ex <? length r)%nat then false else fields_ok ex rs'
  end.

(** [line_fields[1]], the field count of the first data line: it is never a
    bad line, and is padded up to the header's count. *)
Definition first_width (header : list pystr) (data : list (list pystr)) : nat :=
  match data with
  | r1 :: _ => Nat.max (length header) (length r1)
  | [] => length header
  end.

(** [_get_header]: when the first data line has more fields than the
    header ([passed_count < field_count]), its first [leading_cols] fields,
    and those of every row, form an implicit index. *)
Definition leading_cols (header : list pystr) (data : list (list pystr)) : nat :=
  first_width header data - length header.

(** The frame [read_csv] builds from the column names and the data rows,
    the [lead] fields of the implicit index skipped.  The index itself is
    not kept: no line of the script reads [df.index]. *)
Definition table (lead : nat) (names : list pystr) (data : list (list pystr)) : frame :=
  mkFrame (zip names (map (fun j => convert_column (column data (lead + j))) (seq 0 (length names))))
          (length data).

Definition read_csv (text : pystr) : result exn frame :=
  let '(rows, closed) := tokenize text in
  match rows with
  | [] => Err (if closed then no_columns else eof_in_string)
  | header :: data =>
      if negb (fields_ok (first_width header data) (tail data)) then Err too_many_fields
      else if negb closed then Err eof_in_string
      else Ok (table (leading_cols header data) (column_names header) data)
  end.

(** ** The file as bytes

    What line 18 really reads: the bytes of the file.  The C engine
    tokenizes the bytes ([ByteTokenizer]); [_get_header] tokenizes the
    first two rows (the end of the file inside a quoted field there is
    reported at once) and decodes the header names; the data rows are then
    tokenized (a bad line raises) and each column is converted, the
    [object] ones decoded field by field with the strict UTF-8 codec
    ([_string_box_utf8]).  Decoding every data field before typing gives
    the same frame and the same error: a field that fails to decode is not
    ASCII, so it is neither a missing value, a number nor a boolean, and
    its column is an [object] column, decoded by pandas too. *)

Fixpoint decode_row (r : list (list Z)) : option (list pystr) :=
  match r with
  | [] => Some []
  | w :: r' => match utf8_decode w with Some s => cons s <$> decode_row r' | None => None end
  end.

Fixpoint decode_rows (rs : list (list (list Z))) : option (list (list pystr)) :=
  match rs with
  | [] => Some []
  | r :: rs' => match decode_row r with Some d => cons d <$> decode_rows rs' | None => None end
  end.

(** [UnicodeDecodeError] is a subclass of [ValueError]. *)
Definition unicode_error : exn := ValueError (py "'utf-8' codec can't decode").

Definition read_csv_file (bs : list Z) : result exn frame :=
  let '(rows, closed) := tokenize_bytes bs in
  match rows with
  | [] => Err (if closed then no_columns else eof_in_string)
  | hb :: data_b =>
      if negb closed && bool_decide (data_b = []) then Err eof_in_string
      else
        match decode_row hb with
        | None => Err unicode_error
        | Some header =>
            if negb (fields_ok (first_width header data_b) (tail data_b)) then Err too_many_fields
            else if negb closed then Err eof_in_string
            else
              match decode_rows data_b with
              | None => Err unicode_error
              | Some data => Ok (table (leading_cols header data) (column_names header) data)
              end
        end
  end.

(** ** The reader's lemmas *)

Lemma map_fst_zip {A B} (l : list A) (k : list B) :
  length l = length k -> map fst (zip l k) = l.
Proof.
  revert k; induction l as [|x l IH]; intros [|y k] Hl; simpl in *; try done.
  f_equal. apply IH. lia.
Qed.

Lemma lookup_col_zip h cols j name :
  NoDup h -> length cols = length h -> h !! j = Some name ->
  lookup_col name (zip h cols) = cols !! j.
Proof.
  revert cols j; induction h as [|x h IH]; intros [|s cols] j Hnd Hl Hj; simpl in *; try done.
  apply list.NoDup_cons in Hnd as [Hx Hnd]. destruct j as [|j]; simpl in *.
  - simplify_eq. by rewrite decide_True.
  - rewrite decide_False; [apply IH; auto|].
    intros ->. apply Hx. by eapply list_elem_of_lookup_2.
Qed.

Lemma length_convert_column ws : length (convert_column ws) = length ws.
Proof. unfold convert_column. by destruct (numeric_column ws), (bool_column ws); rewrite length_map. Qed.

Lemma convert_column_str ws w : CStr w ∈ convert_column ws -> w ∈ ws /\ is_na w = false.
Proof.
  unfold convert_column. destruct (numeric_column ws), (bool_column ws);
    intros (w' & Hc & Hw)%list_elem_of_fmap;
    unfold num_cell, str_cell, bool_cell in Hc; destruct (is_na w') eqn:Hna; simplify_eq; auto.
Qed.

Lemma fields_ok_spec ex rs :
  fields_ok ex rs = true <-> Forall (fun r => length r <= ex)%nat rs.
Proof.
  induction rs as [|r rs IH]; simpl; [split; auto|].
  destruct (Nat.ltb_spec ex (length r)).
  - split; [done|]. intros Hr%Forall_inv. lia.
  - rewrite IH. split; [by constructor|]. apply Forall_inv_tail.
Qed.

Lemma read_csv_ok text header data :
  tokenize text = (header :: data, true) ->
  Forall (fun r => length r <= first_width header data)%nat (tail data) ->
  read_csv text = Ok (table (leading_cols header data) (column_names header) data).
Proof. intros Ht Hd%fields_ok_spec. unfold read_csv. by rewrite Ht, Hd. Qed.

Lemma read_csv_inv text df :
  read_csv text = Ok df ->
  exists header data, tokenize text = (header :: data, true) /\
    df = table (leading_cols header data) (column_names header) data.
Proof.
  unfold read_csv. destruct (tokenize text) as [[|header data] [|]]; try done;
    destruct (fields_ok _ _); try done. intros [= <-]. by exists header, data.
Qed.

(** Data rows no longer than the header: no row is a bad line and there is
    no implicit index. *)
Lemma fit_header header data :
  Forall (fun r => length r <= length header)%nat data ->
  Forall (fun r => length r <= first_width header data)%nat (tail data) /\
  leading_cols header data = 0%nat.
Proof.
  unfold leading_cols, first_width. intros Hd.
  destruct Hd as [|r1 data H1 Hd]; simpl; [split; [done|lia]|].
  split; [|lia]. eapply Forall_impl; [|exact Hd]. simpl; lia.
Qed.

Lemma table_wf lead header data : NoDup header -> wf_frame (table lead header data).
Proof.
  intros Hnd. split; cbn [fcols table].
  - rewrite map_fst_zip; [done|]. by rewrite length_map, length_seq.
  - apply Forall_lookup. intros j [name s] Hj.
    apply lookup_zip_with_Some in Hj as (? & ? & [= <- <-] & _ & Hs).
    apply list_lookup_fmap_Some in Hs as (k & -> & _). cbn [snd].
    by rewrite length_convert_column; unfold column; rewrite length_map.
Qed.

Lemma table_lookup lead header data j name :
  NoDup header -> header !! j = Some name ->
  lookup_col name (fcols (table lead header data)) = Some (convert_column (column data (lead + j))).
Proof.
  intros Hnd Hj. cbn [fcols table]. rewrite (lookup_col_zip _ _ j); try done.
  - rewrite list_lookup_fmap, lookup_seq_lt; [done|]. by apply lookup_lt_Some in Hj.
  - by rewrite length_map, length_seq.
Qed.

Lemma elem_of_table_col lead header data name s :
  (name, s) ∈ fcols (table lead header data) -> exists j, s = convert_column (column data j).
Proof.
  cbn [fcols table]. intros (i & Hi)%list_elem_of_lookup_1.
  apply lookup_zip_with_Some in Hi as (? & ? & [= <- <-] & _ & Hs).
  apply list_lookup_fmap_Some in Hs as (j & -> & _). by exists (lead + j)%nat.
Qed.

Lemma elem_of_column data j w :
  w ∈ column data j -> w <> [] -> exists r, r ∈ data /\ w ∈ r.
Proof.
  intros (r & Hw & Hr)%list_elem_of_fmap Hne. exists r. split; [done|].
  unfold field_at in Hw. destruct (r !! j) eqn:Hj; simpl in Hw; [|done].
  subst. by eapply list_elem_of_lookup_2.
Qed.

(** A column of numbers or of booleans holds no string. *)
Lemma typed_column_no_str ws :
  numeric_column ws || bool_column ws = true -> Forall (fun c => is_str c = false) (convert_column ws).
Proof.
  intros Hn. unfold convert_column. apply Forall_forall. intros c.
  destruct (numeric_column ws), (bool_column ws); try done;
    rewrite in_map_iff; intros (w & <- & _); unfold num_cell, bool_cell; by destruct (is_na w).
Qed.

Lemma column_names_sound header :
  length (column_names header) = length header /\ NoDup (column_names header) /\
  (forall j x, header_names header !! j = Some x ->
     (forall j', header_names header !! j' = Some x -> j' = j) -> column_names header !! j = Some x).
Proof.
  destruct (dedup_header_sound header) as (hs & Hd & Hlen & Hnd & Hkeep).
  unfold column_names. by rewrite Hd.
Qed.

Lemma header_names_lookup header j :
  header_names header !! j = (fun w => if bool_decide (w = []) then unnamed j else w) <$> header !! j.
Proof. unfold header_names. by rewrite list_lookup_imap. Qed.

(** A non-empty field that occurs once in a header without duplicates, and
    is no [Unnamed: i], keeps its name. *)
Lemma column_names_keep header j x :
  NoDup header -> header !! j = Some x -> x <> [] -> (forall i, unnamed i <> x) ->
  column_names header !! j = Some x.
Proof.
  intros Hnd Hj Hx Hun. apply column_names_sound.
  - rewrite header_names_lookup, Hj. simpl. by rewrite bool_decide_false.
  - intros j'. rewrite header_names_lookup. destruct (header !! j') as [w|] eqn:Hw; [|done].
    simpl. case_bool_decide; intros [= Hwx]; [by apply Hun in Hwx|subst].
    by eapply NoDup_lookup.
Qed.

Lemma header_names_id header : [] ∉ header -> header_names header = header.
Proof.
  intros Hne. apply list_eq. intros j. rewrite header_names_lookup.
  destruct (header !! j) as [w|] eqn:Hw; simpl; [|done].
  rewrite bool_decide_false; [done|]. intros ->. apply Hne. by eapply list_elem_of_lookup_2.
Qed.

Lemma column_names_id header : NoDup header -> [] ∉ header -> column_names header = header.
Proof.
  intros Hnd Hne. destruct (column_names_sound header) as (Hlen & _ & Hkeep).
  rewrite header_names_id in Hkeep by done.
  apply list_eq. intros j. destruct (header !! j) as [x|] eqn:Hx.
  - apply Hkeep; [done|]. intros j' Hj'. by eapply NoDup_lookup.
  - apply lookup_ge_None. apply lookup_ge_None in Hx. lia.
Qed.

Lemma unnamed_head i : exists r, unnamed i = 85 :: r.
Proof. by eexists. Qed.

(** A file with no semicolon and no quote loads as one column, named by the
    single field of its first row (or [Unnamed: 0] when it is empty). *)
Lemma read_one_column text df :
  59 ∉ text -> 34 ∉ text -> read_csv text = Ok df ->
  exists h name s, hd [] (fst (tokenize text)) = [h] /\ fcols df = [(name, s)] /\
    (name = Ticket -> h = Ticket).
Proof.
  intros Hd Hq (header & data & Ht & ->)%read_csv_inv.
  assert (Hc : Forall (fun c => is_delim c = false /\ is_quote c = false) text).
  { apply Forall_forall. intros c Hc%In_elem. unfold is_delim, is_quote.
    split; apply Z.eqb_neq; intros ->; auto. }
  rewrite Ht. apply (one_field_tokenize _ _ _ Hc) in Ht as [_ Hrows].
  inversion Hrows as [|? ? Hh _]. destruct header as [|h [|]]; try done.
  destruct (column_names_sound [h]) as (Hlen & _ & Hkeep).
  destruct (column_names [h]) as [|name [|]] eqn:Hn; try done.
  exists h, name, (convert_column (column data (leading_cols [h] data + 0))). split_and!; [done|done|]. intros ->.
  assert (Hh0 : header_names [h] !! 0%nat = Some (if bool_decide (h = []) then unnamed 0 else h))
    by (by rewrite header_names_lookup).
  specialize (Hkeep 0%nat _ Hh0).
  case_bool_decide.
  - destruct (unnamed_head 0) as [r Hr]. rewrite Hr in Hkeep.
    assert (Some Ticket = Some (85 :: r)); [apply Hkeep|done].
    intros [|[]]; rewrite header_names_lookup; by try discriminate.
  - assert (Heq : Some Ticket = Some h); [apply Hkeep|by injection Heq].
    intros [|[]]; rewrite header_names_lookup; by try discriminate.
Qed.

(** ** The byte entry's lemmas *)

Lemma decode_row_encode r : Forall (Forall valid) r -> decode_row (map utf8_encode r) = Some r.
Proof. induction 1 as [|w r Hw _ IH]; [done|]. simpl. by rewrite utf8_decode_encode, IH. Qed.

Lemma decode_rows_encode rs :
  Forall (Forall (Forall valid)) rs -> decode_rows (map (map utf8_encode) rs) = Some rs.
Proof. induction 1 as [|r rs Hr _ IH]; [done|]. simpl. by rewrite decode_row_encode, IH. Qed.

Lemma first_width_enc header data :
  first_width header (map (map utf8_encode) data) = first_width header data.
Proof. destruct data; simpl; by rewrite ?length_map. Qed.

Lemma fields_ok_enc ex rs : fields_ok ex (map (map utf8_encode) rs) = fields_ok ex rs.
Proof. induction rs as [|r rs IH]; simpl; [done|]. by rewrite length_map, IH. Qed.

Lemma tail_enc (rs : list (list pystr)) : tail (map (map utf8_encode) rs) = map (map utf8_encode) (tail rs).
Proof. by destruct rs. Qed.

(** The byte entry on the encoding of a valid text is the code-point
    model. *)
Lemma read_csv_file_encode text :
  Forall valid text -> read_csv_file (utf8_encode text) = read_csv text.
Proof.
  intros Hv. unfold read_csv_file, read_csv. rewrite tokenize_bytes_encode by done.
  pose proof (tokenize_all valid text Hv) as Hall.
  destruct (tokenize text) as [rows closed]. cbn [fst snd] in *.
  destruct rows as [|h data]; [done|]. inversion Hall as [|? ? Hh Hdata]; subst.
  cbn [map]. rewrite decode_row_encode by done.
  destruct closed; cbn [negb andb].
  - rewrite tail_enc, first_width_enc, fields_ok_enc, decode_rows_encode by done. done.
  - case_bool_decide as Hd.
    + apply map_eq_nil in Hd as ->. done.
    + rewrite tail_enc, first_width_enc, fields_ok_enc. by destruct (fields_ok _ _).
Qed.

Lemma decode_row_None r : Exists (fun w => utf8_decode w = None) r -> decode_row r = None.
Proof. induction 1 as [w r Hw|w r _ IH]; simpl; [by rewrite Hw|]. destruct (utf8_decode w); [|done]. by rewrite IH. Qed.

Lemma decode_rows_None rs :
  Exists (fun r => Exists (fun w => utf8_decode w = None) r) rs -> decode_rows rs = None.
Proof.
  induction 1 as [r rs Hr|r rs _ IH]; simpl; [by rewrite decode_row_None|].
  destruct (decode_row r); [|done]. by rewrite IH.
Qed.

(** ** Properties *)

(** C23: When no data row after the first is longer than the first (padded
    to the header), [read_csv] succeeds with a well-formed frame: its
    columns carry the renamed header names (distinct, by [Header]), in
    order, one row per data row, column [j] holding the converted fields
    [leading_cols + j] of the data rows, and there is no implicit index
    when no row is longer than the header; a header with distinct
    non-empty names is kept as it is. *)
Theorem read_csv_frame text header data :
  tokenize text = (header :: data, true) ->
  Forall (fun r => length r <= first_width header data)%nat (tail data) ->
  exists df, read_csv text = Ok df /\ wf_frame df /\ map fst (fcols df) = column_names header /\
    nrows df = length data /\
    (forall j name, column_names header !! j = Some name ->
       lookup_col name (fcols df) = Some (convert_column (column data (leading_cols header data + j)))) /\
    (Forall (fun r => length r <= length header)%nat data -> leading_cols header data = 0%nat) /\
    (NoDup header -> [] ∉ header -> column_names header = header).
Proof.
  intros Ht Hd. destruct (column_names_sound header) as (Hlen & Hnd & _).
  eexists. split_and!.
  - by apply read_csv_ok.
  - by apply table_wf.
  - cbn. rewrite map_fst_zip; [done|]. by rewrite length_map, length_seq.
  - done.
  - intros j name. by apply table_lookup.
  - by intros [_ ?]%fit_header.
  - apply column_names_id.
Qed.

(** C24: A data row after the first with more fields than the first data
    row and the header stops the load with the tokenizer's [ParserError]
    (a [ValueError]), whether or not the file ends inside a quoted field. *)
Theorem read_csv_too_many_fields text header r1 rest closed :
  tokenize text = (header :: r1 :: rest, closed) ->
  Exists (fun r => Nat.max (length header) (length r1) < length r)%nat rest ->
  read_csv text = Err too_many_fields.
Proof.
  intros Ht Hex. unfold read_csv. rewrite Ht. cbn [tail first_width].
  destruct (fields_ok _ rest) eqn:Hf; [|done].
  apply fields_ok_spec in Hf. rewrite Forall_forall in Hf. apply Exists_exists in Hex as (r & Hr & Hlt).
  apply Hf in Hr. lia.
Qed.

(** C25: A first data row with more fields than the header is no error: its
    extra leading fields become an implicit index, and every column takes
    the field that many places further right.  With one [;] too many at
    the start of the first record, the [Ticket] column of the frame holds
    the fields written under the next column of the header, and the load
    still succeeds. *)
Theorem read_csv_implicit_index text header r1 rest j :
  tokenize text = (header :: r1 :: rest, true) ->
  (length header < length r1)%nat -> Forall (fun r => length r <= length r1)%nat rest ->
  NoDup header -> header !! j = Some Ticket ->
  exists df, read_csv text = Ok df /\
    getcol df Ticket = Ok (convert_column (column (r1 :: rest) (length r1 - length header + j))).
Proof.
  intros Ht Hlt Hrest Hnd Hj. eexists. split.
  - apply read_csv_ok; [done|]. cbn [tail first_width].
    eapply Forall_impl; [|exact Hrest]. simpl; lia.
  - unfold getcol. rewrite (table_lookup _ _ _ j); [|apply column_names_sound|].
    + unfold leading_cols, first_width. do 3 f_equal. lia.
    + apply column_names_keep; try done.
Qed.

(** C14: No string cell of the loaded table spells a missing value: a field
    such as [None], [NA], [n/a] or the empty field is read as [NaN], never
    as the text of a category; every string cell is a field of the file as
    written. *)
Theorem read_csv_strings text df name s w :
  read_csv text = Ok df -> (name, s) ∈ fcols df -> CStr w ∈ s ->
  (w ∉ na_values) /\ exists r, r ∈ fst (tokenize text) /\ w ∈ r.
Proof.
  intros (header & data & Ht & ->)%read_csv_inv Hs Hw.
  apply elem_of_table_col in Hs as (j & ->).
  apply convert_column_str in Hw as [Hw Hna].
  unfold is_na in Hna. apply bool_decide_eq_false in Hna. split; [done|].
  destruct (elem_of_column data j w) as (r & Hr & Hwr); [done|..].
  - intros ->. apply Hna, (bool_decide_eq_true_1 _). reflexivity.
  - exists r. rewrite Ht. split; [by right|done].
Qed.

(** C8: A [Ticket] column whose every field is a number or a missing value
    is read as [float64], and one whose every field is [True], [False] or
    missing as [bool]; the first [.str] of line 19 then raises
    [AttributeError], so a file with plain-number tickets never loads. *)
Theorem read_numeric_ticket_raises text header data j :
  tokenize text = (header :: data, true) -> NoDup header ->
  Forall (fun r => length r <= length header)%nat data -> data <> [] ->
  header !! j = Some Ticket -> numeric_column (column data j) || bool_column (column data j) = true ->
  exists df, read_csv text = Ok df /\ clean df = Err AttributeError.
Proof.
  intros Ht Hnd Hd Hne Hj Hnum. destruct (fit_header _ _ Hd) as [Hfit Hlead].
  exists (table (leading_cols header data) (column_names header) data).
  split; [by apply read_csv_ok|]. rewrite Hlead.
  assert (Hcj : column_names header !! j = Some Ticket).
  { apply column_names_keep; try done. }
  unfold clean, clean_ticket, getcol.
  rewrite (table_lookup _ _ _ j) by (done || apply column_names_sound). simpl.
  unfold clean_ticket_series, str_apply. rewrite str_ok_false; [done| |by apply typed_column_no_str].
  rewrite <- length_zero_iff_nil, length_convert_column. unfold column.
  rewrite length_map. by destruct data.
Qed.

(** C18: Every column [read_csv] returns has one type: either no cell is a
    string (an [int64] or [float64] column, NaN for the missing values) or
    every cell is a string or NaN (an [object] column). *)
Theorem read_csv_column_types text df name s :
  read_csv text = Ok df -> (name, s) ∈ fcols df ->
  Forall (fun c => exists x, c = CNum x) s \/
  Forall (fun c => (exists b, c = CBool b) \/ c = CNum NaN) s \/
  Forall (fun c => (exists w, c = CStr w) \/ c = CNum NaN) s.
Proof.
  intros (header & data & _ & ->)%read_csv_inv (j & ->)%elem_of_table_col.
  unfold convert_column. destruct (numeric_column _); [left|right; destruct (bool_column _); [left|right]];
    apply Forall_forall; intros c; rewrite in_map_iff; intros (w & <- & _);
    unfold num_cell, bool_cell, str_cell; destruct (is_na w); eauto.
Qed.

(** C15: The byte-level loader refines the code-point model: on the UTF-8
    encoding of any text of Unicode scalar values, the C tokenizer run on
    the bytes gives the encodings of the rows and fields the code-point
    tokenizer gives, and [read_csv] on the bytes of the file, decoding
    included, returns exactly what the code-point model returns, errors
    included.  Every theorem about [read_csv] holds of the file as the
    script reads it. *)
Theorem read_csv_file_utf8 text :
  Forall valid text ->
  tokenize_bytes (utf8_encode text) = (map (map utf8_encode) (fst (tokenize text)), snd (tokenize text)) /\
  read_csv_file (utf8_encode text) = read_csv text.
Proof. intros Hv. split; [by apply tokenize_bytes_encode|by apply read_csv_file_encode]. Qed.

(** C26: A data field that is not well-formed UTF-8, such as the euro sign
    of a file saved in Windows-1252 (the single byte [0x80]), makes the
    load raise [UnicodeDecodeError] (a [ValueError]) once the rows are
    tokenized, whatever the other fields hold. *)
Theorem read_csv_file_bad_utf8 bs hb data_b header :
  tokenize_bytes bs = (hb :: data_b, true) -> decode_row hb = Some header ->
  Forall (fun r => length r <= first_width header data_b)%nat (tail data_b) ->
  Exists (fun r => Exists (fun w => utf8_decode w = None) r) data_b ->
  read_csv_file bs = Err unicode_error.
Proof.
  intros Ht Hh Hfit%fields_ok_spec Hbad. unfold read_csv_file. rewrite Ht, Hh, Hfit.
  cbn [negb andb]. by rewrite decode_rows_None.
Qed.

End Loader.
