(* ===== verification/Histogram.v ===== *)
(** * [numpy.histogram] as [plt.hist] calls it (lines 96 and 115)

    [plt.hist(x, bins)] on one data set calls [np.histogram(x, bins,
    range=None)].  Two paths of numpy are used by the script:
    - explicit edges ([bins=range(1,8)], line 115): the counts are the
      differences of [searchsorted] of the sorted data at the edges, left for
      every edge but the last and right for the last
      ([_search_sorted_inclusive]), so every bin is half open except the last,
      which is closed;
    - a bin count ([bins=20], line 96): the outer edges are the minimum and
      maximum of the data ([_get_outer_edges]: [0, 1] on empty data, widened
      by 0.5 when equal, [ValueError] when not finite), and each value goes to
      bin [floor((x - lo) / (hi - lo) * n)], [n] folded into [n - 1].
    Arithmetic is exact, so numpy's one-ulp corrections of the index never
    fire and are not modelled. *)

From S2P Require Import Prelude PyString PyFloat Frame Cleaner.
From stdpp Require Import sorting.
From Stdlib Require Import Qround.
From Stdlib Require Strings.String.
Import Stdlib.Strings.String.StringSyntax.

Module Histogram.
Import PyStr FloatArith Frame Cleaner.
Local Open Scope Q_scope.

(** ** Explicit edges *)

(** A data value against a finite edge, in numpy's sort order, where NaN
    comes after everything. *)
Definition lt_edge (x : pyfloat) (e : Q) : bool := flt x (Fin e).
Definition le_edge (x : pyfloat) (e : Q) : bool :=
  match x with Fin q => Qle_bool q e | Inf true => true | _ => false end.

(** [a.searchsorted(e, 'left')] and [a.searchsorted(e, 'right')] on the
    sorted data [a]. *)
Definition searchsorted_left (xs : list pyfloat) (e : Q) : nat :=
  length (filter (fun x => lt_edge x e = true) xs).
Definition searchsorted_right (xs : list pyfloat) (e : Q) : nat :=
  length (filter (fun x => le_edge x e = true) xs).

(** [_search_sorted_inclusive(a, v)]: left for [v[:-1]], right for [v[-1:]]. *)
Fixpoint search_sorted_inclusive (xs : list pyfloat) (edges : list Q) : list nat :=
  match edges with
  | [] => []
  | [e] => [searchsorted_right xs e]
  | e :: t => searchsorted_left xs e :: search_sorted_inclusive xs t
  end.

(** [np.diff]. *)
Fixpoint diff (l : list nat) : list nat :=
  match l with
  | x :: ((y :: _) as t) => (y - x)%nat :: diff t
  | _ => []
  end.

(** [np.histogram(a, bins=edges)]. *)
Definition histogram_edges (xs : list pyfloat) (edges : list Q) : list nat :=
  diff (search_sorted_inclusive xs edges).

(** Reference: the bins as intervals, half open but the last, and the count
    of the values inside each. *)
Fixpoint bins_of (edges : list Q) : list (Q * Q * bool) :=
  match edges with
  | a :: ((b :: t) as t') => match t with [] => [(a, b, true)] | _ => (a, b, false) :: bins_of t' end
  | _ => []
  end.

Definition in_bin (x : pyfloat) (b : Q * Q * bool) : bool :=
  let '(lo, hi, closed) := b in
  negb (lt_edge x lo) && (if closed then le_edge x hi else lt_edge x hi).

Definition histogram_ref (xs : list pyfloat) (edges : list Q) : list nat :=
  map (fun b => length (filter (fun x => in_bin x b = true) xs)) (bins_of edges).

(** ** A number of bins *)

(** [np.minimum] and [np.maximum]: NaN propagates. *)
Definition fsel (pick : pyfloat -> pyfloat -> bool) (m y : pyfloat) : pyfloat :=
  if is_nan m || is_nan y then NaN else if pick y m then y else m.
Definition fmin2 : pyfloat -> pyfloat -> pyfloat := fsel (fun y m => flt y m).
Definition fmax2 : pyfloat -> pyfloat -> pyfloat := fsel (fun y m => flt m y).

(** [a.min()] and [a.max()] on non-empty data. *)
Definition np_min (xs : list pyfloat) : pyfloat :=
  match xs with [] => NaN | x :: t => fold_left fmin2 t x end.
Definition np_max (xs : list pyfloat) : pyfloat :=
  match xs with [] => NaN | x :: t => fold_left fmax2 t x end.

(** [_get_outer_edges(a, None)]; numpy's message also prints the two
    bounds. *)
Definition range_error : exn := ValueError (py "autodetected range is not finite").

Definition outer_edges (xs : list pyfloat) : result exn (Q * Q) :=
  match xs with
  | [] => Ok (0, 1)
  | _ => match np_min xs, np_max xs with
         | Fin lo, Fin hi => Ok (if Qeq_bool lo hi then (lo - (1#2), hi + (1#2)) else (lo, hi))
         | _, _ => Err range_error
         end
  end.

(** [np.linspace(lo, hi, n + 1)]: edge [i] is [lo + i * (hi - lo) / n]. *)
Definition lin_edge (lo hi : Q) (n i : nat) : Q :=
  lo + inject_Z (Z.of_nat i) * (hi - lo) / inject_Z (Z.of_nat n).

Definition linspace (lo hi : Q) (n : nat) : list Q := map (lin_edge lo hi n) (seq 0 (S n)).

(** [f_indices = (a - first_edge) / norm_denom * n_equal_bins]. *)
Definition bin_pos (lo hi : Q) (n : nat) (q : Q) : Q := (q - lo) / (hi - lo) * inject_Z (Z.of_nat n).

(** The bin of one value: kept when [lo <= x <= hi], index
    [floor((x - lo) / (hi - lo) * n)], with [n] moved to [n - 1]. *)
Definition uniform_index (lo hi : Q) (n : nat) (x : pyfloat) : option nat :=
  match x with
  | Fin q =>
      if Qle_bool lo q && Qle_bool q hi then
        let i := Z.to_nat (Qfloor (bin_pos lo hi n q)) in
        Some (if Nat.eqb i n then (n - 1)%nat else i)
      else None
  | _ => None
  end.

(** [np.bincount(indices, minlength=n)]. *)
Definition bincount (n : nat) (idx : list nat) : list nat :=
  map (fun i => length (filter (fun j => j = i) idx)) (seq 0 n).

(** [np.histogram(a, bins=n)]: the counts and the edges. *)
Definition histogram_bins (xs : list pyfloat) (n : nat) : result exn (list nat * list Q) :=
  lh <- outer_edges xs ;;
  let '(lo, hi) := lh in
  Ok (bincount n (omap (uniform_index lo hi n) xs), linspace lo hi n).

(** ** The two histograms of the script *)

(** What [plt.hist] draws: one bar per bin, centred at [bins[:-1] +
    boffset] with the bin's count as height; [align='left'] makes
    [boffset] zero, [align='mid'] (the default) half a bin. *)
Definition hist_bars (left : bool) (edges : list Q) (counts : list nat) : list (Q * nat) :=
  zip (zip_with (fun a b => if left then a else a + (b - a) / 2) edges (tail edges)) counts.

(** Line 96: [plt.hist(df['Ticket'], bins=20)]. *)
Definition ticket_hist (df : frame) : result exn (list (Q * nat)) :=
  t <- getcol df Ticket ;;
  ce <- histogram_bins (omap cell_float t) 20 ;;
  Ok (hist_bars false (snd ce) (fst ce)).

(** [range(1,8)]. *)
Definition freq_edges : list Q := map inject_Z [1; 2; 3; 4; 5; 6; 7]%Z.

(** Line 115: [plt.hist(df['Freq_num'].dropna(), bins=range(1,8),
    align='left')]. *)
Definition freq_hist (df : frame) : result exn (list (Q * nat)) :=
  f <- getcol df Freq_num ;;
  Ok (hist_bars true freq_edges (histogram_edges (omap cell_float (dropna f)) freq_edges)).

(** ** Lemmas *)

Section FilterCount.
Context {A : Type} (P Q' : A -> Prop) `{!∀ x, Decision (P x), !∀ x, Decision (Q' x)}.
Hypothesis HQP : forall x, Q' x -> P x.

Lemma filter_length_mono (l : list A) : (length (filter Q' l) <= length (filter P l))%nat.
Proof.
  induction l as [|x l IH]; [done|]. rewrite !filter_cons.
  destruct (decide (Q' x)); [rewrite decide_True by auto; simpl; lia|].
  destruct (decide (P x)); simpl; lia.
Qed.

Lemma filter_length_sub (l : list A) :
  (length (filter P l) - length (filter Q' l))%nat = length (filter (fun x => P x /\ ~ Q' x) l).
Proof.
  induction l as [|x l IH]; [done|]. pose proof (filter_length_mono l). rewrite !filter_cons.
  destruct (decide (Q' x)).
  - rewrite decide_True by auto. rewrite decide_False by tauto. simpl. lia.
  - destruct (decide (P x)); [rewrite decide_True by tauto|rewrite decide_False by tauto]; simpl; lia.
Qed.
End FilterCount.

Lemma lt_edge_mono x a b : a <= b -> lt_edge x a = true -> lt_edge x b = true.
Proof.
  intros Hab. destruct x as [q|[]|]; simpl; try done.
  rewrite !Qlt_bool_iff. intros. lra.
Qed.

Lemma lt_le_edge x a b : a <= b -> lt_edge x a = true -> le_edge x b = true.
Proof.
  intros Hab. destruct x as [q|[]|]; simpl; try done.
  rewrite Qlt_bool_iff, Qle_bool_iff. intros. lra.
Qed.

Lemma negb_andb_iff b c : negb b && c = true <-> c = true /\ ~ b = true.
Proof. destruct b, c; simpl; intuition congruence. Qed.

(** The count of one bin as the difference of two searches. *)
Lemma bin_count_sub xs a b (closed : bool) : a <= b ->
  (length (filter (fun x => (if closed then le_edge x b else lt_edge x b) = true) xs) -
   searchsorted_left xs a)%nat = length (filter (fun x => in_bin x (a, b, closed) = true) xs).
Proof.
  intros Hab. unfold searchsorted_left. rewrite filter_length_sub.
  - f_equal. apply list_filter_iff. intros x. simpl. by rewrite negb_andb_iff.
  - intros x. destruct closed; [by apply lt_le_edge|by apply lt_edge_mono].
Qed.

Definition is_fin (x : pyfloat) : bool := match x with Fin _ => true | _ => false end.

Lemma fold_fsel_nan pick t : fold_left (fsel pick) t NaN = NaN.
Proof. induction t as [|x t IH]; simpl; [done|exact IH]. Qed.

Lemma fold_fsel_has_nan pick t a : NaN ∈ t -> fold_left (fsel pick) t a = NaN.
Proof.
  revert a. induction t as [|x t IH]; intros a Hin; [by apply not_elem_of_nil in Hin|].
  apply elem_of_cons in Hin as [<-|Hin]; simpl; [|by apply IH].
  unfold fsel at 2. rewrite orb_true_r. apply fold_fsel_nan.
Qed.

Lemma np_sel_nan pick x t : NaN ∈ x :: t -> fold_left (fsel pick) t x = NaN.
Proof.
  intros Hin. apply elem_of_cons in Hin as [<-|Hin]; [apply fold_fsel_nan|by apply fold_fsel_has_nan].
Qed.

(** The running minimum or maximum of finite values, for the order [R]
    that [pick] decides. *)
Lemma fold_fsel_fin (pick : pyfloat -> pyfloat -> bool) (R : Q -> Q -> Prop)
  (Hrefl : forall a, R a a) (Htrans : forall a b c, R a b -> R b c -> R a c)
  (Hpick : forall y m, if pick (Fin y) (Fin m) then R y m else R m y) t a :
  Forall (fun x => is_fin x = true) t ->
  exists m, fold_left (fsel pick) t (Fin a) = Fin m /\ R m a /\ forall q, Fin q ∈ t -> R m q.
Proof.
  revert a. induction t as [|x t IH]; intros a Ht.
  - exists a. split_and!; [done|apply Hrefl|intros q Hq; by apply not_elem_of_nil in Hq].
  - inversion Ht as [|? ? Hx Ht']; subst. destruct x as [y| |]; try discriminate. simpl.
    set (m0 := if pick (Fin y) (Fin a) then y else a).
    assert (Hm0 : fsel pick (Fin a) (Fin y) = Fin m0) by (unfold fsel, m0; simpl; by destruct (pick _ _)).
    assert (H0 : R m0 a /\ R m0 y) by (specialize (Hpick y a); unfold m0; destruct (pick _ _); auto).
    destruct H0 as [H0a H0y]. rewrite Hm0. destruct (IH m0 Ht') as (m & Hf & Hma & Hmq). exists m.
    split_and!; [exact Hf|by apply (Htrans _ m0)|]. intros q Hq.
    apply elem_of_cons in Hq as [Hq|Hq]; [invc Hq; by apply (Htrans _ m0)|by apply Hmq].
Qed.

Lemma fold_fmin2_fin t a : Forall (fun x => is_fin x = true) t ->
  exists m, fold_left fmin2 t (Fin a) = Fin m /\ m <= a /\ forall q, Fin q ∈ t -> m <= q.
Proof.
  apply fold_fsel_fin; [apply Qle_refl|apply Qle_trans|].
  intros y m. simpl. destruct (Qlt_bool y m) eqn:H; [apply Qlt_bool_iff in H; lra|].
  apply Qnot_lt_le. intros H'. apply Qlt_bool_iff in H'. congruence.
Qed.

Lemma fold_fmax2_fin t a : Forall (fun x => is_fin x = true) t ->
  exists m, fold_left fmax2 t (Fin a) = Fin m /\ a <= m /\ forall q, Fin q ∈ t -> q <= m.
Proof.
  apply (fold_fsel_fin _ (fun m q => q <= m)); [intros; apply Qle_refl|intros; eapply Qle_trans; eauto|].
  intros y m. simpl. destruct (Qlt_bool m y) eqn:H; [apply Qlt_bool_iff in H; lra|].
  apply Qnot_lt_le. intros H'. apply Qlt_bool_iff in H'. congruence.
Qed.

(** Finite data: the outer edges are finite, increasing and hold every value. *)
Lemma outer_edges_fin xs : Forall (fun x => is_fin x = true) xs ->
  exists lo hi, outer_edges xs = Ok (lo, hi) /\ lo < hi /\ forall q, Fin q ∈ xs -> lo <= q <= hi.
Proof.
  destruct xs as [|x t]; intros Hf.
  - exists 0, 1. split_and!; [done|lra|intros q Hq; by apply not_elem_of_nil in Hq].
  - inversion Hf as [|? ? Hx Ht]; subst. destruct x as [a| |]; try discriminate.
    destruct (fold_fmin2_fin t a Ht) as (m & Hm & Hma & Hmq).
    destruct (fold_fmax2_fin t a Ht) as (M & HM & HaM & HMq).
    unfold outer_edges, np_min, np_max. rewrite Hm, HM.
    assert (Hb : forall q, Fin q ∈ Fin a :: t -> m <= q <= M).
    { intros q Hq. apply elem_of_cons in Hq as [Hq|Hq]; [invc Hq; lra|split; auto]. }
    destruct (Qeq_bool m M) eqn:Heq.
    + eexists _, _. split_and!; [reflexivity|lra|]. intros q Hq. specialize (Hb q Hq). lra.
    + eexists _, _. split_and!; [reflexivity| |exact Hb].
      apply Qle_lteq in HaM as [HaM|HaM]; [lra|].
      apply Qle_lteq in Hma as [Hma|Hma]; [lra|].
      exfalso. assert (Hmm : m == M) by lra. apply Qeq_bool_iff in Hmm. congruence.
Qed.

(** Every kept value gets an index below [n]. *)
Lemma uniform_index_lt lo hi n q : lo < hi -> (0 < n)%nat -> lo <= q <= hi ->
  exists i, uniform_index lo hi n (Fin q) = Some i /\ (i < n)%nat.
Proof.
  intros Hlh Hn [Hlq Hqh]. unfold uniform_index.
  rewrite (proj2 (Qle_bool_iff _ _) Hlq), (proj2 (Qle_bool_iff _ _) Hqh). cbn [andb].
  unfold bin_pos. set (u := (q - lo) / (hi - lo)). set (t := u * inject_Z (Z.of_nat n)).
  assert (Hu : 0 <= u <= 1).
  { unfold u. split; [apply Qle_shift_div_l; lra|apply Qle_shift_div_r; lra]. }
  assert (HN : 0 <= inject_Z (Z.of_nat n)) by (change 0 with (inject_Z 0); rewrite <- Zle_Qle; lia).
  assert (Ht : 0 <= t <= inject_Z (Z.of_nat n)).
  { unfold t. split; [apply Qmult_le_0_compat; lra|].
    rewrite <- (Qmult_1_l (inject_Z (Z.of_nat n))) at 2. apply Qmult_le_compat_r; lra. }
  assert (Hf : (0 <= Qfloor t <= Z.of_nat n)%Z).
  { split; [change 0%Z with (Qfloor 0); apply Qfloor_resp_le; lra|].
    rewrite Zle_Qle. pose proof (Qfloor_le t). lra. }
  eexists. split; [reflexivity|]. destruct (Nat.eqb_spec (Z.to_nat (Qfloor t)) n); lia.
Qed.

Lemma omap_index_bounded (f : pyfloat -> option nat) n xs :
  (forall x, x ∈ xs -> exists i, f x = Some i /\ (i < n)%nat) ->
  length (omap f xs) = length xs /\ Forall (fun i => (i < n)%nat) (omap f xs).
Proof.
  induction xs as [|x xs IH]; intros Hf; [split; [done|constructor]|].
  destruct (Hf x ltac:(by left)) as (i & Hi & Hlt). simpl. rewrite Hi. simpl.
  destruct IH as [IH1 IH2]; [intros y Hy; apply Hf; by right|].
  split; [simpl; f_equal; exact IH1|constructor; [exact Hlt|exact IH2]].
Qed.

Lemma bincount_sum n idx : Forall (fun j => (j < n)%nat) idx -> sum_list (bincount n idx) = length idx.
Proof.
  unfold bincount. induction 1 as [|j idx Hj _ IH].
  - erewrite map_ext; [apply sum_list_map_zero|]. intros i. by rewrite filter_nil.
  - erewrite map_ext; [|intros i; apply length_filter_cons]. rewrite sum_list_map_add, IH.
    rewrite sum_indicator by apply NoDup_seq. rewrite decide_True by (apply elem_of_seq; lia).
    simpl. lia.
Qed.

Lemma omap_cons {A B} (g : A -> option B) a l :
  omap g (a :: l) = match g a with Some b => b :: omap g l | None => omap g l end.
Proof. reflexivity. Qed.

Lemma filter_omap_length {A B} (g : A -> option B) (P : B -> Prop) (Q' : A -> Prop)
  `{!∀ x, Decision (P x), !∀ x, Decision (Q' x)} l :
  (forall a, Q' a <-> exists b, g a = Some b /\ P b) ->
  length (filter P (omap g l)) = length (filter Q' l).
Proof.
  intros HQ. induction l as [|a l IH]; [done|]. rewrite length_filter_cons.
  rewrite omap_cons.
  destruct (g a) as [b|] eqn:Hg.
  - rewrite length_filter_cons, IH. f_equal.
    destruct (decide (P b)) as [Hp|Hp], (decide (Q' a)) as [Hq|Hq]; try done.
    + exfalso. apply Hq, HQ. eauto.
    + exfalso. destruct (proj1 (HQ a) ltac:(done)) as (b' & Hb' & HP). congruence.
  - rewrite IH. destruct (decide (Q' a)) as [Hq|]; [|done].
    destruct (proj1 (HQ a) Hq) as (b' & Hb' & _). congruence.
Qed.

(** The value [map(d)] gives a cell, when it is not NaN. *)
Definition dict_value (d : list (pystr * Z)) (c : cell) : option pyfloat :=
  match c with
  | CStr x => match dict_get d x with Some k => Some (Fin (inject_Z k)) | None => None end
  | CNum _ | CBool _ => None
  end.

Lemma dropna_map_dict d s : omap cell_float (dropna (map_dict d s)) = omap (dict_value d) s.
Proof.
  unfold dropna, map_dict. induction s as [|c s IH]; [done|]. simpl map. rewrite filter_cons.
  rewrite (omap_cons (dict_value d)).
  destruct c as [x|y|b]; cbn [dict_cell dict_value]; [destruct (dict_get d x)| |]; cbn [isna].
  - rewrite decide_True by done. rewrite omap_cons. cbn [cell_float]. by rewrite IH.
  - rewrite decide_False by done. exact IH.
  - rewrite decide_False by done. exact IH.
  - rewrite decide_False by done. exact IH.
Qed.

(** ** The index computation against the edges *)

Lemma Qfloor_unique (z : Z) t : inject_Z z <= t -> t < inject_Z (z + 1) -> Qfloor t = z.
Proof.
  intros H1 H2. pose proof (Qfloor_resp_le _ _ H1) as Hf. rewrite Qfloor_Z in Hf.
  assert (Hlt : (Qfloor t < z + 1)%Z).
  { rewrite Zlt_Qlt. pose proof (Qfloor_le t). lra. }
  lia.
Qed.

Lemma le_floor_iff (i : Z) t : inject_Z i <= t <-> (i <= Qfloor t)%Z.
Proof.
  split; intros H.
  - pose proof (Qfloor_resp_le _ _ H) as Hf. by rewrite Qfloor_Z in Hf.
  - rewrite Zle_Qle in H. pose proof (Qfloor_le t). lra.
Qed.

Lemma lt_floor_iff (i : Z) t : t < inject_Z i <-> (Qfloor t < i)%Z.
Proof.
  split; intros H.
  - rewrite Zlt_Qlt. pose proof (Qfloor_le t). lra.
  - assert (Hi : (Qfloor t + 1 <= i)%Z) by lia. rewrite Zle_Qle in Hi.
    pose proof (Qlt_floor t). lra.
Qed.

Section IndexBins.
Variables (lo hi : Q) (n : nat).
Hypothesis Hlh : lo < hi.
Hypothesis Hn : (0 < n)%nat.

Lemma width_pos : 0 < (hi - lo) / inject_Z (Z.of_nat n).
Proof.
  apply Qlt_shift_div_l; [|lra]. change 0 with (inject_Z 0). rewrite <- Zlt_Qlt. lia.
Qed.

Lemma inject_n_nonzero : ~ inject_Z (Z.of_nat n) == 0.
Proof. change 0 with (inject_Z 0). rewrite inject_Z_injective. lia. Qed.

Lemma lin_edge_eq i : lin_edge lo hi n i == lo + inject_Z (Z.of_nat i) * ((hi - lo) / inject_Z (Z.of_nat n)).
Proof. unfold lin_edge. pose proof inject_n_nonzero. field. exact H. Qed.

Lemma bin_pos_eq q : bin_pos lo hi n q * ((hi - lo) / inject_Z (Z.of_nat n)) == q - lo.
Proof. unfold bin_pos. pose proof inject_n_nonzero. field. split; [exact H|lra]. Qed.

Lemma lin_edge_le i q : lin_edge lo hi n i <= q <-> inject_Z (Z.of_nat i) <= bin_pos lo hi n q.
Proof.
  pose proof width_pos as Hw. rewrite lin_edge_eq.
  rewrite <- (Qmult_le_r (inject_Z (Z.of_nat i)) (bin_pos lo hi n q) _ Hw).
  pose proof (bin_pos_eq q) as E. split; intros; lra.
Qed.

Lemma lin_edge_lt q i : q < lin_edge lo hi n i <-> bin_pos lo hi n q < inject_Z (Z.of_nat i).
Proof.
  pose proof width_pos as Hw. rewrite lin_edge_eq.
  rewrite <- (Qmult_lt_r (bin_pos lo hi n q) (inject_Z (Z.of_nat i)) _ Hw).
  pose proof (bin_pos_eq q) as E. split; intros; lra.
Qed.

Lemma le_lin_edge q i : q <= lin_edge lo hi n i <-> bin_pos lo hi n q <= inject_Z (Z.of_nat i).
Proof.
  pose proof width_pos as Hw. rewrite lin_edge_eq.
  rewrite <- (Qmult_le_r (bin_pos lo hi n q) (inject_Z (Z.of_nat i)) _ Hw).
  pose proof (bin_pos_eq q) as E. split; intros; lra.
Qed.

Lemma lin_edge_0 : lin_edge lo hi n 0 == lo.
Proof. unfold lin_edge. simpl. pose proof inject_n_nonzero. field. exact H. Qed.

Lemma lin_edge_n : lin_edge lo hi n n == hi.
Proof. unfold lin_edge. pose proof inject_n_nonzero. field. exact H. Qed.

Lemma Qlt_bool_false a b : Qlt_bool a b = false <-> b <= a.
Proof.
  rewrite <- not_true_iff_false, Qlt_bool_iff. split; [apply Qnot_lt_le|]. intros H H'. lra.
Qed.

(** The test [in_bin] on interval [i] of the edges, as bounds on the
    position [bin_pos] of the value. *)
Lemma in_bin_iff q i :
  in_bin (Fin q) (lin_edge lo hi n i, lin_edge lo hi n (S i), Nat.eqb i (n - 1)) = true <->
  inject_Z (Z.of_nat i) <= bin_pos lo hi n q /\
  (if Nat.eqb i (n - 1) then bin_pos lo hi n q <= inject_Z (Z.of_nat (S i))
   else bin_pos lo hi n q < inject_Z (Z.of_nat (S i))).
Proof.
  cbn [in_bin lt_edge le_edge flt]. rewrite andb_true_iff, negb_true_iff, Qlt_bool_false, lin_edge_le.
  destruct (Nat.eqb i (n - 1)).
  - by rewrite Qle_bool_iff, le_lin_edge.
  - by rewrite Qlt_bool_iff, lin_edge_lt.
Qed.

(** numpy's index of a finite value is [i] exactly when the value lies in
    interval [i] of the edges. *)
Lemma uniform_index_in_bin q i : (i < n)%nat ->
  uniform_index lo hi n (Fin q) = Some i <->
  in_bin (Fin q) (lin_edge lo hi n i, lin_edge lo hi n (S i), Nat.eqb i (n - 1)) = true.
Proof.
  intros Hi. rewrite in_bin_iff. unfold uniform_index.
  assert (Hlo : Qle_bool lo q = true <-> 0 <= bin_pos lo hi n q).
  { rewrite Qle_bool_iff, <- lin_edge_0 at 1. apply (lin_edge_le 0). }
  assert (Hhi : Qle_bool q hi = true <-> bin_pos lo hi n q <= inject_Z (Z.of_nat n)).
  { rewrite Qle_bool_iff, <- lin_edge_n at 1. apply le_lin_edge. }
  set (t := bin_pos lo hi n q) in *. set (z := Qfloor t).
  assert (Hz1 : inject_Z z <= t) by apply Qfloor_le.
  assert (Hz2 : t < inject_Z (z + 1)) by apply Qlt_floor.
  destruct (Qle_bool lo q && Qle_bool q hi) eqn:Hr.
  - apply andb_true_iff in Hr as [H1 H2]. apply Hlo in H1. apply Hhi in H2.
    assert (Hz0 : (0 <= z)%Z) by (apply (le_floor_iff 0); exact H1).
    assert (Hzn : (z <= Z.of_nat n)%Z) by (rewrite Zle_Qle; lra).
    split.
    + intros E. injection E as E. destruct (Nat.eqb_spec (Z.to_nat z) n) as [Hzn'|Hzn'].
      * subst i. rewrite (proj2 (Nat.eqb_eq _ _) eq_refl). split.
        -- apply (le_floor_iff _ t). fold z. lia.
        -- replace (S (n - 1)) with n by lia. exact H2.
      * subst i. split; [apply (le_floor_iff _ t); fold z; lia|].
        assert (Hlt : t < inject_Z (Z.of_nat (S (Z.to_nat z)))) by (apply lt_floor_iff; fold z; lia).
        destruct (Nat.eqb _ _); [apply Qlt_le_weak|]; exact Hlt.
    + intros [Hit Hup]. apply (le_floor_iff _ t) in Hit. fold z in Hit. f_equal.
      destruct (Nat.eqb_spec i (n - 1)) as [->|Hne].
      * destruct (Nat.eqb_spec (Z.to_nat z) n); [lia|].
        assert (Hzn2 : (z <= Z.of_nat (S (n - 1)))%Z) by (rewrite Zle_Qle; lra). lia.
      * apply (lt_floor_iff _ t) in Hup. fold z in Hup.
        destruct (Nat.eqb_spec (Z.to_nat z) n); lia.
  - split; [discriminate|]. intros [Hit Hup]. exfalso.
    apply andb_false_iff in Hr as [Hr|Hr]; apply not_true_iff_false in Hr; apply Hr.
    + apply Hlo. assert (0 <= inject_Z (Z.of_nat i)) by (change 0 with (inject_Z 0); rewrite <- Zle_Qle; lia).
      lra.
    + apply Hhi. assert (Hsn : inject_Z (Z.of_nat (S i)) <= inject_Z (Z.of_nat n)) by (rewrite <- Zle_Qle; lia).
      destruct (Nat.eqb _ _); lra.
Qed.

End IndexBins.

Lemma bins_of_seq (f : nat -> Q) k m : (0 < m)%nat ->
  bins_of (map f (seq k (S m))) = map (fun i => (f i, f (S i), Nat.eqb i (k + m - 1))) (seq k m).
Proof.
  revert k. induction m as [|m IH]; intros k Hm; [lia|].
  destruct m as [|m].
  - simpl. by replace (k + 1 - 1)%nat with k by lia; rewrite Nat.eqb_refl.
  - change (seq k (S (S (S m)))) with (k :: seq (S k) (S (S m))).
    change (seq k (S (S m))) with (k :: seq (S k) (S m)).
    rewrite !map_cons.
    change (bins_of (f k :: map f (seq (S k) (S (S m))))) with
      ((f k, f (S k), false) :: bins_of (map f (seq (S k) (S (S m))))).
    rewrite (IH (S k)) by lia. f_equal.
    + f_equal. symmetry. apply Nat.eqb_neq. lia.
    + apply map_ext. intros i. do 2 f_equal. lia.
Qed.

Lemma bincount_ref lo hi n xs : lo < hi -> (0 < n)%nat ->
  bincount n (omap (uniform_index lo hi n) xs) = histogram_ref xs (linspace lo hi n).
Proof.
  intros Hlh Hn. unfold histogram_ref, linspace, bincount.
  rewrite bins_of_seq by exact Hn. rewrite map_map. apply map_ext_in. intros i Hi.
  apply in_seq in Hi. simpl (0 + n - 1)%nat. apply filter_omap_length.
  (* infinities and NaN are in no bin and get no index *)
  intros [q|[]|]; [|split; [simpl; repeat case_match; discriminate|intros (? & ? & _); discriminate]..].
  rewrite <- (uniform_index_in_bin lo hi n Hlh Hn q i) by lia. split.
  - intros H. by exists i.
  - intros (b & Hb & ->). exact Hb.
Qed.

(** Counting through [map(freq_map)] and [dropna]: a test on floats that
    holds on the code of [L] only counts the cells [L]. *)
Lemma count_mapped (P : pyfloat -> bool) (L : pystr) s :
  is_Some (dict_get freq_map L) ->
  Forall (fun xk => P (Fin (inject_Z (snd xk))) = bool_decide (fst xk = L)) freq_map ->
  length (filter (fun x => P x = true) (omap cell_float (dropna (map_dict freq_map s)))) =
  length (filter (fun c => c = CStr L) s).
Proof.
  intros [kL HL] Hall. rewrite dropna_map_dict. apply filter_omap_length.
  intros [x|y|b]; cbn [dict_value]; [|split; [discriminate|intros (? & ? & _); discriminate]..].
  destruct (dict_get freq_map x) as [k|] eqn:Hk.
  - apply dict_get_pair in Hk. rewrite Forall_forall in Hall. to_elem Hk.
    specialize (Hall (x, k) ltac:(first [exact Hk|by apply elem_In])). simpl in Hall.
    split.
    + intros Hx. eexists. split; [reflexivity|]. rewrite Hall. apply bool_decide_eq_true. congruence.
    + intros (b & Hb & HP). invc Hb. rewrite Hall in HP. apply bool_decide_eq_true in HP. by subst.
  - split; [intros Hx; invc Hx; congruence|intros (? & ? & _); discriminate].
Qed.

(** C36: On increasing edges, numpy's counts by
    [searchsorted] differences are the numbers of values in each bin, every
    bin half open but the last, which also holds its right edge. *)
Theorem histogram_edges_ref xs edges :
  Sorted Qle edges -> histogram_edges xs edges = histogram_ref xs edges.
Proof.
  induction edges as [|a [|b t] IH]; intros Hs; [done|done|].
  inversion Hs as [|? ? Hs' Hab]; subst. inversion Hab as [|? ? Hle]; subst.
  specialize (IH Hs'). unfold histogram_edges, histogram_ref in *. destruct t as [|c t].
  - cbn. f_equal. apply (bin_count_sub xs a b true Hle).
  - cbn [search_sorted_inclusive diff bins_of map] in *. rewrite IH. f_equal.
    apply (bin_count_sub xs a b false Hle).
Qed.

(** [np.histogram(a, bins=n)] on finite data
    returns [n] counts and [n + 1] edges, and the counts add up to the
    number of values: every value falls into some bin. *)
Theorem histogram_bins_total xs n :
  (0 < n)%nat -> Forall (fun x => is_fin x = true) xs ->
  exists counts edges, histogram_bins xs n = Ok (counts, edges) /\
    length counts = n /\ length edges = S n /\ sum_list counts = length xs.
Proof.
  intros Hn Hf. destruct (outer_edges_fin xs Hf) as (lo & hi & Ho & Hlh & Hb).
  unfold histogram_bins. rewrite Ho. simpl. eexists _, _. split; [reflexivity|].
  destruct (omap_index_bounded (uniform_index lo hi n) n xs) as [Hl Hlt].
  { intros x Hx. rewrite Forall_forall in Hf. specialize (Hf x). to_elem Hx.
    destruct x as [q| |]; try (by specialize (Hf ltac:(first [exact Hx|by apply elem_In]))).
    apply uniform_index_lt; [exact Hlh|exact Hn|by apply Hb]. }
  unfold bincount, linspace. rewrite !length_map, !length_seq. split_and!; [done|done|].
  rewrite <- Hl. by apply bincount_sum.
Qed.

(** A NaN among the data makes [np.histogram(a, bins=n)] raise
    [ValueError]: [a.min()] is NaN, so the autodetected range is not
    finite. *)
Lemma histogram_bins_nan xs n : NaN ∈ xs -> histogram_bins xs n = Err range_error.
Proof.
  intros Hin. unfold histogram_bins, outer_edges, np_min.
  destruct xs as [|x t]; [by apply not_elem_of_nil in Hin|].
  unfold fmin2. rewrite (np_sel_nan _ x t Hin). reflexivity.
Qed.

Lemma freq_edges_sorted : Sorted Qle freq_edges.
Proof. repeat constructor; unfold Qle; simpl; lia. Qed.

(** C31: Line 115 draws six bars, centred at 1 to 6,
    whose heights are the numbers of rows holding each label of [freq_map],
    in the map's order: a row whose label is not in the map (NaN after line
    113) is in no bar, and "Once per day", coded 7, falls in the closed last
    bin [6, 7] and is drawn at 6, next to the bar of code 5. *)
Theorem freq_hist_spec df s :
  getcol df Freq_num = Ok (map_dict freq_map s) ->
  freq_hist df = Ok (zip (map inject_Z [1; 2; 3; 4; 5; 6]%Z)
                         (map (fun xk => length (filter (fun c => c = CStr (fst xk)) s)) freq_map)).
Proof.
  intros Hf. unfold freq_hist. rewrite Hf. simpl rbind.
  rewrite (histogram_edges_ref _ _ freq_edges_sorted). unfold histogram_ref, hist_bars.
  f_equal. f_equal. cbn [bins_of freq_edges map].
  match goal with |- _ = ?r => let r' := eval cbn [map freq_map fst] in r in change r with r' end.
  repeat match goal with
  | |- _ :: _ = _ :: _ =>
      apply (f_equal2 cons); [apply (count_mapped (fun x => in_bin x _)); [eexists; reflexivity|];
                              repeat constructor|]
  end.
  reflexivity.
Qed.

(** C37: [np.histogram(a, bins=n)] finds each value's bin by index
    arithmetic, [floor((x - lo) / (hi - lo) * n)] with [n] folded into
    [n - 1]; on finite data its counts are exactly the numbers of values in
    the intervals of its edges [np.linspace(lo, hi, n + 1)], each half open
    but the last. *)
Theorem histogram_bins_ref xs n :
  (0 < n)%nat -> Forall (fun x => is_fin x = true) xs ->
  exists counts edges, histogram_bins xs n = Ok (counts, edges) /\ counts = histogram_ref xs edges.
Proof.
  intros Hn Hf. destruct (outer_edges_fin xs Hf) as (lo & hi & Ho & Hlh & _).
  unfold histogram_bins. rewrite Ho. simpl. eexists _, _. split; [reflexivity|].
  by apply bincount_ref.
Qed.

End Histogram.
