(* ===== verification/Sort.v ===== *)
(** * The sort behind pandas' [sort_values]

    [Series.sort_values] and [DataFrame.sort_values] (lines 52, 63, 74,
    129, and inside [value_counts]) call numpy's [argsort] with the default
    quicksort kind; on fewer than 17 elements numpy's introsort runs an
    insertion sort, which is stable.  The categorical columns of the survey
    have a handful of values, so the model is a stable insertion sort,
    parameterised by the strict "comes before" test of each call site:
    [before x y] holds when [x] must be placed ahead of [y]; elements where
    neither comes before the other keep their input order.  On 17 or more
    keys pandas' tie order is not specified and only the results below that
    do not depend on ties carry over. *)

From S2P Require Import Prelude.
From stdpp Require Import sorting.

Section StableSort.
Context {A : Type} (before : A -> A -> bool).

(** Insert [x] after every element it does not come before. *)
Fixpoint ins_by (x : A) (l : list A) : list A :=
  match l with
  | [] => [x]
  | y :: l' => if before x y then x :: l else y :: ins_by x l'
  end.

(** The stable sort: insert the elements one by one, in input order. *)
Definition sort_by (l : list A) : list A := fold_left (fun acc x => ins_by x acc) l [].

(** [x] may be placed ahead of [y]: [y] does not come before [x]. *)
Definition not_after (x y : A) : Prop := before y x = false.

Lemma ins_by_perm x l : ins_by x l ≡ₚ x :: l.
Proof.
  induction l as [|y l IH]; simpl; [reflexivity|].
  destruct (before x y); [reflexivity|]. rewrite IH. apply Permutation_swap.
Qed.

Lemma sort_by_acc_perm l acc : fold_left (fun acc x => ins_by x acc) l acc ≡ₚ l ++ acc.
Proof.
  revert acc. induction l as [|x l IH]; intros acc; simpl; [reflexivity|].
  rewrite IH, ins_by_perm. symmetry. apply Permutation_middle.
Qed.

Lemma sort_by_perm l : sort_by l ≡ₚ l.
Proof. unfold sort_by. rewrite sort_by_acc_perm. by rewrite app_nil_r. Qed.

Section Ordered.
Hypothesis before_asym : forall x y, before x y = true -> before y x = false.

Lemma ins_by_sorted x l : Sorted not_after l -> Sorted not_after (ins_by x l).
Proof.
  unfold not_after. induction 1 as [|y l Hl IH Hhd]; simpl; [repeat constructor|].
  destruct (before x y) eqn:Hxy.
  - constructor; [constructor; done|constructor; by apply before_asym].
  - constructor; [exact IH|]. destruct l as [|z l]; simpl; [by constructor|].
    destruct (before x z); constructor; [exact Hxy|by inversion Hhd].
Qed.

Lemma sort_by_sorted l : Sorted not_after (sort_by l).
Proof.
  unfold sort_by. assert (H : Sorted not_after (@nil A)) by constructor.
  revert H. generalize (@nil A). induction l as [|x l IH]; intros acc H; simpl; [exact H|].
  apply IH. by apply ins_by_sorted.
Qed.

End Ordered.
End StableSort.

Lemma Sorted_rev_flip {A} (R : relation A) l : Sorted R l -> Sorted (flip R) (rev l).
Proof.
  induction 1 as [|y l Hl IH Hhd]; simpl; [constructor|].
  apply Sorted_snoc; [exact IH|]. destruct l as [|z l]; simpl; [constructor|].
  inversion Hhd; subst. change (rev l ++ [z]) with (rev (z :: l)).
  simpl. by constructor.
Qed.

Lemma Sorted_weaken {A} (R R' : relation A) l :
  (forall x y, R x y -> R' x y) -> Sorted R l -> Sorted R' l.
Proof.
  intros HR. induction 1 as [|y l Hl IH Hhd]; constructor; [exact IH|].
  destruct Hhd; constructor. by apply HR.
Qed.
