(* ===== verification/GroupBy.v ===== *)
(** * Grouping and counting: [value_counts], [crosstab], [groupby]

    - [Series.value_counts()] (lines 52 and 74): pandas counts the non-NaN
      values in a hash table that keeps the order of first occurrence, then
      sorts by count, descending ([sort_values(ascending=False)]).  The sort
      is numpy's quicksort, which is an insertion sort (so stable) on fewer
      than 17 elements, the size of the categorical domains here; ties keep
      the order of first occurrence.  The script then sorts again and
      reverses with [.iloc[::-1]].
    - [pd.crosstab(a, b)] (lines 28, 40, 85): the rows are the sorted
      distinct values of [a], the columns the sorted distinct values of [b],
      both taken over the rows where neither is NaN, and a cell counts the
      rows with that pair ([fill_value=0]).
    - [df.groupby(k)] with the default [sort=True] and [dropna=True]
      (lines 63, 129): one group per distinct non-NaN key, in sorted order.
    Python compares [str] keys by code points ([PyStr.ltb]). *)

From S2P Require Import Prelude PyString PyFloat Frame.
From S2P Require Import Sort.
From stdpp Require Import sorting.

Module GroupBy.
Local Open Scope nat_scope.
Import PyStr Frame.

(** A grouping key: the string of a cell; NaN is dropped.  After the
    Cleaner the categorical columns hold only strings and NaN. *)
Definition cell_key (c : cell) : option pystr :=
  match c with CStr x => Some x | CNum _ | CBool _ => None end.

(** One step of pandas' [value_count] hash table. *)
Fixpoint count_add (k : pystr) (tbl : list (pystr * nat)) : list (pystr * nat) :=
  match tbl with
  | [] => [(k, 1)]
  | (k', n) :: rest => if decide (k' = k) then (k', S n) :: rest else (k', n) :: count_add k rest
  end.

(** The counts of the non-NaN values, in order of first occurrence. *)
Definition count_table (s : series) : list (pystr * nat) :=
  fold_left (fun tbl c => match cell_key c with Some k => count_add k tbl | None => tbl end) s [].

(** A larger count comes first. *)
Definition cnt_before (x y : pystr * nat) : bool := snd y <? snd x.

(** [Series.sort_values(ascending=False)] on a Series of counts. *)
Definition sort_desc (l : list (pystr * nat)) : list (pystr * nat) := sort_by cnt_before l.

(** [s.value_counts()]. *)
Definition value_counts (s : series) : list (pystr * nat) := sort_desc (count_table s).

(** Lines 52 and 74: [s.value_counts().sort_values(ascending=False).iloc[::-1]]. *)
Definition ranked_counts (s : series) : list (pystr * nat) := rev (sort_desc (value_counts s)).

(** The number of cells of [s] whose key is [k]. *)
Definition key_count (k : pystr) (s : series) : nat :=
  length (filter (fun c => cell_key c = Some k) s).

(** The number of non-NaN cells. *)
Definition nonnull_count (s : series) : nat :=
  length (filter (fun c => is_Some (cell_key c)) s).

(** The count a table gives to [k] (0 when absent). *)
Fixpoint tbl_get (k : pystr) (tbl : list (pystr * nat)) : nat :=
  match tbl with
  | [] => 0
  | (k', n) :: rest => if decide (k' = k) then n else tbl_get k rest
  end.

(** Insertion into a strictly increasing list of keys, dropping a key
    already present. *)
Fixpoint ins_key (k : pystr) (l : list pystr) : list pystr :=
  match l with
  | [] => [k]
  | k' :: l' => if ltb k k' then k :: l else if decide (k = k') then l else k' :: ins_key k l'
  end.

(** The group keys of [groupby(sort=True)]: the distinct keys, sorted. *)
Definition group_keys (ks : list pystr) : list pystr := fold_left (fun acc k => ins_key k acc) ks [].

(** The rows of [a] and [b] where neither is NaN, as key pairs. *)
Definition pair_keys (a b : series) : list (pystr * pystr) :=
  omap (fun xy => match cell_key (fst xy), cell_key (snd xy) with
                  | Some p, Some q => Some (p, q)
                  | _, _ => None
                  end) (zip a b).

(** [pd.crosstab(a, b)]: for each row key, the count of each column key. *)
Definition crosstab (a b : series) : list (pystr * list (pystr * nat)) :=
  let ps := pair_keys a b in
  let cols := group_keys (map snd ps) in
  map (fun r => (r, map (fun c => (c, length (filter (fun p => p = (r, c)) ps))) cols))
      (group_keys (map fst ps)).

(** The sum of a row of counts ([DataFrame.sum(axis=1)]). *)
Definition row_total (row : list (pystr * nat)) : nat := sum_list (map snd row).

(** ** The count table *)

Definition pos_counts (tbl : list (pystr * nat)) : Prop := Forall (fun kn => 0 < snd kn) tbl.

Lemma tbl_get_count_add k k' tbl :
  tbl_get k (count_add k' tbl) = tbl_get k tbl + (if decide (k' = k) then 1 else 0).
Proof.
  induction tbl as [|[k0 n] rest IH]; simpl.
  - destruct (decide (k' = k)); simpl; lia.
  - destruct (decide (k0 = k')) as [->|Hne]; simpl.
    + destruct (decide (k' = k)); lia.
    + destruct (decide (k0 = k)) as [->|]; [|exact IH].
      rewrite decide_False by congruence. lia.
Qed.

Lemma count_add_keys k tbl :
  map fst (count_add k tbl) = if decide (k ∈ map fst tbl) then map fst tbl else map fst tbl ++ [k].
Proof.
  induction tbl as [|[k0 n] rest IH]; cbn [count_add map fst].
  - case_decide as H; [by apply not_elem_of_nil in H|reflexivity].
  - destruct (decide (k0 = k)) as [->|Hne]; cbn [map fst].
    + clear IH. case_decide as H; [reflexivity|]. exfalso. apply H. by left.
    + rewrite IH. clear IH. case_decide as Hin; case_decide as Hin'; try reflexivity.
      * exfalso. apply Hin'. by right.
      * exfalso. apply elem_of_cons in Hin' as [->|]; contradiction.
Qed.

Lemma count_add_NoDup k tbl : NoDup (map fst tbl) -> NoDup (map fst (count_add k tbl)).
Proof.
  intros H. rewrite count_add_keys. destruct (decide (k ∈ map fst tbl)); [exact H|].
  apply list.NoDup_app. split_and!; [exact H| |by apply NoDup_singleton].
  intros x Hx Hx'. apply list_elem_of_singleton in Hx' as ->. contradiction.
Qed.

Lemma count_add_pos k tbl : pos_counts tbl -> pos_counts (count_add k tbl).
Proof.
  induction 1 as [|[k0 n] rest Hn Hrest IH]; simpl; [repeat constructor|].
  destruct (decide (k0 = k)); repeat constructor; simpl in *; try lia; done.
Qed.

Lemma sum_count_add k tbl : sum_list (map snd (count_add k tbl)) = S (sum_list (map snd tbl)).
Proof.
  induction tbl as [|[k0 n] rest IH]; simpl; [reflexivity|].
  destruct (decide (k0 = k)); simpl; [reflexivity|]. rewrite IH. lia.
Qed.

(** The invariant of the [value_count] loop, for any start table. *)
Lemma count_table_acc s acc :
  let tbl := fold_left (fun tbl c => match cell_key c with Some k => count_add k tbl | None => tbl end) s acc in
  (NoDup (map fst acc) -> NoDup (map fst tbl)) /\
  (pos_counts acc -> pos_counts tbl) /\
  (forall k, tbl_get k tbl = tbl_get k acc + key_count k s) /\
  sum_list (map snd tbl) = sum_list (map snd acc) + nonnull_count s.
Proof.
  revert acc. induction s as [|c s IH]; intros acc; simpl.
  - unfold key_count, nonnull_count. simpl. split_and!; [done|done| |]; intros; lia.
  - destruct (cell_key c) as [k|] eqn:Hc.
    + destruct (IH (count_add k acc)) as (H1 & H2 & H3 & H4). split_and!.
      * intros H. apply H1. by apply count_add_NoDup.
      * intros H. apply H2. by apply count_add_pos.
      * intros k'. rewrite H3, tbl_get_count_add. unfold key_count. rewrite filter_cons, Hc.
        destruct (decide (k = k')) as [->|Hne].
        -- rewrite decide_True by reflexivity. simpl. lia.
        -- rewrite decide_False by congruence. lia.
      * rewrite H4, sum_count_add. unfold nonnull_count. rewrite filter_cons, Hc.
        rewrite decide_True by done. simpl. lia.
    + destruct (IH acc) as (H1 & H2 & H3 & H4). split_and!; [done|done| |].
      * intros k'. rewrite H3. unfold key_count. rewrite filter_cons, Hc.
        rewrite decide_False by discriminate. reflexivity.
      * rewrite H4. unfold nonnull_count. rewrite filter_cons, Hc.
        rewrite decide_False by (intros [? H]; discriminate). reflexivity.
Qed.

Lemma tbl_get_elem k n tbl :
  NoDup (map fst tbl) -> pos_counts tbl -> (k, n) ∈ tbl <-> tbl_get k tbl = n /\ 0 < n.
Proof.
  intros Hnd Hpos. induction tbl as [|[k0 m] rest IH]; simpl.
  - split; [intros H; by apply not_elem_of_nil in H|lia].
  - apply list.NoDup_cons in Hnd as [Hk0 Hnd]. inversion Hpos as [|? ? Hm Hrest]; subst.
    rewrite elem_of_cons, IH by done. destruct (decide (k0 = k)) as [->|Hne].
    + split.
      * intros [H|[H1 H2]]; [by invc H|]. exfalso. apply Hk0.
        clear -H2 H1 Hnd Hrest. revert H1 H2. induction rest as [|[k1 m1] rest IH]; simpl; [lia|].
        destruct (decide (k1 = k)) as [->|]; intros; [by left|right; by apply IH; [apply list.NoDup_cons in Hnd as []|inversion Hrest|..]].
      * intros [<- _]. by left.
    + split; [intros [H|H]; [by invc H|exact H]|intros H; by right].
Qed.

(** ** The descending sort of counts *)

Lemma cnt_before_asym x y : cnt_before x y = true -> cnt_before y x = false.
Proof. unfold cnt_before. intros H. apply Nat.ltb_lt in H. apply Nat.ltb_ge. lia. Qed.

Lemma cnt_not_after x y : not_after cnt_before x y <-> snd y <= snd x.
Proof. unfold not_after, cnt_before. apply Nat.ltb_ge. Qed.

Lemma count_table_props s :
  NoDup (map fst (count_table s)) /\ pos_counts (count_table s) /\
  (forall k, tbl_get k (count_table s) = key_count k s) /\
  sum_list (map snd (count_table s)) = nonnull_count s.
Proof.
  unfold count_table. destruct (count_table_acc s []) as (H1 & H2 & H3 & H4).
  refine (conj _ (conj _ (conj _ _))); [apply H1; apply NoDup_nil_2|apply H2; by apply Forall_nil|intros k; by rewrite H3|by rewrite H4].
Qed.

Lemma ranked_counts_perm s : ranked_counts s ≡ₚ count_table s.
Proof.
  unfold ranked_counts, value_counts. rewrite <- Permutation_rev.
  unfold sort_desc. by rewrite !sort_by_perm.
Qed.

(** C29: The ranking of lines 52 and 74 lists each
    distinct non-NaN value once, with its number of occurrences, in
    ascending order of count (largest bar at the top of the chart); the
    counts are positive and sum to the number of non-NaN cells (spec,
    section 8). *)
Theorem ranked_counts_spec s :
  NoDup (map fst (ranked_counts s)) /\
  (forall k n, (k, n) ∈ ranked_counts s <-> key_count k s = n /\ 0 < n) /\
  Sorted (fun x y => snd x <= snd y) (ranked_counts s) /\
  sum_list (map snd (ranked_counts s)) = nonnull_count s.
Proof.
  destruct (count_table_props s) as (Hnd & Hpos & Hget & Hsum).
  pose proof (ranked_counts_perm s) as Hp.
  split_and!.
  - by rewrite Hp.
  - intros k n. rewrite Hp, tbl_get_elem by done. by rewrite Hget.
  - eapply Sorted_weaken; [|apply Sorted_rev_flip, sort_by_sorted, cnt_before_asym].
    intros x y H. by apply cnt_not_after in H.
  - rewrite <- Hsum. apply sum_list_perm. by rewrite Hp.
Qed.

(** ** Group keys *)

(** Strictly increasing in Python's [str] order. *)
Definition key_lt (a b : pystr) : Prop := ltb a b = true.

Lemma key_lt_trans : Transitive key_lt.
Proof. intros a b c. apply ltb_trans. Qed.

Lemma ins_key_elem k l x : x ∈ ins_key k l <-> x = k \/ x ∈ l.
Proof.
  induction l as [|k' l IH]; simpl.
  - rewrite list_elem_of_singleton. split; [by left|intros [H|H]; [exact H|by apply not_elem_of_nil in H]].
  - destruct (ltb k k'); [rewrite elem_of_cons; tauto|].
    destruct (decide (k = k')) as [->|]; rewrite !elem_of_cons; [tauto|rewrite IH; tauto].
Qed.

Lemma ins_key_sorted k l : StronglySorted key_lt l -> StronglySorted key_lt (ins_key k l).
Proof.
  induction 1 as [|k' l Hl IH Hall]; simpl; [repeat constructor|].
  destruct (ltb k k') eqn:Hlt.
  - constructor; [by constructor|]. constructor; [exact Hlt|].
    eapply Forall_impl; [exact Hall|]. intros x Hx. exact (ltb_trans _ _ _ Hlt Hx).
  - destruct (decide (k = k')) as [->|Hne]; [by constructor|].
    constructor; [exact IH|]. apply Forall_forall. intros x Hx.
    to_elem Hx. apply ins_key_elem in Hx as [->|Hx].
    + destruct (ltb_total k' k) as [H|H]; [congruence|exact H|by rewrite H in Hlt].
    + rewrite Forall_forall in Hall. apply Hall. first [exact Hx | by apply elem_In].
Qed.

Lemma group_keys_acc ks acc :
  (forall x, x ∈ fold_left (fun acc k => ins_key k acc) ks acc <-> x ∈ ks \/ x ∈ acc) /\
  (StronglySorted key_lt acc -> StronglySorted key_lt (fold_left (fun acc k => ins_key k acc) ks acc)).
Proof.
  revert acc. induction ks as [|k ks IH]; intros acc; simpl.
  - split; [intros x; split; [by right|intros [H|H]; [by apply not_elem_of_nil in H|exact H]]|done].
  - destruct (IH (ins_key k acc)) as [H1 H2]. split.
    + intros x. rewrite H1, ins_key_elem, elem_of_cons. tauto.
    + intros H. apply H2. by apply ins_key_sorted.
Qed.

Lemma group_keys_elem ks x : x ∈ group_keys ks <-> x ∈ ks.
Proof.
  unfold group_keys. destruct (group_keys_acc ks []) as [H _]. rewrite H.
  split; [intros [H'|H']; [exact H'|by apply not_elem_of_nil in H']|by left].
Qed.

Lemma group_keys_sorted ks : StronglySorted key_lt (group_keys ks).
Proof. unfold group_keys. destruct (group_keys_acc ks []) as [_ H]. apply H. constructor. Qed.

Lemma strictly_sorted_NoDup l : StronglySorted key_lt l -> NoDup l.
Proof.
  induction 1 as [|k l Hl IH Hall]; [apply NoDup_nil_2|]. apply NoDup_cons_2; [|exact IH].
  intros Hk. rewrite Forall_forall in Hall.
  specialize (Hall k ltac:(first [exact Hk | by apply elem_In])). unfold key_lt in Hall. by rewrite ltb_irrefl in Hall.
Qed.

Lemma group_keys_NoDup ks : NoDup (group_keys ks).
Proof. apply strictly_sorted_NoDup, group_keys_sorted. Qed.

(** ** Cross-tabulation *)

(** The cells of a row add up to the number of pairs with that row key,
    when the columns are the distinct second components. *)
Lemma row_sum_count r (ps : list (pystr * pystr)) cols :
  NoDup cols -> (forall p, p ∈ ps -> snd p ∈ cols) ->
  sum_list (map (fun c => length (filter (fun p => p = (r, c)) ps)) cols) =
  length (filter (fun p => fst p = r) ps).
Proof.
  intros Hnd. induction ps as [|[p q] ps IH]; intros Hcols; simpl.
  - apply sum_list_map_zero.
  - rewrite length_filter_cons.
    erewrite map_ext; [|intros c; apply length_filter_cons].
    rewrite sum_list_map_add, IH by (intros p' Hp'; apply Hcols; by right).
    f_equal. simpl. destruct (decide (p = r)) as [->|Hne].
    + erewrite map_ext; [|intros c; instantiate (1 := fun c => if decide (q = c) then 1 else 0); simpl;
        destruct (decide ((r, q) = (r, c))) as [H|H], (decide (q = c)) as [H'|H']; congruence].
      rewrite sum_indicator by exact Hnd. rewrite decide_True; [reflexivity|].
      apply (Hcols (r, q)). by left.
    + erewrite map_ext; [apply sum_list_map_zero|]. intros c. simpl.
      destruct (decide ((p, q) = (r, c))) as [H|H]; [congruence|reflexivity].
Qed.

(** One row of a cross-tabulation: its columns, its cells and its total. *)
Lemma crosstab_row a b r row :
  (r, row) ∈ crosstab a b ->
  r ∈ map fst (pair_keys a b) /\
  map fst row = group_keys (map snd (pair_keys a b)) /\
  (forall c n, (c, n) ∈ row -> n = length (filter (fun p => p = (r, c)) (pair_keys a b))) /\
  row_total row = length (filter (fun p => fst p = r) (pair_keys a b)) /\
  (0 < row_total row)%nat.
Proof.
  set (ps := pair_keys a b). intros Hin. unfold crosstab in Hin. fold ps in Hin.
  apply list_elem_of_fmap in Hin as (r' & Heq & Hr). invc Heq.
  assert (Htot : row_total (map (fun c => (c, length (filter (fun p => p = (r', c)) ps)))
                                (group_keys (map snd ps))) =
                 length (filter (fun p => fst p = r') ps)).
  { unfold row_total. rewrite map_map. simpl. apply row_sum_count; [apply group_keys_NoDup|].
    intros p Hp. apply group_keys_elem, list_elem_of_fmap. eauto. }
  rewrite group_keys_elem in Hr. split_and!.
  - exact Hr.
  - rewrite map_map. simpl. apply map_id.
  - intros c n Hcn. apply list_elem_of_fmap in Hcn as (c' & Heq & _). by invc Heq.
  - exact Htot.
  - rewrite Htot. apply list_elem_of_fmap in Hr as ([r0 c0] & -> & Hp).
    by apply (filter_length_pos _ (r0, c0)).
Qed.

Lemma crosstab_keys a b : map fst (crosstab a b) = group_keys (map fst (pair_keys a b)).
Proof. unfold crosstab. rewrite map_map. simpl. apply map_id. Qed.

(** C30: [pd.crosstab(a, b)] has one row per distinct
    value of [a] among the rows where neither [a] nor [b] is NaN, in
    increasing [str] order; every row has the same sorted columns, the
    distinct values of [b]; a cell counts the rows holding that pair; and a
    row adds up to the number of rows with that value of [a], so no row of
    a cross-tabulation sums to zero. *)
Theorem crosstab_spec a b :
  StronglySorted key_lt (map fst (crosstab a b)) /\
  (forall r, r ∈ map fst (crosstab a b) <-> r ∈ map fst (pair_keys a b)) /\
  (forall r row, (r, row) ∈ crosstab a b ->
     map fst row = group_keys (map snd (pair_keys a b)) /\
     (forall c n, (c, n) ∈ row -> n = length (filter (fun p => p = (r, c)) (pair_keys a b))) /\
     row_total row = length (filter (fun p => fst p = r) (pair_keys a b)) /\
     0 < row_total row).
Proof.
  rewrite crosstab_keys. split_and!.
  - apply group_keys_sorted.
  - intros r. apply group_keys_elem.
  - intros r row Hin. by destruct (crosstab_row _ _ _ _ Hin) as (_ & ?).
Qed.

End GroupBy.
