(* ===== verification/Stats.v ===== *)
(** * Grouped statistics, percentages and rounding

    - Line 63: [df.groupby('Place to drink')['Ticket'].mean()
      .sort_values(ascending=True)]: one mean per group, over the non-NaN
      tickets of the group (NaN when there is none), sorted ascending with
      NaN last.
    - Line 129: [df.groupby('Additional products')['Ticket']
      .agg(['mean', 'count']).sort_values('mean', ascending=False)]: the
      mean and the number of non-NaN tickets, sorted by mean descending,
      NaN last.
    - Line 133: [payment_age.div(payment_age.sum(axis=1), axis=0) * 100]:
      each count divided by its row total, times 100 (numpy true division).
    - Lines 126, 130, 134: [.round(2)] and [.round(1)], numpy's rounding:
      scale by [10^d], round half to even, scale back. *)

From S2P Require Import Prelude PyString PyFloat Frame Cleaner Sort GroupBy.
From stdpp Require Import sorting.
From Stdlib Require Import Qround Qabs.
From Stdlib Require Strings.String.
Import Stdlib.Strings.String.StringSyntax.

Module Stats.
Import PyStr Frame Cleaner GroupBy FloatArith.
Local Open Scope Q_scope.

(** The non-NaN values of [vals] in the rows whose key is [k] ([skipna]). *)
Definition group_vals (keys vals : series) (k : pystr) : list pyfloat :=
  omap (fun kv => if decide (cell_key (fst kv) = Some k) then
                    match cell_float (snd kv) with
                    | Some x => if is_nan x then None else Some x
                    | None => None
                    end
                  else None) (zip keys vals).

(** [Series.mean()]: NaN on an empty group. *)
Definition fmean (xs : list pyfloat) : pyfloat :=
  match xs with
  | [] => NaN
  | _ => fdiv (fsum xs) (of_nat (length xs))
  end.

(** The groups of [groupby(keys)]: distinct non-NaN keys, sorted. *)
Definition groupby_keys (keys : series) : list pystr := group_keys (omap cell_key keys).

(** [df.groupby(keys)[vals].mean()]. *)
Definition groupby_mean (keys vals : series) : list (pystr * pyfloat) :=
  map (fun k => (k, fmean (group_vals keys vals k))) (groupby_keys keys).

(** [df.groupby(keys)[vals].agg(['mean', 'count'])]. *)
Definition groupby_mean_count (keys vals : series) : list (pystr * (pyfloat * nat)) :=
  map (fun k => (k, (fmean (group_vals keys vals k), length (group_vals keys vals k))))
      (groupby_keys keys).

(** Ascending order with NaN last ([na_position='last']). *)
Definition nan_last_lt (x y : pyfloat) : bool := flt x y || (negb (is_nan x) && is_nan y).

(** [sort_values(ascending=True)] on means. *)
Definition mean_asc_before (x y : pystr * pyfloat) : bool := nan_last_lt (snd x) (snd y).

(** Descending order with NaN last. *)
Definition nan_last_gt (x y : pyfloat) : bool := flt y x || (negb (is_nan x) && is_nan y).

(** [sort_values('mean', ascending=False)]: larger means first, NaN last. *)
Definition mean_desc_before (x y : pystr * (pyfloat * nat)) : bool :=
  nan_last_gt (fst (snd x)) (fst (snd y)).

(** Line 63. *)
Definition avg_ticket_by_place (df : frame) : result exn (list (pystr * pyfloat)) :=
  keys <- getcol df (py "Place to drink") ;;
  vals <- getcol df Ticket ;;
  Ok (sort_by mean_asc_before (groupby_mean keys vals)).

(** Line 129. *)
Definition avg_ticket_by_product (df : frame) : result exn (list (pystr * (pyfloat * nat))) :=
  keys <- getcol df (py "Additional products") ;;
  vals <- getcol df Ticket ;;
  Ok (sort_by mean_desc_before (groupby_mean_count keys vals)).

(** One row of line 133: [n / total * 100] for each cell. *)
Definition row_percent (row : list (pystr * nat)) : list (pystr * pyfloat) :=
  map (fun cn => (fst cn, fmul (fdiv (of_nat (snd cn)) (of_nat (row_total row))) (Fin 100))) row.

Definition percentages (ct : list (pystr * list (pystr * nat))) : list (pystr * list (pystr * pyfloat)) :=
  map (fun rr => (fst rr, row_percent (snd rr))) ct.

(** Lines 40 and 133: the payment-by-age cross-tabulation in percent. *)
Definition payment_percentages (df : frame) : result exn (list (pystr * list (pystr * pyfloat))) :=
  a <- getcol df (py "Age") ;;
  b <- getcol df (py "Payment mode") ;;
  Ok (percentages (crosstab a b)).

(** numpy's [rint]: round half to even. *)
Definition round_half_even (y : Q) : Z :=
  let f := Qfloor y in
  let r := y - inject_Z f in
  if Qlt_bool r (1 # 2) then f
  else if Qlt_bool (1 # 2) r then (f + 1)%Z
  else if Z.even f then f else (f + 1)%Z.

(** [Series.round(d)]. *)
Definition fround (d : nat) (x : pyfloat) : pyfloat :=
  match x with
  | Fin q => Fin (inject_Z (round_half_even (q * inject_Z (10 ^ Z.of_nat d))) / inject_Z (10 ^ Z.of_nat d))
  | _ => x
  end.

(** ** Orders on means *)

(** Turn the boolean comparisons of rationals into propositions. *)
Ltac qlt_bool_prop :=
  repeat match goal with
  | H : Qlt_bool _ _ = true |- _ => apply Qlt_bool_iff in H
  | H : Qlt_bool _ _ = false |- _ => apply not_true_iff_false in H; rewrite Qlt_bool_iff in H
  | |- Qlt_bool _ _ = false => apply not_true_iff_false; rewrite Qlt_bool_iff
  | |- Qlt_bool _ _ = true => apply Qlt_bool_iff
  end.

(** Case analysis over the float constructors of [x], [y], [z], closing the
    finite cases by linear arithmetic. *)
Ltac float_cases :=
  repeat match goal with x : pyfloat |- _ => destruct x as [?|[]|] end;
  cbn [nan_last_lt nan_last_gt flt is_nan negb andb orb] in *; rewrite ?orb_false_r, ?orb_true_r in *;
  try discriminate; try reflexivity; qlt_bool_prop; try lra.

Lemma nan_last_asym x y : nan_last_lt x y = true -> nan_last_lt y x = false.
Proof. unfold nan_last_lt. intros H. float_cases. Qed.

Lemma mean_asc_asym x y : mean_asc_before x y = true -> mean_asc_before y x = false.
Proof. apply nan_last_asym. Qed.

Lemma mean_desc_asym x y : mean_desc_before x y = true -> mean_desc_before y x = false.
Proof.
  unfold mean_desc_before, nan_last_gt. destruct x as [k [m c]], y as [k' [m' c']]. cbn [fst snd].
  intros H. float_cases.
Qed.

Lemma groupby_keys_elem keys k : k ∈ groupby_keys keys <-> CStr k ∈ keys.
Proof.
  unfold groupby_keys. rewrite group_keys_elem, list_elem_of_omap. split.
  - intros ([x|f|b] & Hx & Hk); simpl in Hk; [by invc Hk|discriminate..].
  - intros H. exists (CStr k). split; [exact H|reflexivity].
Qed.

Lemma groupby_mean_keys keys vals : map fst (groupby_mean keys vals) = groupby_keys keys.
Proof. unfold groupby_mean. rewrite map_map. simpl. apply map_id. Qed.

Lemma groupby_mean_elem keys vals k m :
  (k, m) ∈ groupby_mean keys vals -> m = fmean (group_vals keys vals k).
Proof. unfold groupby_mean. intros H. apply list_elem_of_fmap in H as (k' & Heq & _). by invc Heq. Qed.

(** C27: Line 63 lists each distinct non-NaN
    place once, with the mean of the non-NaN tickets of that place, in
    ascending order of mean with NaN last. *)
Theorem avg_ticket_by_place_spec df res :
  avg_ticket_by_place df = Ok res ->
  exists keys vals, getcol df (py "Place to drink") = Ok keys /\ getcol df Ticket = Ok vals /\
    NoDup (map fst res) /\
    (forall k, k ∈ map fst res <-> CStr k ∈ keys) /\
    (forall k m, (k, m) ∈ res -> m = fmean (group_vals keys vals k)) /\
    Sorted (fun x y => nan_last_lt (snd y) (snd x) = false) res.
Proof.
  unfold avg_ticket_by_place.
  destruct (getcol df (py "Place to drink")) as [keys|e]; [|discriminate]. simpl.
  destruct (getcol df Ticket) as [vals|e]; [|discriminate]. simpl. intros H. invc H.
  exists keys, vals. pose proof (sort_by_perm mean_asc_before (groupby_mean keys vals)) as Hp.
  split_and!; [done|done| | | |].
  - rewrite Hp, groupby_mean_keys. apply group_keys_NoDup.
  - intros k. rewrite Hp, groupby_mean_keys. apply groupby_keys_elem.
  - intros k m Hkm. rewrite Hp in Hkm. by apply groupby_mean_elem.
  - apply (sort_by_sorted mean_asc_before mean_asc_asym).
Qed.

(** C28: Line 129 lists each distinct
    non-NaN product once, with the mean and the number of the non-NaN
    tickets of that product, in descending order of mean with NaN last. *)
Theorem avg_ticket_by_product_spec df res :
  avg_ticket_by_product df = Ok res ->
  exists keys vals, getcol df (py "Additional products") = Ok keys /\ getcol df Ticket = Ok vals /\
    NoDup (map fst res) /\
    (forall k, k ∈ map fst res <-> CStr k ∈ keys) /\
    (forall k m c, (k, (m, c)) ∈ res ->
       m = fmean (group_vals keys vals k) /\ c = length (group_vals keys vals k)) /\
    Sorted (fun x y => nan_last_gt (fst (snd y)) (fst (snd x)) = false) res.
Proof.
  unfold avg_ticket_by_product.
  destruct (getcol df (py "Additional products")) as [keys|e]; [|discriminate]. simpl.
  destruct (getcol df Ticket) as [vals|e]; [|discriminate]. simpl. intros H. invc H.
  exists keys, vals. pose proof (sort_by_perm mean_desc_before (groupby_mean_count keys vals)) as Hp.
  assert (Hkeys : map fst (groupby_mean_count keys vals) = groupby_keys keys).
  { unfold groupby_mean_count. rewrite map_map. simpl. apply map_id. }
  split_and!; [done|done| | | |].
  - rewrite Hp, Hkeys. apply group_keys_NoDup.
  - intros k. rewrite Hp, Hkeys. apply groupby_keys_elem.
  - intros k m c Hkm. rewrite Hp in Hkm. unfold groupby_mean_count in Hkm.
    apply list_elem_of_fmap in Hkm as (k' & Heq & _). by invc Heq.
  - apply (sort_by_sorted mean_desc_before mean_desc_asym).
Qed.

(** ** Rounding *)

Lemma round_half_even_close y : - (1 # 2) <= inject_Z (round_half_even y) - y <= 1 # 2.
Proof.
  unfold round_half_even. pose proof (Qfloor_le y) as Hlo. pose proof (Qlt_floor y) as Hhi.
  rewrite inject_Z_plus in Hhi. change (inject_Z 1) with 1 in Hhi.
  destruct (Qlt_bool (y - inject_Z (Qfloor y)) (1 # 2)) eqn:E1.
  - apply Qlt_bool_iff in E1. split; lra.
  - destruct (Qlt_bool (1 # 2) (y - inject_Z (Qfloor y))) eqn:E2.
    + apply Qlt_bool_iff in E2. rewrite inject_Z_plus. change (inject_Z 1) with 1. split; lra.
    + apply not_true_iff_false in E1, E2. rewrite Qlt_bool_iff in E1, E2.
      assert (Hhalf : y - inject_Z (Qfloor y) == 1 # 2) by lra.
      destruct (Z.even (Qfloor y)); [|rewrite inject_Z_plus; change (inject_Z 1) with 1]; split; lra.
Qed.

(** [Series.round(d)] (lines 126, 130, 134) moves a
    finite value by at most half a unit of the last kept decimal. *)
Theorem fround_close d q :
  exists r, fround d (Fin q) = Fin r /\ Qabs (r - q) <= (1 # 2) / inject_Z (10 ^ Z.of_nat d).
Proof.
  set (P := inject_Z (10 ^ Z.of_nat d)).
  assert (HP : 0 < P).
  { unfold P. change 0 with (inject_Z 0). rewrite <- Zlt_Qlt. apply Z.pow_pos_nonneg; lia. }
  eexists. split; [reflexivity|]. fold P.
  set (R := inject_Z (round_half_even (q * P))).
  pose proof (round_half_even_close (q * P)) as Hc. fold R in Hc.
  assert (Heq : R / P - q == (R - q * P) * / P) by (field; lra).
  rewrite Heq, Qabs_Qmult, (Qabs_pos (/ P)) by (apply Qlt_le_weak, Qinv_lt_0_compat, HP).
  unfold Qdiv. apply Qmult_le_compat_r; [|apply Qlt_le_weak, Qinv_lt_0_compat, HP].
  apply Qabs_Qle_condition. exact Hc.
Qed.

End Stats.
