(* ===== verification/Pyplot.v ===== *)
(** * matplotlib's pyplot state, as the script drives it (lines 27-121)

    pyplot keeps a registry of open figures ([_pylab_helpers.Gcf]), the
    most recently active last; every [plt.*] call and every plot without an
    [ax] works on the active figure, creating one of the rc default size
    when none is open.  The script never passes an [ax], so which figure a
    chart lands on, and at which size, is decided by this state:
    - [plt.figure(figsize=fs)] opens a figure numbered one above the largest
      open number and makes it active;
    - [DataFrame.plot] (lines 29 and 41) first selects the numeric columns
      and raises [TypeError('no numeric data to plot')] when there is none
      (an empty cross-tabulation); otherwise it opens a new figure of the
      rc size, as pandas' [MPLPlot._setup_subplots] calls [plt.figure] when
      [ax] is None;
    - [sns.heatmap] (line 86) raises [ValueError] on a zero-size table
      ([np.nanmin] in [_HeatMapper]) before it asks for the axes;
    - [Series.plot] (lines 53, 64, 75), [sns.heatmap], [plt.hist]
      (lines 96, 115), [plt.title], [plt.xlabel], [plt.ylabel] and
      [plt.legend] draw on the active figure ([plt.gca()]);
    - [plt.tight_layout] only rearranges the active figure;
    - [plt.savefig] writes the active figure, or raises [OSError] when the
      directory [figures/] does not exist;
    - [plt.close()] closes the active figure, if any.
    The styling calls of lines 14-15 set colours and fonts only and are not
    modelled; the rc default size is part of the state. *)

From S2P Require Import Prelude PyString PyFloat Frame.
From Stdlib Require Strings.String.
Import Stdlib.Strings.String.StringSyntax.

Module Pyplot.
Import PyStr FloatArith Frame.
Local Open Scope Q_scope.

(** What a chart shows, as the data the plotting call receives. *)
Inductive plotdata : Type :=
| PCross (ct : list (pystr * list (pystr * nat)))
| PCounts (c : list (pystr * nat))
| PMeans (m : list (pystr * pyfloat))
| PBars (b : list (Q * nat)).

(** What a call adds to a figure. *)
Inductive artist : Type :=
| BarhStacked (d : plotdata)
| Barh (d : plotdata)
| Heatmap (d : plotdata)
| Hist (d : plotdata)
| Title (t : pystr)
| XLabel (t : pystr)
| YLabel (t : pystr)
| Legend (t : pystr).

Record figure := mkFigure { fsize : Q * Q; fart : list artist }.

Record pyplot := mkPyplot {
  rc_size : Q * Q;                    (** [rcParams['figure.figsize']] *)
  figs : list (nat * figure);         (** open figures, the active one last *)
  dir_exists : bool;                  (** whether [figures/] exists *)
  files : list (pystr * figure)       (** the images written, in order *)
}.

(** Lines 10-11. *)
Definition fs_page : Q * Q := (12, 5).
Definition fs_half : Q * Q := (8, 5).

Definition max_num (fs : list (nat * figure)) : nat := foldr (fun nf m => Nat.max (fst nf) m) 0%nat fs.

(** [plt.figure(figsize=sz)]. *)
Definition figure_new (sz : Q * Q) (st : pyplot) : pyplot :=
  mkPyplot (rc_size st) (figs st ++ [(S (max_num (figs st)), mkFigure sz [])]) (dir_exists st) (files st).

(** [plt.gcf()]: the active figure, created when none is open. *)
Definition gcf (st : pyplot) : pyplot :=
  match figs st with [] => figure_new (rc_size st) st | _ => st end.

Definition add_artist (a : artist) (nf : nat * figure) : nat * figure :=
  (fst nf, mkFigure (fsize (snd nf)) (fart (snd nf) ++ [a])).

(** Apply [f] to the last element. *)
Fixpoint map_last {A} (f : A -> A) (l : list A) : list A :=
  match l with [] => [] | [x] => [f x] | x :: l' => x :: map_last f l' end.

(** A call that draws on [plt.gca()]. *)
Definition draw (a : artist) (st : pyplot) : pyplot :=
  let st := gcf st in
  mkPyplot (rc_size st) (map_last (add_artist a) (figs st)) (dir_exists st) (files st).

(** The columns of a cross-tabulation: those of its rows (every row has
    the same ones), none when it has no row. *)
Definition ct_columns (ct : list (pystr * list (pystr * nat))) : list pystr :=
  match ct with [] => [] | (_, row) :: _ => map fst row end.

(** The number of columns of the data a call plots: a [Series] is one
    column. *)
Definition plot_columns (d : plotdata) : nat :=
  match d with PCross ct => length (ct_columns ct) | _ => 1%nat end.

(** The number of cells of the data ([ndarray.size]). *)
Definition data_size (d : plotdata) : nat :=
  match d with
  | PCross ct => (length ct * length (ct_columns ct))%nat
  | PCounts c => length c
  | PMeans m => length m
  | PBars b => length b
  end.

(** The data an artist shows, if it shows any. *)
Definition artist_data (a : artist) : option plotdata :=
  match a with BarhStacked d | Barh d | Heatmap d | Hist d => Some d | _ => None end.

Definition no_numeric_data : pystr := py "no numeric data to plot".
Definition zero_size_fmin : pystr := py "zero-size array to reduction operation fmin which has no identity".

(** [DataFrame.plot(...)] without [ax]: [MPLPlot.generate] first computes
    the numeric data ([_compute_plot_data]), raising [TypeError] when the
    frame has no numeric column, and only then opens a new figure of the
    rc size ([_setup_subplots]) and draws on it. *)
Definition df_plot (a : artist) (st : pyplot) : result exn pyplot :=
  match artist_data a with
  | Some d => if decide (plot_columns d = 0%nat) then Err (TypeError no_numeric_data)
              else Ok (draw a (figure_new (rc_size st) st))
  | None => Ok (draw a (figure_new (rc_size st) st))
  end.

(** A call that draws on [plt.gca()].  [sns.heatmap] builds its
    [_HeatMapper] before it asks for the axes, and [_determine_cmap_params]
    takes [np.nanmin] of the data, which raises [ValueError] on a
    zero-size array; the other calls do not raise. *)
Definition draw_call (a : artist) (st : pyplot) : result exn pyplot :=
  match a with
  | Heatmap d => if decide (data_size d = 0%nat) then Err (ValueError zero_size_fmin) else Ok (draw a st)
  | _ => Ok (draw a st)
  end.

(** [plt.tight_layout()]. *)
Definition tight_layout (st : pyplot) : pyplot := gcf st.

(** The active figure: the last one of the registry. *)
Definition active (fs : list (nat * figure)) : option (nat * figure) :=
  match rev fs with [] => None | nf :: _ => Some nf end.

(** [plt.savefig(name, dpi=300, bbox_inches='tight')]. *)
Definition savefig (name : pystr) (st : pyplot) : result exn pyplot :=
  let st := gcf st in
  if dir_exists st then
    match active (figs st) with
    | Some (_, f) => Ok (mkPyplot (rc_size st) (figs st) (dir_exists st) (files st ++ [(name, f)]))
    | None => Ok st
    end
  else Err (OSError name).

(** [plt.close()]. *)
Definition close (st : pyplot) : pyplot :=
  mkPyplot (rc_size st) (removelast (figs st)) (dir_exists st) (files st).

(** The calls of a chart, in source order. *)
Inductive cmd : Type :=
| CFigure (sz : Q * Q)
| CDfPlot (a : artist)
| CDraw (a : artist)
| CTight
| CSave (name : pystr)
| CClose.

Definition step (c : cmd) (st : pyplot) : result exn pyplot :=
  match c with
  | CFigure sz => Ok (figure_new sz st)
  | CDfPlot a => df_plot a st
  | CDraw a => draw_call a st
  | CTight => Ok (tight_layout st)
  | CSave name => savefig name st
  | CClose => Ok (close st)
  end.

(** Run the calls in order; an exception stops the run, and the state
    reached so far (the files already written) is kept. *)
Fixpoint run (cs : list cmd) (st : pyplot) : pyplot * option exn :=
  match cs with
  | [] => (st, None)
  | c :: cs' => match step c st with Ok st' => run cs' st' | Err e => (st, Some e) end
  end.

(** ** The calls on a registry whose active figure is [x] *)

Lemma map_last_snoc {A} (f : A -> A) l x : map_last f (l ++ [x]) = l ++ [f x].
Proof. induction l as [|y [|z l] IH]; simpl in *; [done|done|by rewrite IH]. Qed.

Lemma active_snoc l x : active (l ++ [x]) = Some x.
Proof. unfold active. by rewrite rev_app_distr. Qed.

Lemma gcf_snoc rc F x d fl : gcf (mkPyplot rc (F ++ [x]) d fl) = mkPyplot rc (F ++ [x]) d fl.
Proof. unfold gcf. simpl. by destruct F. Qed.

Lemma draw_snoc a rc F x d fl :
  draw a (mkPyplot rc (F ++ [x]) d fl) = mkPyplot rc (F ++ [add_artist a x]) d fl.
Proof. unfold draw. rewrite gcf_snoc. simpl. by rewrite map_last_snoc. Qed.

Lemma savefig_snoc name rc F n f d fl :
  savefig name (mkPyplot rc (F ++ [(n, f)]) d fl) =
  if d then Ok (mkPyplot rc (F ++ [(n, f)]) d (fl ++ [(name, f)])) else Err (OSError name).
Proof. unfold savefig. rewrite gcf_snoc. simpl. destruct d; [by rewrite active_snoc|done]. Qed.

Lemma close_snoc rc F x d fl : close (mkPyplot rc (F ++ [x]) d fl) = mkPyplot rc F d fl.
Proof. unfold close. simpl. by rewrite removelast_last. Qed.

Lemma figure_new_eq sz rc F d fl :
  figure_new sz (mkPyplot rc F d fl) = mkPyplot rc (F ++ [(S (max_num F), mkFigure sz [])]) d fl.
Proof. reflexivity. Qed.

Lemma heatmap_ok d st : data_size d <> 0%nat -> draw_call (Heatmap d) st = Ok (draw (Heatmap d) st).
Proof. intros H. simpl. rewrite ?decide_False by exact H. reflexivity. Qed.

Lemma df_plot_ok a d st :
  artist_data a = Some d -> plot_columns d <> 0%nat ->
  df_plot a st = Ok (draw a (figure_new (rc_size st) st)).
Proof. intros Ha H. unfold df_plot. rewrite Ha. by rewrite decide_False. Qed.

(** A chart's calls on the active figure [(n, f)]: the artists, none of
    which raises, are drawn on it, then [savefig] writes it and [close]
    drops it; without [figures/] the run stops at [savefig] with the
    figure still open. *)
Lemma run_draws rc F n f fl d arts name :
  Forall (fun a => forall st, draw_call a st = Ok (draw a st)) arts ->
  run (map CDraw arts ++ [CTight; CSave name; CClose]) (mkPyplot rc (F ++ [(n, f)]) d fl) =
  let f' := mkFigure (fsize f) (fart f ++ arts) in
  if d then (mkPyplot rc F d (fl ++ [(name, f')]), None)
  else (mkPyplot rc (F ++ [(n, f')]) d fl, Some (OSError name)).
Proof.
  intros Hok. revert f. induction Hok as [|a arts Ha _ IH]; intros f; simpl.
  - unfold tight_layout. rewrite gcf_snoc, savefig_snoc. destruct f, d; simpl; rewrite ?app_nil_r;
      [rewrite close_snoc|]; done.
  - rewrite Ha, draw_snoc. unfold add_artist. simpl. rewrite IH. simpl. by rewrite <- app_assoc.
Qed.

End Pyplot.
