(* ===== verification/Styling.v ===== *)
(** * Styling: script lines 14-15

    [plt.style.use('seaborn-v0_8-whitegrid')] copies the entries of a style
    sheet of matplotlib's style library into [rcParams];
    [sns.set_palette('husl')] sets the colour cycle [axes.prop_cycle].  The
    only [rcParams] entry the rest of the model reads is [figure.figsize],
    the size of the figure [DataFrame.plot] opens (the [rc_size] of
    [Pyplot.pyplot]).  [rcParams] is modelled as the list of its entries
    as text, the way a [matplotlibrc] file or an [.mplstyle] sheet writes
    them; only the entries the two calls touch and [figure.figsize] are
    listed. *)

From S2P Require Import Prelude PyString PyFloat Frame Tokenizer.
From Stdlib Require Strings.String.
Import Stdlib.Strings.String.StringSyntax.

Module Styling.
Import PyStr FloatParse Frame.

Definition rcparams := list (pystr * pystr).

Fixpoint rc_get (rc : rcparams) (k : pystr) : option pystr :=
  match rc with
  | [] => None
  | (k', v) :: rc' => if decide (k' = k) then Some v else rc_get rc' k
  end.

(** [rcParams[k] = v]: the entry is replaced, or added when absent. *)
Fixpoint rc_set (rc : rcparams) (k v : pystr) : rcparams :=
  match rc with
  | [] => [(k, v)]
  | (k', v') :: rc' => if decide (k' = k) then (k, v) :: rc' else (k', v') :: rc_set rc' k v
  end.

(** [rcParams.update(d)]. *)
Definition rc_update (rc d : rcparams) : rcparams :=
  fold_left (fun acc kv => rc_set acc (fst kv) (snd kv)) d rc.

(** matplotlib's defaults of the entries below. *)
Definition rc_defaults : rcparams :=
  [(py "figure.figsize", py "6.4, 4.8");
   (py "axes.grid", py "False");
   (py "axes.facecolor", py "white");
   (py "axes.edgecolor", py "black");
   (py "grid.color", py "#b0b0b0");
   (py "axes.prop_cycle", py "cycler('color', tab10)")].

(** [stylelib/seaborn-v0_8-whitegrid.mplstyle]. *)
Definition seaborn_whitegrid : rcparams :=
  [(py "figure.facecolor", py "white"); (py "text.color", py ".15");
   (py "axes.labelcolor", py ".15"); (py "legend.frameon", py "False");
   (py "legend.numpoints", py "1"); (py "legend.scatterpoints", py "1");
   (py "xtick.direction", py "out"); (py "ytick.direction", py "out");
   (py "xtick.color", py ".15"); (py "ytick.color", py ".15");
   (py "axes.axisbelow", py "True"); (py "image.cmap", py "Greys");
   (py "font.family", py "sans-serif");
   (py "font.sans-serif", py "Arial, Liberation Sans, DejaVu Sans, Bitstream Vera Sans, sans-serif");
   (py "grid.linestyle", py "-"); (py "lines.solid_capstyle", py "round");
   (py "axes.grid", py "True"); (py "axes.facecolor", py "white");
   (py "axes.edgecolor", py ".8"); (py "axes.linewidth", py "1");
   (py "grid.color", py ".8");
   (py "xtick.major.size", py "0"); (py "ytick.major.size", py "0");
   (py "xtick.minor.size", py "0"); (py "ytick.minor.size", py "0")].

Definition style_library : list (pystr * rcparams) :=
  [(py "seaborn-v0_8-whitegrid", seaborn_whitegrid)].

Fixpoint lookup_style (lib : list (pystr * rcparams)) (name : pystr) : option rcparams :=
  match lib with
  | [] => None
  | (n, d) :: lib' => if decide (n = name) then Some d else lookup_style lib' name
  end.

(** [plt.style.use(name)]: an unknown name raises [OSError]. *)
Definition style_use (name : pystr) (rc : rcparams) : result exn rcparams :=
  match lookup_style style_library name with
  | Some d => Ok (rc_update rc d)
  | None => Err (OSError name)
  end.

(** [sns.set_palette('husl')]: the colour cycle of [husl_palette(6)]. *)
Definition set_palette (rc : rcparams) : rcparams :=
  rc_set rc (py "axes.prop_cycle") (py "cycler('color', husl_palette(6))").

(** Lines 14-15. *)
Definition styling (rc : rcparams) : result exn rcparams :=
  rc1 <- style_use (py "seaborn-v0_8-whitegrid") rc ;;
  Ok (set_palette rc1).

(** [validate_floatlist] of [figure.figsize]: the comma-separated parts,
    stripped, empty parts dropped, each read by [float], exactly two. *)
Definition figsize (rc : rcparams) : option (Q * Q) :=
  match rc_get rc (py "figure.figsize") with
  | Some v =>
      match map (fun w => float_of_str w) (List.filter (fun w => negb (bool_decide (strip w = []))) (Tokenizer.split_on 44 v)) with
      | [Some (Fin a); Some (Fin b)] => Some (a, b)
      | _ => None
      end
  | None => None
  end.

End Styling.
