(* ===== verification/Script.v ===== *)
(** * The whole run of [wine_analysis.py] (lines 17-134)

    The script is one sequence of statements at module level; an exception
    ends the process, and what it has already done stays done: the images
    written and the lines printed.  The run is a state and error monad over
    a [world] holding pyplot's state and the standard output; the
    aggregates are the ones of [GroupBy], [Stats] and [Histogram], the
    charts the pyplot calls of [Pyplot], in the order of the source. *)

From S2P Require Import Prelude PyString Utf8 PyFloat Frame Cleaner Tokenizer Loader Histogram Sort GroupBy Stats Pyplot.
From Stdlib Require Strings.String.
Import Stdlib.Strings.String.StringSyntax.

Module Script.
Import PyStr FloatArith Frame Cleaner Tokenizer Loader Histogram GroupBy Stats Pyplot.

(** What [print] writes, line by line. *)
Inductive outline : Type :=
| OText (t : pystr)
| OPlace (t : list (pystr * pyfloat))
| OProduct (t : list (pystr * (pyfloat * nat)))
| OPercent (t : list (pystr * list (pystr * pyfloat))).

Record world := mkWorld { wplt : pyplot; wout : list outline }.

(** The run's monad: state [world], and an exception that ends the run
    with the world it has reached. *)
Definition M (A : Type) : Type := world -> world * result exn A.

#[export] Instance M_ret : MRet M := fun A x w => (w, Ok x).
#[export] Instance M_bind : MBind M := fun A B k m w =>
  let '(w', r) := m w in match r with Ok x => k x w' | Err e => (w', Err e) end.

(** A computation on the DataFrame. *)
Definition lift {A} (r : result exn A) : M A := fun w => (w, r).

(** Calls to pyplot. *)
Definition plot (cs : list cmd) : M unit := fun w =>
  let '(p, e) := run cs (wplt w) in
  (mkWorld p (wout w), match e with None => Ok tt | Some e => Err e end).

(** [print(...)]. *)
Definition print (o : outline) : M unit := fun w => (mkWorld (wplt w) (wout w ++ [o]), Ok tt).

(** A string literal with a leading ["\n"]. *)
Definition nl (s : String.string) : pystr := 10%Z :: py s.
Arguments nl s%_string_scope.

Definition euro_label (s : String.string) : pystr := py s ++ [euro] ++ py ")".
Arguments euro_label s%_string_scope.

(** A path under [figures/]. *)
Definition fig (f : String.string) : pystr := py (String.append "figures/" f).
Arguments fig f%_string_scope.

(** The calls after the plotting call of each chart: title, labels, an
    optional legend, [tight_layout], [savefig], [close]. *)
Definition finish (title xl yl : pystr) (legend : option pystr) (file : String.string) : list cmd :=
  [CDraw (Title title); CDraw (XLabel xl); CDraw (YLabel yl)] ++
  (match legend with Some t => [CDraw (Legend t)] | None => [] end) ++
  [CTight; CSave (fig file); CClose].
Arguments finish title xl yl legend file%_string_scope.

(** Lines 26-36. *)
Definition chart1 (age_freq : list (pystr * list (pystr * nat))) : list cmd :=
  CDfPlot (BarhStacked (PCross age_freq)) ::
  finish (py "Wine Consumption Frequency by Age Group") (py "Number of Customers") (py "Age Group")
         (Some (py "Consumption Frequency")) "wine_consumption_by_age.jpg".

(** Lines 38-48. *)
Definition chart2 (payment_age : list (pystr * list (pystr * nat))) : list cmd :=
  CDfPlot (BarhStacked (PCross payment_age)) ::
  finish (py "Payment Method Preferences by Age Group") (py "Number of Transactions") (py "Age Group")
         (Some (py "Payment Method")) "payment_by_age.jpg".

(** Lines 50-59. *)
Definition chart3 (place_counts : list (pystr * nat)) : list cmd :=
  CDraw (Barh (PCounts place_counts)) ::
  finish (py "Most Popular Places to Drink Wine") (py "Number of Customers") (py "Place")
         None "places_to_drink.jpg".

(** Lines 61-70. *)
Definition chart4 (avg : list (pystr * pyfloat)) : list cmd :=
  CDraw (Barh (PMeans avg)) ::
  finish (py "Average Spending by Venue") (euro_label "Average Ticket Value (") (py "Place")
         None "avg_ticket_by_place.jpg".

(** Lines 72-81. *)
Definition chart5 (product_counts : list (pystr * nat)) : list cmd :=
  CDraw (Barh (PCounts product_counts)) ::
  finish (py "Most Popular Additional Products") (py "Number of Purchases") (py "Product")
         None "popular_products.jpg".

(** Lines 83-92. *)
Definition chart6 (product_age : list (pystr * list (pystr * nat))) : list cmd :=
  CDraw (Heatmap (PCross product_age)) ::
  finish (py "Product Preferences by Age Group") (py "Additional Products") (py "Age Group")
         None "product_age_heatmap.jpg".

(** Lines 94-102. *)
Definition chart7 (bars : list (Q * nat)) : list cmd :=
  CDraw (Hist (PBars bars)) ::
  finish (py "Distribution of Ticket Values") (euro_label "Ticket Value (") (py "Number of Purchases")
         None "ticket_histogram.jpg".

(** Lines 114-121. *)
Definition chart8 (bars : list (Q * nat)) : list cmd :=
  CDraw (Hist (PBars bars)) ::
  finish (py "Wine Consumption Frequency Distribution") (py "Frequency (higher = more often)")
         (py "Number of Customers") None "frequency_histogram.jpg".

(** [.round(2)] and [.round(1)] of the three tables (lines 126, 130, 134). *)
Definition round_place (a : list (pystr * pyfloat)) : list (pystr * pyfloat) :=
  map (fun kv => (fst kv, fround 2 (snd kv))) a.
Definition round_product (p : list (pystr * (pyfloat * nat))) : list (pystr * (pyfloat * nat)) :=
  map (fun kv => (fst kv, (fround 2 (fst (snd kv)), snd (snd kv)))) p.
Definition round_percent (t : list (pystr * list (pystr * pyfloat))) : list (pystr * list (pystr * pyfloat)) :=
  map (fun rr => (fst rr, map (fun cv => (fst cv, fround 1 (snd cv))) (snd rr))) t.

Definition col (df : frame) (name : String.string) : M series := lift (getcol df (py name)).
Arguments col df name%_string_scope.

(** Lines 17-134, from the DataFrame [pd.read_csv] returns. *)
Definition script (df0 : frame) : M unit :=
  df ← lift (clean df0);
  plot [CFigure fs_page];;
  age ← col df "Age"; wf ← lift (getcol df Wine_frequency);
  let age_freq := crosstab age wf in
  plot (chart1 age_freq);;
  plot [CFigure fs_page];;
  pay ← col df "Payment mode";
  let payment_age := crosstab age pay in
  plot (chart2 payment_age);;
  plot [CFigure fs_half];;
  place ← col df "Place to drink";
  plot (chart3 (ranked_counts place));;
  plot [CFigure fs_half];;
  avg_place ← lift (avg_ticket_by_place df);
  plot (chart4 avg_place);;
  plot [CFigure fs_half];;
  prod ← col df "Additional products";
  plot (chart5 (ranked_counts prod));;
  plot [CFigure fs_half];;
  plot (chart6 (crosstab age prod));;
  plot [CFigure fs_half];;
  tbars ← lift (ticket_hist df);
  plot (chart7 tbars);;
  df2 ← lift (add_freq_num df);
  plot [CFigure fs_half];;
  fbars ← lift (freq_hist df2);
  plot (chart8 fbars);;
  print (OText (nl "Key Statistics:"));;
  print (OText (nl "1. Average Ticket Value by Place:"));;
  print (OPlace (round_place avg_place));;
  print (OText (nl "2. Average Ticket Value by Product:"));;
  avg_prod ← lift (avg_ticket_by_product df2);
  print (OProduct (round_product avg_prod));;
  print (OText (nl "3. Payment Mode Percentages by Age Group:"));;
  print (OPercent (round_percent (percentages payment_age))).

(** Line 18 and the rest: the program reads the bytes of the file, then
    runs. *)
Definition main (bs : list Z) : M unit :=
  df0 ← lift (read_csv_file bs);
  script df0.

(** A fresh process: no figure open, nothing written or printed. *)
Definition init (rc : Q * Q) (dir : bool) : world := mkWorld (mkPyplot rc [] dir []) [].

(** The eight images, in the order the script writes them. *)
Definition output_files : list pystr :=
  [fig "wine_consumption_by_age.jpg"; fig "payment_by_age.jpg"; fig "places_to_drink.jpg";
   fig "avg_ticket_by_place.jpg"; fig "popular_products.jpg"; fig "product_age_heatmap.jpg";
   fig "ticket_histogram.jpg"; fig "frequency_histogram.jpg"].

(** The artists [finish] draws. *)
Definition labels (title xl yl : pystr) (legend : option pystr) : list artist :=
  [Title title; XLabel xl; YLabel yl] ++ match legend with Some t => [Legend t] | None => [] end.

(** Some row holds both [a] and [b], neither of them NaN: the rows
    [pd.crosstab] counts. *)
Definition pairs_present (df : frame) (a b : pystr) : bool :=
  match getcol df a, getcol df b with
  | Ok x, Ok y => negb (bool_decide (pair_keys x y = []))
  | _, _ => false
  end.

(** ** Lemmas *)

Lemma M_lift_ok {A B} (v : A) (k : A -> M B) w : (lift (Ok v) ≫= k) w = k v w.
Proof. reflexivity. Qed.


Lemma M_plot_ok {B} cs (k : unit -> M B) w p :
  run cs (wplt w) = (p, None) -> (plot cs ≫= k) w = k tt (mkWorld p (wout w)).
Proof. intros H. unfold mbind, M_bind, plot. by rewrite H. Qed.

Lemma M_plot_err {B} cs (k : unit -> M B) w p e :
  run cs (wplt w) = (p, Some e) -> (plot cs ≫= k) w = (mkWorld p (wout w), Err e).
Proof. intros H. unfold mbind, M_bind, plot. by rewrite H. Qed.

Lemma M_print {B} o (k : unit -> M B) w : (print o ≫= k) w = k tt (mkWorld (wplt w) (wout w ++ [o])).
Proof. reflexivity. Qed.

Lemma finish_eq t xl yl leg file :
  finish t xl yl leg file = map CDraw (labels t xl yl leg) ++ [CTight; CSave (fig file); CClose].
Proof. by destruct leg. Qed.

Lemma labels_ok t xl yl leg :
  Forall (fun a => forall st, draw_call a st = Ok (draw a st)) (labels t xl yl leg).
Proof. destruct leg; repeat constructor. Qed.

Lemma run_cons_ok c cs st st' : step c st = Ok st' -> run (c :: cs) st = run cs st'.
Proof. simpl. by intros ->. Qed.

(** A chart drawn on the active figure [(n, f)] (lines 53-121), whose
    plotting call [a] does not raise. *)
Lemma run_chart_draw a t xl yl leg file st F n f :
  (forall st', draw_call a st' = Ok (draw a st')) -> figs st = F ++ [(n, f)] ->
  run (CDraw a :: finish t xl yl leg file) st =
  let f' := mkFigure (fsize f) (fart f ++ a :: labels t xl yl leg) in
  if dir_exists st then (mkPyplot (rc_size st) F true (files st ++ [(fig file, f')]), None)
  else (mkPyplot (rc_size st) (F ++ [(n, f')]) false (files st), Some (OSError (fig file))).
Proof.
  destruct st as [rc fs d fl]. cbn [figs rc_size dir_exists files]. intros Ha ->. rewrite finish_eq.
  pose proof (Forall_cons_2 _ _ _ Ha (labels_ok t xl yl leg)) as Hok.
  destruct d; [exact (run_draws rc F n f fl true (a :: labels t xl yl leg) (fig file) Hok)
              |exact (run_draws rc F n f fl false (a :: labels t xl yl leg) (fig file) Hok)].
Qed.

(** A chart of [DataFrame.plot] (lines 29 and 41) on data with a column:
    drawn on a new figure of the rc size, above the active figure [x]. *)
Lemma run_chart_df a d t xl yl leg file st F x :
  artist_data a = Some d -> plot_columns d <> 0%nat -> figs st = F ++ [x] ->
  run (CDfPlot a :: finish t xl yl leg file) st =
  let f' := mkFigure (rc_size st) (a :: labels t xl yl leg) in
  if dir_exists st then (mkPyplot (rc_size st) (F ++ [x]) true (files st ++ [(fig file, f')]), None)
  else (mkPyplot (rc_size st) ((F ++ [x]) ++ [(S (max_num (F ++ [x])), f')]) false (files st),
        Some (OSError (fig file))).
Proof.
  intros Ha Hc. destruct st as [rc fs d' fl]. cbn [figs rc_size dir_exists files]. intros ->.
  rewrite (run_cons_ok (CDfPlot a) _ _ _ (df_plot_ok _ _ _ Ha Hc)). cbn [rc_size].
  rewrite figure_new_eq, draw_snoc, finish_eq.
  destruct d'; [exact (run_draws rc (F ++ [x]) _ (mkFigure rc [a]) fl true _ (fig file) (labels_ok t xl yl leg))
               |exact (run_draws rc (F ++ [x]) _ (mkFigure rc [a]) fl false _ (fig file) (labels_ok t xl yl leg))].
Qed.

Lemma getcol_some df c s : lookup_col c (fcols df) = Some s -> getcol df c = Ok s.
Proof. unfold getcol. by intros ->. Qed.

Lemma group_keys_nil ks : group_keys ks = [] <-> ks = [].
Proof.
  split; [|by intros ->]. destruct ks as [|k ks]; [done|]. intros H.
  assert (Hk : k ∈ group_keys (k :: ks)) by (apply group_keys_elem; left).
  rewrite H in Hk. by apply not_elem_of_nil in Hk.
Qed.

(** A cross-tabulation of columns sharing a row has a row and a column. *)
Lemma crosstab_size a b :
  pair_keys a b <> [] ->
  plot_columns (PCross (crosstab a b)) <> 0%nat /\ data_size (PCross (crosstab a b)) <> 0%nat.
Proof.
  intros H. unfold crosstab. set (ps := pair_keys a b) in *.
  destruct (group_keys (map fst ps)) as [|r rs] eqn:Hr.
  { apply group_keys_nil, map_eq_nil in Hr. contradiction. }
  destruct (group_keys (map snd ps)) as [|c cs] eqn:Hc.
  { apply group_keys_nil, map_eq_nil in Hc. contradiction. }
  simpl. rewrite map_map. simpl. rewrite map_id. simpl. lia.
Qed.

Lemma crosstab_nil a b : pair_keys a b = [] -> crosstab a b = [].
Proof. unfold crosstab. by intros ->. Qed.

Lemma pairs_present_true df a b x y :
  getcol df a = Ok x -> getcol df b = Ok y -> pairs_present df a b = true -> pair_keys x y <> [].
Proof. unfold pairs_present. intros -> -> H. by apply negb_true_iff, bool_decide_eq_false in H. Qed.

Lemma pairs_present_false df a b x y :
  getcol df a = Ok x -> getcol df b = Ok y -> pairs_present df a b = false -> crosstab x y = [].
Proof.
  unfold pairs_present. intros -> -> H. apply crosstab_nil.
  by apply negb_false_iff, bool_decide_eq_true in H.
Qed.

Ltac mem := repeat (first [by left | right]).
Ltac neq := let H := fresh in intros H; vm_compute in H; congruence.

(** Once the cleaning succeeds, every later step of the DataFrame
    succeeds: the columns the script reads exist and [Freq_num] can be
    added. *)
Lemma clean_data df0 df : wf_frame df0 -> clean df0 = Ok df ->
  exists age wf pay place prod df2 fb,
    getcol df (py "Age") = Ok age /\ getcol df Wine_frequency = Ok wf /\
    getcol df (py "Payment mode") = Ok pay /\ getcol df (py "Place to drink") = Ok place /\
    getcol df (py "Additional products") = Ok prod /\ add_freq_num df = Ok df2 /\
    freq_hist df2 = Ok fb /\ payment_percentages df = Ok (percentages (crosstab age pay)) /\
    (forall c, c <> Freq_num -> getcol df2 c = getcol df c).
Proof.
  intros Hwf0 Hclean. destruct (clean_cols _ _ Hwf0 Hclean) as [Hwf Hcols].
  destruct (Hcols (py "Age") ltac:(mem)) as [age Hage].
  destruct (Hcols Wine_frequency ltac:(mem)) as [wf Hwfq].
  destruct (Hcols (py "Payment mode") ltac:(mem)) as [pay Hpay].
  destruct (Hcols (py "Place to drink") ltac:(mem)) as [place Hplace].
  destruct (Hcols (py "Additional products") ltac:(mem)) as [prod Hprod].
  destruct (setcol_ok df Freq_num (map_dict freq_map wf)) as [df2 Hdf2].
  { unfold map_dict. rewrite length_map. by apply (lookup_col_length _ Wine_frequency). }
  destruct (setcol_spec _ _ _ _ Hdf2) as (_ & _ & _ & Hf2 & Hother2).
  do 6 eexists. exists (hist_bars true freq_edges (histogram_edges (omap cell_float (dropna (map_dict freq_map wf))) freq_edges)).
  split_and!; try (apply getcol_some; eassumption).
  - unfold add_freq_num. by rewrite (getcol_some _ _ _ Hwfq).
  - unfold freq_hist. by rewrite (getcol_some _ _ _ Hf2).
  - unfold payment_percentages. by rewrite (getcol_some _ _ _ Hage), (getcol_some _ _ _ Hpay).
  - intros c Hc. unfold getcol. rewrite Hother2 by congruence. reflexivity.
Qed.

(** Symbolic execution of the run: normalise the world after each step,
    and run a bare [plt.figure], a chart of [DataFrame.plot] on the active
    figure [x] above [F], or a chart drawn on the active figure [(n, f)]. *)
Ltac norm := cbn [wplt wout rc_size files figs dir_exists figure_new max_num foldr Nat.max app fst snd].
Ltac plot_fig := erewrite M_plot_ok by reflexivity; norm.
Ltac draw_ok := first [reflexivity | assumption | intros; reflexivity | intros; apply heatmap_ok; assumption].
Ltac plot_df F x := erewrite M_plot_ok by
  (unfold chart1, chart2; rewrite (run_chart_df _ _ _ _ _ _ _ _ F x) by draw_ok; reflexivity); norm.
Ltac plot_draw F n f := erewrite M_plot_ok by
  (unfold chart3, chart4, chart5, chart6, chart7, chart8;
   rewrite (run_chart_draw _ _ _ _ _ _ _ F n f) by draw_ok; reflexivity); norm.

(** The three cross-tabulations have data. *)
Ltac charts_nonempty Hage Hwfq Hpay Hprod H1 H2 H3 :=
  destruct (crosstab_size _ _ (pairs_present_true _ _ _ _ _ Hage Hwfq H1)) as [?Hc1 _];
  destruct (crosstab_size _ _ (pairs_present_true _ _ _ _ _ Hage Hpay H2)) as [?Hc2 _];
  destruct (crosstab_size _ _ (pairs_present_true _ _ _ _ _ Hage Hprod H3)) as [_ ?Hs3].

Lemma avg_place_ok df place t :
  getcol df (py "Place to drink") = Ok place -> lookup_col Ticket (fcols df) = Some t ->
  avg_ticket_by_place df = Ok (sort_by mean_asc_before (groupby_mean place t)).
Proof. intros Hp Ht. unfold avg_ticket_by_place. by rewrite Hp, (getcol_some _ _ _ Ht). Qed.

Lemma avg_product_ok df df2 prod t :
  getcol df (py "Additional products") = Ok prod -> lookup_col Ticket (fcols df) = Some t ->
  (forall c, c <> Freq_num -> getcol df2 c = getcol df c) ->
  avg_ticket_by_product df2 = Ok (sort_by mean_desc_before (groupby_mean_count prod t)).
Proof.
  intros Hp Ht Hdf2. unfold avg_ticket_by_product. rewrite !Hdf2 by neq.
  by rewrite Hp, (getcol_some _ _ _ Ht).
Qed.

(** The two figures of [plt.figure(figsize=(12, 5))], left open. *)
Definition page_figs : list (nat * figure) := [(1%nat, mkFigure fs_page []); (2%nat, mkFigure fs_page [])].

(** C1: When the cleaning succeeds, every ticket
    is a finite number, and some row holds an age with each of the
    consumption frequency, the payment mode and the additional product (so
    the three cross-tabulations are not empty), the run ends normally: it writes the eight images
    in source order, the first two at the rc default size rather than the
    page size (the [DataFrame.plot] of lines 29 and 41 opens a figure of
    its own) and the other six at the half size; the two page-size figures
    of lines 27 and 39 stay open and empty; and it prints the three
    headers and the three rounded tables of lines 124-134. *)
Theorem script_success df0 df rc t :
  wf_frame df0 -> clean df0 = Ok df ->
  pairs_present df (py "Age") Wine_frequency = true ->
  pairs_present df (py "Age") (py "Payment mode") = true ->
  pairs_present df (py "Age") (py "Additional products") = true ->
  lookup_col Ticket (fcols df) = Some t -> Forall (fun x => is_fin x = true) (omap cell_float t) ->
  exists w, script df0 (init rc true) = (w, Ok tt) /\
    map fst (files (wplt w)) = output_files /\
    map (fun nf => fsize (snd nf)) (files (wplt w)) =
      [rc; rc; fs_half; fs_half; fs_half; fs_half; fs_half; fs_half] /\
    figs (wplt w) = page_figs /\
    exists df2 a p pct, add_freq_num df = Ok df2 /\ avg_ticket_by_place df = Ok a /\
      avg_ticket_by_product df2 = Ok p /\ payment_percentages df = Ok pct /\
      wout w = [OText (nl "Key Statistics:"); OText (nl "1. Average Ticket Value by Place:");
                OPlace (round_place a); OText (nl "2. Average Ticket Value by Product:");
                OProduct (round_product p); OText (nl "3. Payment Mode Percentages by Age Group:");
                OPercent (round_percent pct)].
Proof.
  intros Hwf0 Hclean H1 H2 H3 Ht Hfin.
  destruct (clean_data _ _ Hwf0 Hclean)
    as (age & wf & pay & place & prod & df2 & fb & Hage & Hwfq & Hpay & Hplace & Hprod & Hadd & Hfb & Hpct & Hdf2).
  charts_nonempty Hage Hwfq Hpay Hprod H1 H2 H3.
  pose proof (avg_place_ok _ _ _ Hplace Ht) as Havg.
  pose proof (avg_product_ok _ _ _ _ Hprod Ht Hdf2) as Hprod2.
  destruct (outer_edges_fin _ Hfin) as (lo & hi & Ho & _ & _).
  assert (Htb : exists tb, ticket_hist df = Ok tb).
  { unfold ticket_hist, histogram_bins. rewrite (getcol_some _ _ _ Ht). simpl. rewrite Ho. eauto. }
  destruct Htb as [tb Htb].
  unfold script, col. rewrite Hclean, M_lift_ok. cbv beta.
  plot_fig. rewrite Hage, M_lift_ok, Hwfq, M_lift_ok. cbv beta.
  plot_df (@nil (nat * figure)) (1%nat, mkFigure fs_page []).
  plot_fig. rewrite Hpay, M_lift_ok. cbv beta.
  plot_df [(1%nat, mkFigure fs_page [])] (2%nat, mkFigure fs_page []).
  plot_fig. rewrite Hplace, M_lift_ok. cbv beta. plot_draw page_figs 3%nat (mkFigure fs_half []).
  plot_fig. rewrite Havg, M_lift_ok. cbv beta. plot_draw page_figs 3%nat (mkFigure fs_half []).
  plot_fig. rewrite Hprod, M_lift_ok. cbv beta. plot_draw page_figs 3%nat (mkFigure fs_half []).
  plot_fig. plot_draw page_figs 3%nat (mkFigure fs_half []).
  plot_fig. rewrite Htb, M_lift_ok. cbv beta. plot_draw page_figs 3%nat (mkFigure fs_half []).
  rewrite Hadd, M_lift_ok. cbv beta.
  plot_fig. rewrite Hfb, M_lift_ok. cbv beta. plot_draw page_figs 3%nat (mkFigure fs_half []).
  rewrite !M_print, Hprod2, M_lift_ok. cbv beta. rewrite !M_print. unfold print.
  eexists. split; [reflexivity|]. split_and!; try reflexivity.
  do 4 eexists. split_and!; first [eassumption|reflexivity].
Qed.


(** C10: Without the directory [figures/], and with
    some row holding both an age and a consumption frequency, the first
    [savefig] (line 35) raises [OSError]: nothing is written or printed,
    and the page-size figure of line 27 and the chart's own figure stay
    open. *)
Theorem script_no_dir df0 df rc :
  wf_frame df0 -> clean df0 = Ok df -> pairs_present df (py "Age") Wine_frequency = true ->
  exists w, script df0 (init rc false) = (w, Err (OSError (fig "wine_consumption_by_age.jpg"))) /\
    files (wplt w) = [] /\ wout w = [] /\ map (fun nf => fsize (snd nf)) (figs (wplt w)) = [fs_page; rc].
Proof.
  intros Hwf0 Hclean H1.
  destruct (clean_data _ _ Hwf0 Hclean) as (age & wf & _ & _ & _ & _ & _ & Hage & Hwfq & _).
  destruct (crosstab_size _ _ (pairs_present_true _ _ _ _ _ Hage Hwfq H1)) as [Hc1 _].
  unfold script, col. rewrite Hclean, M_lift_ok. cbv beta.
  plot_fig. rewrite Hage, M_lift_ok, Hwfq, M_lift_ok. cbv beta.
  erewrite M_plot_err by (unfold chart1;
    rewrite (run_chart_df _ _ _ _ _ _ _ _ (@nil (nat * figure)) (1%nat, mkFigure fs_page [])) by draw_ok;
    reflexivity).
  eexists. split_and!; reflexivity.
Qed.

(** C11: When no row holds both an age and a
    consumption frequency (a data file with a header and no row, say), the
    cleaning succeeds but the cross-tabulation of line 28 is empty, and
    [DataFrame.plot] of line 29 raises [TypeError('no numeric data to
    plot')] before it opens a figure: nothing is written or printed, and
    only the page-size figure of line 27 is open. *)
Theorem script_empty_crosstab df0 df rc dir :
  wf_frame df0 -> clean df0 = Ok df -> pairs_present df (py "Age") Wine_frequency = false ->
  exists w, script df0 (init rc dir) = (w, Err (TypeError no_numeric_data)) /\
    files (wplt w) = [] /\ wout w = [] /\ figs (wplt w) = [(1%nat, mkFigure fs_page [])].
Proof.
  intros Hwf0 Hclean H1.
  destruct (clean_data _ _ Hwf0 Hclean) as (age & wf & _ & _ & _ & _ & _ & Hage & Hwfq & _).
  unfold script, col. rewrite Hclean, M_lift_ok. cbv beta.
  plot_fig. rewrite Hage, M_lift_ok, Hwfq, M_lift_ok. cbv beta.
  rewrite (pairs_present_false _ _ _ _ _ Hage Hwfq H1).
  erewrite M_plot_err by reflexivity.
  eexists. split_and!; reflexivity.
Qed.

(** C12: When the first two cross-tabulations have
    data but no row holds both an age and an additional product, the
    heatmap of line 86 raises [ValueError] (the minimum of a zero-size
    array): the run stops after writing the first five images and before
    printing anything. *)
Theorem script_empty_heatmap df0 df rc :
  wf_frame df0 -> clean df0 = Ok df ->
  pairs_present df (py "Age") Wine_frequency = true ->
  pairs_present df (py "Age") (py "Payment mode") = true ->
  pairs_present df (py "Age") (py "Additional products") = false ->
  exists w, script df0 (init rc true) = (w, Err (ValueError zero_size_fmin)) /\
    map fst (files (wplt w)) = take 5 output_files /\ wout w = [].
Proof.
  intros Hwf0 Hclean H1 H2 H3.
  destruct (clean_data _ _ Hwf0 Hclean)
    as (age & wf & pay & place & prod & df2 & fb & Hage & Hwfq & Hpay & Hplace & Hprod & _).
  destruct (crosstab_size _ _ (pairs_present_true _ _ _ _ _ Hage Hwfq H1)) as [Hc1 _].
  destruct (crosstab_size _ _ (pairs_present_true _ _ _ _ _ Hage Hpay H2)) as [Hc2 _].
  unfold script, col. rewrite Hclean, M_lift_ok. cbv beta.
  plot_fig. rewrite Hage, M_lift_ok, Hwfq, M_lift_ok. cbv beta.
  plot_df (@nil (nat * figure)) (1%nat, mkFigure fs_page []).
  plot_fig. rewrite Hpay, M_lift_ok. cbv beta.
  plot_df [(1%nat, mkFigure fs_page [])] (2%nat, mkFigure fs_page []).
  plot_fig. rewrite Hplace, M_lift_ok. cbv beta. plot_draw page_figs 3%nat (mkFigure fs_half []).
  destruct (proj2 (clean_cols _ _ Hwf0 Hclean) Ticket ltac:(mem)) as [t Ht].
  plot_fig. rewrite (avg_place_ok _ _ _ Hplace Ht), M_lift_ok. cbv beta.
  plot_draw page_figs 3%nat (mkFigure fs_half []).
  plot_fig. rewrite Hprod, M_lift_ok. cbv beta. plot_draw page_figs 3%nat (mkFigure fs_half []).
  plot_fig. rewrite (pairs_present_false _ _ _ _ _ Hage Hprod H3).
  erewrite M_plot_err by reflexivity.
  eexists. split_and!; reflexivity.
Qed.

(** C13: A data file written with another delimiter (no semicolon and no
    quote) loads as a single column named by its first line; unless that
    line is the one word [Ticket], the run stops at line 19 with
    [KeyError 'Ticket'] before any figure is opened or any line printed:
    the spec's failure class of a wrong delimiter.  The file is the UTF-8
    encoding of its text, as the script reads it. *)
Theorem main_wrong_delimiter text df0 rc dir :
  Forall Utf8.valid text -> (59%Z ∉ text) -> (34%Z ∉ text) -> read_csv text = Ok df0 ->
  hd [] (fst (tokenize text)) <> [Ticket] ->
  main (Utf8.utf8_encode text) (init rc dir) = (init rc dir, Err (KeyError Ticket)).
Proof.
  intros Hv Hd Hq Hread Hh.
  destruct (read_one_column _ _ Hd Hq Hread) as (h & name & s & Hhd & Hcols & Hname).
  unfold main. rewrite read_csv_file_encode, Hread, M_lift_ok by done. unfold script.
  replace (clean df0) with (@Err exn frame (KeyError Ticket)); [done|].
  unfold clean, clean_ticket, getcol. rewrite Hcols. simpl.
  rewrite decide_False; [done|]. intros ->. apply Hh. by rewrite Hhd, Hname.
Qed.

End Script.
