(* ===== verification/Outputs.v ===== *)
(** * What a run leaves behind: the files written and the lines printed

    An abstract specification of the effects of [Script.main] on the outside
    world, and its proof for every input, every error path included.  The
    effects are a sequence of [event]s: a [savefig] writing a file, or a
    [print].  [emits m evs] says that running [m] from any world performs a
    prefix of [evs], and all of [evs] when [m] returns normally: the names it
    adds to the written files are the [ESave]s of the prefix, the lines it
    prints as many as its [EPrint]s.  The rule for [≫=] composes these
    specifications statement by statement, in the way of a Hoare logic for
    a state and error monad, so the effects of the whole script are read off
    its text. *)

From stdpp Require Import list.
From S2P Require Import Prelude PyString PyFloat Frame Cleaner Loader Histogram Sort GroupBy Stats Pyplot Script.
From Stdlib Require Strings.String.
Import Stdlib.Strings.String.StringSyntax.

Module Outputs.
Import PyStr Frame Loader Pyplot Script.

Inductive event : Type :=
| ESave (name : pystr)
| EPrint.

(** The names a list of pyplot calls passes to [savefig], in order. *)
Fixpoint saves (cs : list cmd) : list pystr :=
  match cs with
  | [] => []
  | CSave name :: cs' => name :: saves cs'
  | _ :: cs' => saves cs'
  end.

Fixpoint saved (evs : list event) : list pystr :=
  match evs with
  | [] => []
  | ESave name :: evs' => name :: saved evs'
  | EPrint :: evs' => saved evs'
  end.

Fixpoint printed (evs : list event) : nat :=
  match evs with
  | [] => 0
  | ESave _ :: evs' => printed evs'
  | EPrint :: evs' => S (printed evs')
  end.

(** The names of the files written so far. *)
Definition written (w : world) : list pystr := map fst (files (wplt w)).

(** The specification: [m] performs a prefix of [evs], all of them when it
    returns normally. *)
Definition emits {A} (m : M A) (evs : list event) : Prop :=
  forall w, exists k, (k <= length evs)%nat /\
    written (fst (m w)) = written w ++ saved (take k evs) /\
    length (wout (fst (m w))) = (length (wout w) + printed (take k evs))%nat /\
    (is_ok (snd (m w)) = true -> k = length evs).

(** The effects of [main], in the order of the source: the eight images,
    then the seven [print] calls of lines 124-134. *)
Definition main_events : list event :=
  map ESave output_files ++ replicate 7 EPrint.

(** ** Lemmas *)

Lemma saved_app l1 l2 : saved (l1 ++ l2) = saved l1 ++ saved l2.
Proof. induction l1 as [|[] l1 IH]; simpl; by rewrite ?IH. Qed.

Lemma printed_app l1 l2 : printed (l1 ++ l2) = (printed l1 + printed l2)%nat.
Proof. induction l1 as [|[] l1 IH]; simpl; by rewrite ?IH. Qed.

Lemma saved_take_ESave k ns : saved (take k (map ESave ns)) = take k ns.
Proof. revert k; induction ns; intros [|k]; simpl; by f_equal. Qed.

Lemma printed_take_ESave k ns : printed (take k (map ESave ns)) = 0%nat.
Proof. revert k; induction ns; intros [|k]; simpl; auto. Qed.

(** [savefig] always finds a figure: [gcf] opens one when none is. *)
Lemma active_gcf st : exists nf, active (figs (gcf st)) = Some nf.
Proof.
  unfold gcf. destruct (figs st) as [|x fs] eqn:Hf.
  - destruct st; simpl in *; subst. rewrite active_snoc. by eexists.
  - rewrite Hf. destruct (exists_last (l:=x :: fs)) as (l & y & ->); [done|].
    rewrite active_snoc. by eexists.
Qed.

Lemma gcf_files st : files (gcf st) = files st.
Proof. unfold gcf. by destruct (figs st). Qed.

Lemma step_files c st st' :
  step c st = Ok st' -> map fst (files st') = map fst (files st) ++ saves [c].
Proof.
  destruct c as [sz|a|a| |name|]; simpl; intros H; rewrite ?app_nil_r.
  1-4,6: unfold df_plot, draw_call in H; repeat case_match; simplify_eq;
         unfold draw, tight_layout, close; simpl; by rewrite ?gcf_files.
  unfold savefig in H. destruct (active_gcf st) as [[n f] Ha]. rewrite Ha in H.
  destruct (dir_exists (gcf st)); invc H. simpl. by rewrite map_app, gcf_files.
Qed.

Lemma run_files cs st : exists k, (k <= length (saves cs))%nat /\
  map fst (files (fst (run cs st))) = map fst (files st) ++ take k (saves cs) /\
  (snd (run cs st) = None -> k = length (saves cs)).
Proof.
  revert st; induction cs as [|c cs IH]; intros st; simpl.
  - exists 0%nat. by rewrite app_nil_r.
  - destruct (step c st) as [st'|e] eqn:Hs.
    + destruct (IH st') as (k & Hk & Hf & Hok). apply step_files in Hs.
      exists (length (saves [c]) + k)%nat.
      destruct c; simpl in *; rewrite Hf, Hs, <- ?app_assoc; split_and!; auto; lia.
    + exists 0%nat. simpl. rewrite app_nil_r. split_and!; [lia|done|discriminate].
Qed.

Lemma emits_plot cs : emits (plot cs) (map ESave (saves cs)).
Proof.
  intros w. unfold plot. destruct (run_files cs (wplt w)) as (k & Hk & Hf & Hok).
  destruct (run cs (wplt w)) as [p e] eqn:Hr. simpl in *.
  exists k. rewrite length_map, saved_take_ESave, printed_take_ESave.
  split_and!; [done|exact Hf|lia|]. destruct e; [discriminate|auto].
Qed.

Lemma emits_lift {A} (r : result exn A) : emits (lift r) [].
Proof. intros w. exists 0%nat. simpl. rewrite app_nil_r. split_and!; auto; lia. Qed.

Lemma emits_print o : emits (print o) [EPrint].
Proof. intros w. exists 1%nat. simpl. rewrite app_nil_r, length_app. simpl. split_and!; auto; lia. Qed.

(** The sequencing rule. *)
Lemma emits_bind {A B} (m : M A) (k : A -> M B) evs1 evs2 :
  emits m evs1 -> (forall x, emits (k x) evs2) -> emits (m ≫= k) (evs1 ++ evs2).
Proof.
  intros Hm Hk w. destruct (Hm w) as (k1 & Hk1 & Hw1 & Ho1 & Hok1).
  unfold mbind, M_bind. destruct (m w) as [w1 [x|e]]; simpl in *.
  - specialize (Hok1 eq_refl) as ->.
    destruct (Hk x w1) as (k2 & Hk2 & Hw2 & Ho2 & Hok2).
    exists (length evs1 + k2)%nat. rewrite length_app, take_app_add.
    rewrite take_ge in Hw1, Ho1 by lia.
    rewrite saved_app, printed_app, Hw2, Hw1, Ho2, Ho1, <- app_assoc.
    split_and!; [lia|done|lia|]. intros H. specialize (Hok2 H). lia.
  - exists k1. rewrite take_app_le by lia. split_and!; [rewrite length_app; lia|done|done|discriminate].
Qed.

Lemma emits_eq {A} (m : M A) evs evs' : emits m evs -> evs = evs' -> emits m evs'.
Proof. by intros ? ->. Qed.

Ltac emits_step :=
  lazymatch goal with
  | |- emits (mbind _ _) _ => eapply emits_bind; [|intros ?]
  | |- emits (lift _) _ => apply emits_lift
  | |- emits (col _ _) _ => apply emits_lift
  | |- emits (print _) _ => apply emits_print
  | |- emits (plot _) _ => eapply emits_eq; [apply emits_plot|simpl; reflexivity]
  | |- emits (let _ := _ in _) _ => cbv zeta
  end.

Lemma saved_take_prints k n : saved (take k (replicate n EPrint)) = [].
Proof. revert k; induction n; intros [|k]; simpl; auto. Qed.

Lemma printed_take_prints k n : printed (take k (replicate n EPrint)) = Nat.min k n.
Proof. revert k; induction n; intros [|k]; simpl; auto. Qed.

Lemma saved_main_events k : saved (take k main_events) = take k output_files.
Proof.
  unfold main_events. rewrite take_app, saved_app, saved_take_ESave, saved_take_prints.
  by rewrite app_nil_r.
Qed.

Lemma printed_main_events k : printed (take k main_events) = Nat.min (k - 8) 7.
Proof.
  unfold main_events. rewrite take_app, printed_app, printed_take_ESave, printed_take_prints.
  by rewrite length_map.
Qed.

(** ** Properties *)

(** C2: The whole program refines its abstract effect specification: from
    any state of the world and on any input file, [main] writes a prefix of
    the eight images of [output_files] in order and prints a prefix of its
    seven report lines after them, and all fifteen effects happen when it
    returns normally; an exception anywhere (a missing column, a bad ticket,
    a NaN ticket, a missing [figures/]) only cuts the sequence short. *)
Theorem main_emits text : emits (main text) main_events.
Proof.
  eapply emits_eq; [unfold main, script; repeat emits_step|]. vm_compute. reflexivity.
Qed.

(** The script's statements, read off its text. *)
Lemma script_emits df0 : emits (script df0) main_events.
Proof.
  eapply emits_eq; [unfold script; repeat emits_step|]. vm_compute. reflexivity.
Qed.

(** C3: Whatever the input, a run from a fresh process writes only files
    under [figures/], never the same file twice, and prints nothing unless
    all eight images have been written. *)
Theorem main_files_safe text rc dir :
  let w := fst (main text (init rc dir)) in
  NoDup (written w) /\ Forall (fun n => py "figures/" `prefix_of` n) (written w) /\
  (wout w <> [] -> written w = output_files).
Proof.
  destruct (emits_bind _ _ [] _ (emits_lift (read_csv_file text)) script_emits (init rc dir))
    as (k & Hk & Hw & Ho & _).
  change (lift (read_csv_file text) ≫= script) with (main text) in Hw, Ho.
  cbv zeta. rewrite Hw, saved_main_events. rewrite printed_main_events in Ho.
  assert (Hnd : NoDup output_files).
  { apply NoDup_ListNoDup. vm_compute. repeat constructor; intros H; simpl in H; intuition congruence. }
  assert (Hpre : Forall (fun n => py "figures/" `prefix_of` n) output_files)
    by (repeat constructor; eexists; reflexivity).
  simpl. split_and!.
  - eapply sublist_NoDup; [exact Hnd|apply sublist_take].
  - apply Forall_take, Hpre.
  - intros Hout. apply take_ge. change (length output_files) with 8%nat.
    assert (length (wout (fst (main text (init rc dir)))) <> 0)%nat
      by (by rewrite length_zero_iff_nil).
    simpl in Ho. lia.
Qed.

End Outputs.
