(* ===== verification/Examples.v ===== *)
(** * Concrete runs on small survey tables

    Sample DataFrames as [pd.read_csv] would return them, the script's
    steps evaluated on them, and the theorems of the other files applied
    at these inputs. *)

From stdpp Require Import sorting.
From S2P Require Import Prelude PyString Utf8 PyFloat Frame Cleaner Header Tokenizer ByteTokenizer Loader Histogram Sort GroupBy Stats Pyplot Styling Script Outputs.
From Stdlib Require Strings.String.
Import Stdlib.Strings.String.StringSyntax.

Module Examples.
Import PyStr Utf8 FloatParse FloatArith Frame Cleaner Header Tokenizer ByteTokenizer Loader Histogram GroupBy Stats Pyplot Styling Script.

Definition s (x : String.string) : cell := CStr (py x).
Arguments s x%_string_scope.

(** The three rows of the end-to-end scenario of the spec (section 8),
    with the columns the script reads. *)
Definition survey3 : frame := mkFrame
  [(py "Gender", [s "F"; s "M"; s "F"]);
   (py "Age", [s "18-24 "; s "18-24"; s " 25-34"]);
   (Wine_frequency, [s "Once per month"; s "Once per day"; s "Never"]);
   (py "Payment mode", [s "Card"; s "Cash"; s "Card"]);
   (py "Place to drink", [s "Bar"; s "Restaurant "; s "Bar"]);
   (py "Additional products", [s "Cheese"; CNum NaN; s "Cheese"]);
   (py "Education", [s "Master"; s "Bachelor"; s "Master"]);
   (Ticket, [s "5,00"; CStr (euro :: py "7,50"); s " 10,00"])]
  3.

(** The scenario exactly as the spec states it: three columns only. *)
Definition survey3_min : frame := mkFrame
  [(py "Age", [s "18-24"; s "18-24"; s "25-34"]);
   (Ticket, [s "5,00"; s "7,50"; s "10,00"]);
   (py "Place to drink", [s "Bar"; s "Restaurant"; s "Bar"])]
  3.

Definition survey3_clean : frame := Eval vm_compute in
  match clean survey3 with Ok df => df | Err _ => survey3 end.

Lemma survey3_wf : wf_frame survey3.
Proof.
  split.
  - apply NoDup_ListNoDup. repeat constructor; simpl; intuition discriminate.
  - repeat constructor.
Qed.

Lemma survey3_clean_ok : clean survey3 = Ok survey3_clean.
Proof. vm_compute. reflexivity. Qed.

Lemma survey3_clean_wf : wf_frame survey3_clean.
Proof.
  split.
  - apply NoDup_ListNoDup. vm_compute. repeat constructor; simpl; intuition discriminate.
  - vm_compute. repeat constructor.
Qed.

Definition survey3_freq : frame := Eval vm_compute in
  match add_freq_num survey3_clean with Ok df => df | Err _ => survey3_clean end.

Lemma survey3_freq_ok : add_freq_num survey3_clean = Ok survey3_freq.
Proof. vm_compute. reflexivity. Qed.

(** The spec's three-column table never reaches the aggregates: the strip
    loop of line 24 raises [KeyError] on its first column. *)
Lemma survey3_min_keyerror : clean survey3_min = Err (KeyError Wine_frequency).
Proof. vm_compute. reflexivity. Qed.

(** The aggregates of the cleaned table: Bar has tickets 5 and 10, the
    Restaurant 7.5, so both means are 7.5 and the stable sort keeps the
    group order; 18-24 pays half by card and half cash, 25-34 only by card. *)
Definition survey3_place : list (pystr * pyfloat) := Eval vm_compute in
  match avg_ticket_by_place survey3_clean with Ok r => r | Err _ => [] end.

Lemma survey3_place_ok : avg_ticket_by_place survey3_clean = Ok survey3_place.
Proof. vm_compute. reflexivity. Qed.

Definition survey3_product : list (pystr * (pyfloat * nat)) := Eval vm_compute in
  match avg_ticket_by_product survey3_clean with Ok r => r | Err _ => [] end.

Lemma survey3_product_ok : avg_ticket_by_product survey3_clean = Ok survey3_product.
Proof. vm_compute. reflexivity. Qed.

Definition survey3_pct : list (pystr * list (pystr * pyfloat)) := Eval vm_compute in
  match payment_percentages survey3_clean with Ok r => r | Err _ => [] end.

Lemma survey3_pct_ok : payment_percentages survey3_clean = Ok survey3_pct.
Proof. vm_compute. reflexivity. Qed.

Definition survey3_pct_young : list (pystr * pyfloat) := Eval vm_compute in
  match survey3_pct with (_, row) :: _ => row | [] => [] end.

Lemma survey3_pct_young_in : (py "18-24", survey3_pct_young) ∈ survey3_pct.
Proof. vm_compute. left. Qed.

(** The cleaned tickets of [survey3]: 5, 7.5 and 10. *)
Definition survey3_tickets : series := Eval vm_compute in
  match lookup_col Ticket (fcols survey3_clean) with Some t => t | None => [] end.

Lemma survey3_tickets_ok : lookup_col Ticket (fcols survey3_clean) = Some survey3_tickets.
Proof. vm_compute. reflexivity. Qed.

Definition survey3_wine_freq : series := Eval vm_compute in
  match lookup_col Wine_frequency (fcols survey3_clean) with Some t => t | None => [] end.

(** [figure.figsize] after the styling of lines 14-15 on matplotlib's defaults: 6.4 by 4.8 inches. *)
Definition rc_default : Q * Q := Eval vm_compute in
  match styling rc_defaults with Ok rc => default (0, 0) (figsize rc) | Err _ => (0, 0) end.






(** ** Inputs of the Loader and frames it returns *)

(** A file whose tickets are all plain numbers: [pd.read_csv] reads the
    column as numbers. *)
Definition survey_plain : frame :=
  mkFrame [(Ticket, [CNum (Fin 12); CNum (Fin 8)]); (py "Age", [s "18-24"; s "25-34"])] 2.

(** A three-line file in the survey's format: a [\r\n] line end, a blank
    line, a padded short row and a [None] answer. *)
Definition survey_csv : pystr :=
  py "Ticket;Place to drink;Additional products" ++ [10%Z] ++
  py "12,50 " ++ [euro] ++ py ";Bar ;None" ++ [13%Z; 10%Z] ++ [10%Z] ++
  py "8,00 " ++ [euro] ++ py ";Restaurant" ++ [10%Z].
Definition survey_rows : list (list pystr) := Eval vm_compute in fst (tokenize survey_csv).

Definition survey_loaded : frame := Eval vm_compute in
  match read_csv survey_csv with Ok df => df | Err _ => survey_plain end.

(** A header with a repeated name and an empty field: [pandas] names the
    columns [a], [a.1] and [Unnamed: 2]. *)
Definition dup_header : list pystr := [py "a"; py "a"; []].
Definition dup_data : list (list pystr) := [[py "1"; py "x"; py "2"]; [py "3"]].
Definition dup_csv : pystr := py "a;a;" ++ [10%Z] ++ py "1;x;2" ++ [10%Z] ++ py "3" ++ [10%Z].

(** The header names [a], [a], [a.1]: the second [a] cannot become [a.1],
    taken by the third column, and becomes [a.2]. *)
Definition aaa : list pystr := [py "a"; py "a"; py "a.1"].
Definition aaa_names : list pystr := Eval vm_compute in default [] (dedup_header aaa).

(** The same file with plain-number tickets. *)
Definition plain_csv : pystr :=
  py "Ticket;Age" ++ [10%Z] ++ py "12;18-24" ++ [10%Z] ++ py " 8.5 ;25-34" ++ [10%Z].

(** The survey file written with commas. *)
Definition comma_csv : pystr := py "Ticket,Age" ++ [10%Z] ++ py "12,18-24" ++ [10%Z].
Definition comma_loaded : frame := Eval vm_compute in
  match read_csv comma_csv with Ok df => df | Err _ => survey_plain end.

(** ** Witnesses *)

Lemma clean_spec_witness :
  wf_frame survey3_clean /\ nrows survey3_clean = nrows survey3 /\
  map fst (fcols survey3_clean) = map fst (fcols survey3) /\
  (exists s cells, lookup_col Ticket (fcols survey3) = Some s /\ mapM ticket_cell s = Ok cells /\
     lookup_col Ticket (fcols survey3_clean) = Some cells) /\
  (forall c, c ∈ string_columns -> exists s, lookup_col c (fcols survey3) = Some s /\
     lookup_col c (fcols survey3_clean) = Some (map (str_elem strip) s)) /\
  (forall c, c <> Ticket -> c ∉ string_columns ->
     lookup_col c (fcols survey3_clean) = lookup_col c (fcols survey3)).
Proof. apply clean_spec; [exact survey3_wf | exact survey3_clean_ok]. Defined.

Lemma ticket_value_decimal_witness :
  exists q, ticket_value ([32%Z] ++ [euro] ++ py "12" ++ 44%Z :: py "50" ++ [32%Z]) = Ok (Fin q) /\
    q == inject_Z (digits_val (py "12")) + inject_Z (digits_val (py "50")) /
           inject_Z (10 ^ Z.of_nat (length (py "50"))).
Proof.
  apply ticket_value_decimal.
  - repeat constructor.
  - repeat constructor.
  - by right.
  - repeat constructor.
  - discriminate.
  - repeat constructor.
Defined.

Lemma ticket_value_thousands_witness :
  ticket_value ([euro] ++ py "1" ++ 44%Z :: py "234" ++ 44%Z :: py "50") =
    Err (ValueError (py "1" ++ 46%Z :: py "234" ++ 46%Z :: py "50")).
Proof. apply ticket_value_thousands; [by right | repeat constructor..]. Defined.

Lemma clean_bad_ticket_raises_witness :
  exists t, clean (mkFrame [(Ticket, [s "12,50"; s "1,234,50"])] 2) = Err (ValueError t).
Proof.
  apply (clean_bad_ticket_raises _ [s "12,50"; s "1,234,50"] (py "1,234,50")
           (ValueError (py "1.234.50"))).
  - reflexivity.
  - right. left.
  - vm_compute. reflexivity.
Defined.

Lemma clean_strip_idempotent_witness :
  strip_columns string_columns survey3_clean = Ok survey3_clean.
Proof. apply (clean_strip_idempotent survey3); [exact survey3_wf | exact survey3_clean_ok]. Defined.

Lemma add_freq_num_spec_witness :
  wf_frame survey3_freq /\ nrows survey3_freq = nrows survey3_clean /\
  map fst (fcols survey3_freq) = map fst (fcols survey3_clean) ++ [Freq_num] /\
  (exists s, lookup_col Wine_frequency (fcols survey3_clean) = Some s /\
             lookup_col Freq_num (fcols survey3_freq) = Some (map_dict freq_map s)) /\
  (forall c, c <> Freq_num -> lookup_col c (fcols survey3_freq) = lookup_col c (fcols survey3_clean)).
Proof.
  apply add_freq_num_spec; [exact survey3_clean_wf| |exact survey3_freq_ok].
  vm_compute. intros Hin.
  repeat (apply elem_of_cons in Hin as [Hin|Hin]; [discriminate|]).
  by apply not_elem_of_nil in Hin.
Defined.

Lemma freq_num_cells_witness :
  Forall2 (fun c r =>
      (r = CNum NaN /\ forall x, c = CStr x -> dict_get freq_map x = None) \/
      (exists x k, c = CStr x /\ dict_get freq_map x = Some k /\
                   k ∈ [1; 2; 3; 4; 5; 7]%Z /\ r = CNum (Fin (inject_Z k))))
    [s "Once per day"; s "Never"; CNum NaN] (map_dict freq_map [s "Once per day"; s "Never"; CNum NaN]).
Proof. apply freq_num_cells. Defined.

Lemma avg_ticket_by_place_spec_witness :
  exists keys vals, getcol survey3_clean (py "Place to drink") = Ok keys /\
    getcol survey3_clean Ticket = Ok vals /\
    NoDup (map fst survey3_place) /\
    (forall k, k ∈ map fst survey3_place <-> CStr k ∈ keys) /\
    (forall k m, (k, m) ∈ survey3_place -> m = fmean (group_vals keys vals k)) /\
    Sorted (fun x y => nan_last_lt (snd y) (snd x) = false) survey3_place.
Proof. apply avg_ticket_by_place_spec. exact survey3_place_ok. Defined.

Lemma avg_ticket_by_product_spec_witness :
  exists keys vals, getcol survey3_clean (py "Additional products") = Ok keys /\
    getcol survey3_clean Ticket = Ok vals /\
    NoDup (map fst survey3_product) /\
    (forall k, k ∈ map fst survey3_product <-> CStr k ∈ keys) /\
    (forall k m c, (k, (m, c)) ∈ survey3_product ->
       m = fmean (group_vals keys vals k) /\ c = length (group_vals keys vals k)) /\
    Sorted (fun x y => nan_last_gt (fst (snd y)) (fst (snd x)) = false) survey3_product.
Proof. apply avg_ticket_by_product_spec. exact survey3_product_ok. Defined.

Lemma histogram_edges_ref_witness :
  Sorted Qle freq_edges /\
  histogram_edges [Fin 1; Fin 7; NaN; Fin 6; Fin 2] freq_edges =
  histogram_ref [Fin 1; Fin 7; NaN; Fin 6; Fin 2] freq_edges.
Proof.
  assert (H : Sorted Qle freq_edges) by (repeat constructor; unfold Qle; simpl; lia).
  split; [exact H|]. apply histogram_edges_ref. exact H.
Defined.

Lemma histogram_bins_total_witness :
  exists counts edges, histogram_bins [Fin 5; Fin (15 # 2); Fin 10] 20 = Ok (counts, edges) /\
    length counts = 20%nat /\ length edges = 21%nat /\ sum_list counts = 3%nat.
Proof. apply histogram_bins_total; [lia|repeat constructor]. Defined.

Lemma freq_hist_spec_witness :
  freq_hist survey3_freq =
  Ok (zip (map inject_Z [1; 2; 3; 4; 5; 6]%Z)
          (map (fun xk => length (filter (fun c => c = CStr (fst xk)) survey3_wine_freq)) freq_map)).
Proof. apply (freq_hist_spec survey3_freq survey3_wine_freq). vm_compute. reflexivity. Defined.

Lemma script_success_witness :
  exists w, script survey3 (init rc_default true) = (w, Ok tt) /\
    map fst (files (wplt w)) = output_files /\
    map (fun nf => fsize (snd nf)) (files (wplt w)) =
      [rc_default; rc_default; fs_half; fs_half; fs_half; fs_half; fs_half; fs_half] /\
    figs (wplt w) = page_figs /\
    exists df2 a p pct, add_freq_num survey3_clean = Ok df2 /\ avg_ticket_by_place survey3_clean = Ok a /\
      avg_ticket_by_product df2 = Ok p /\ payment_percentages survey3_clean = Ok pct /\
      wout w = [OText (nl "Key Statistics:"); OText (nl "1. Average Ticket Value by Place:");
                OPlace (round_place a); OText (nl "2. Average Ticket Value by Product:");
                OProduct (round_product p); OText (nl "3. Payment Mode Percentages by Age Group:");
                OPercent (round_percent pct)].
Proof.
  apply (script_success survey3 survey3_clean rc_default survey3_tickets).
  - exact survey3_wf.
  - exact survey3_clean_ok.
  - vm_compute. reflexivity.
  - vm_compute. reflexivity.
  - vm_compute. reflexivity.
  - exact survey3_tickets_ok.
  - vm_compute. repeat constructor.
Defined.


Lemma script_no_dir_witness :
  exists w, script survey3 (init rc_default false) = (w, Err (OSError (fig "wine_consumption_by_age.jpg"))) /\
    files (wplt w) = [] /\ wout w = [] /\ map (fun nf => fsize (snd nf)) (figs (wplt w)) = [fs_page; rc_default].
Proof.
  apply (script_no_dir survey3 survey3_clean); [exact survey3_wf|exact survey3_clean_ok|].
  vm_compute. reflexivity.
Defined.

(** A data file with the survey's header and no row. *)
Definition header_csv : pystr :=
  py "Gender;Age;Wine frequency consumption;Payment mode;Place to drink;Additional products;Education;Ticket" ++
  [10%Z].

Definition header_frame : frame := Eval vm_compute in
  match read_csv header_csv with Ok df => df | Err _ => survey3 end.

Lemma header_frame_ok : read_csv header_csv = Ok header_frame.
Proof. vm_compute. reflexivity. Qed.

Definition header_clean : frame := Eval vm_compute in
  match clean header_frame with Ok df => df | Err _ => header_frame end.

Lemma script_empty_crosstab_witness :
  read_csv header_csv = Ok header_frame /\
  exists w, script header_frame (init rc_default true) = (w, Err (TypeError no_numeric_data)) /\
    files (wplt w) = [] /\ wout w = [] /\ figs (wplt w) = [(1%nat, mkFigure fs_page [])].
Proof.
  split; [exact header_frame_ok|].
  apply (script_empty_crosstab header_frame header_clean).
  - split; [apply NoDup_ListNoDup; vm_compute; repeat constructor; simpl; intuition discriminate
           |vm_compute; repeat constructor].
  - vm_compute. reflexivity.
  - vm_compute. reflexivity.
Defined.

(** [survey3] where the additional product is answered only in the row
    whose age is missing. *)
Definition survey3_noprod : frame := mkFrame
  (map (fun nc => if decide (fst nc = py "Age") then (py "Age", [s "18-24 "; CNum NaN; s " 25-34"])
                  else if decide (fst nc = py "Additional products")
                  then (py "Additional products", [CNum NaN; s "Cheese"; CNum NaN]) else nc)
       (fcols survey3)) 3.

Definition survey3_noprod_clean : frame := Eval vm_compute in
  match clean survey3_noprod with Ok df => df | Err _ => survey3_noprod end.

Lemma script_empty_heatmap_witness :
  exists w, script survey3_noprod (init rc_default true) = (w, Err (ValueError zero_size_fmin)) /\
    map fst (files (wplt w)) = take 5 output_files /\ wout w = [].
Proof.
  apply (script_empty_heatmap survey3_noprod survey3_noprod_clean).
  - split; [apply NoDup_ListNoDup; vm_compute; repeat constructor; simpl; intuition discriminate
           |vm_compute; repeat constructor].
  - vm_compute. reflexivity.
  - vm_compute. reflexivity.
  - vm_compute. reflexivity.
  - vm_compute. reflexivity.
Defined.

Lemma clean_numeric_ticket_raises_witness : clean survey_plain = Err AttributeError.
Proof.
  apply (clean_numeric_ticket_raises survey_plain [CNum (Fin 12); CNum (Fin 8)]).
  - reflexivity.
  - discriminate.
  - repeat constructor.
Defined.

Lemma histogram_bins_ref_witness :
  exists counts edges, histogram_bins [Fin 5; Fin (15 # 2); Fin 10; Fin 10] 4 = Ok (counts, edges) /\
    counts = histogram_ref [Fin 5; Fin (15 # 2); Fin 10; Fin 10] edges.
Proof. apply histogram_bins_ref; [lia|repeat constructor]. Defined.

(** ** The Loader on a small file *)

Lemma tokenize_write_csv_witness :
  tokenize (write_csv [[py "a;b"; [34%Z; 10%Z]]; [[]]]) = ([[py "a;b"; [34%Z; 10%Z]]; [[]]], true).
Proof. apply tokenize_write_csv. repeat constructor; discriminate. Defined.

Lemma read_csv_frame_witness :
  exists df, read_csv dup_csv = Ok df /\ wf_frame df /\
    map fst (fcols df) = column_names dup_header /\ nrows df = length dup_data /\
    (forall j name, column_names dup_header !! j = Some name ->
      lookup_col name (fcols df) = Some (convert_column (column dup_data (leading_cols dup_header dup_data + j)))) /\
    (Forall (fun r => length r <= length dup_header)%nat dup_data -> leading_cols dup_header dup_data = 0%nat) /\
    (NoDup dup_header -> [] ∉ dup_header -> column_names dup_header = dup_header).
Proof.
  apply read_csv_frame.
  - vm_compute. reflexivity.
  - repeat constructor; simpl; lia.
Defined.

Lemma read_csv_too_many_fields_witness :
  read_csv (py "a;b" ++ [10%Z] ++ py "1;2" ++ [10%Z] ++ py "1;2;3") = Err too_many_fields.
Proof.
  apply (read_csv_too_many_fields _ [py "a"; py "b"] [py "1"; py "2"] [[py "1"; py "2"; py "3"]] true).
  - vm_compute. reflexivity.
  - constructor. simpl. lia.
Defined.

(** A survey file whose first record has one field too many: [12;50]
    written for a ticket of 12,50. *)
Definition shifted_header : list pystr := [py "Age"; Ticket; py "Place to drink"].
Definition shifted_r1 : list pystr := [py "18-24"; py "12"; py "50"; py "Bar"].
Definition shifted_rest : list (list pystr) := [[py "25-34"; py "8"; py "Home"]].
Definition shifted_csv : pystr :=
  py "Age;Ticket;Place to drink" ++ [10%Z] ++ py "18-24;12;50;Bar" ++ [10%Z] ++ py "25-34;8;Home" ++ [10%Z].

Lemma read_csv_implicit_index_witness :
  exists df, read_csv shifted_csv = Ok df /\
    getcol df Ticket = Ok (convert_column (column (shifted_r1 :: shifted_rest) (length shifted_r1 - length shifted_header + 1))).
Proof.
  apply (read_csv_implicit_index _ shifted_header).
  - vm_compute. reflexivity.
  - simpl. lia.
  - repeat constructor; simpl; lia.
  - apply NoDup_ListNoDup. vm_compute. repeat constructor; simpl; intuition congruence.
  - reflexivity.
Defined.

(** The [Ticket] column of that file holds [50] and the text [Home]: it is
    a text column, and line 19 reads [50] as the ticket of the first
    customer. *)
Example shifted_ticket :
  getcol (match read_csv shifted_csv with Ok df => df | Err _ => survey_plain end) Ticket =
  Ok [CStr (py "50"); CStr (py "Home")].
Proof. vm_compute. reflexivity. Qed.

Lemma read_csv_strings_witness :
  (py "Bar " ∉ na_values) /\ exists r, r ∈ fst (tokenize survey_csv) /\ py "Bar " ∈ r.
Proof.
  apply (read_csv_strings survey_csv survey_loaded (py "Place to drink")
           [CStr (py "Bar "); CStr (py "Restaurant")]).
  - vm_compute. reflexivity.
  - vm_compute. right. left.
  - left.
Defined.

Lemma read_numeric_ticket_raises_witness :
  exists df, read_csv plain_csv = Ok df /\ clean df = Err AttributeError.
Proof.
  apply (read_numeric_ticket_raises plain_csv [Ticket; py "Age"]
           [[py "12"; py "18-24"]; [py " 8.5 "; py "25-34"]] 0).
  - vm_compute. reflexivity.
  - repeat constructor; vm_compute; intros H; repeat (inversion H as [|? ? ? H']; clear H; rename H' into H).
  - repeat constructor.
  - discriminate.
  - reflexivity.
  - vm_compute. reflexivity.
Defined.

Lemma main_wrong_delimiter_witness :
  main (utf8_encode comma_csv) (init rc_default true) = (init rc_default true, Err (KeyError Ticket)).
Proof.
  apply (main_wrong_delimiter comma_csv comma_loaded).
  - apply (bool_decide_unpack _). vm_compute. exact I.
  - vm_compute. intros H. repeat (inversion H as [|? ? ? H']; clear H; rename H' into H).
  - vm_compute. intros H. repeat (inversion H as [|? ? ? H']; clear H; rename H' into H).
  - vm_compute. reflexivity.
  - vm_compute. discriminate.
Defined.

(** A file whose answers in a column are all [True] or [false]: pandas reads
    that column as [bool], not as text. *)
Definition bool_csv : pystr :=
  py "Gender;Ticket" ++ [10%Z] ++ py "True;12" ++ [10%Z] ++ py "false;" ++ [10%Z].
Definition bool_loaded : frame :=
  Eval vm_compute in match read_csv bool_csv with Ok df => df | Err _ => survey_plain end.

Example bool_gender : getcol bool_loaded (py "Gender") = Ok [CBool true; CBool false].
Proof. vm_compute. reflexivity. Qed.

(** A complete survey record whose [Gender] answers are [True]: the column
    is read as [bool], and the strip loop raises [AttributeError] at
    line 24 when it reaches it. *)
Definition bool_survey_csv : pystr :=
  py "Ticket;Wine frequency consumption;Payment mode;Place to drink;Additional products;Gender;Education;Age" ++ [10%Z] ++
  py "12,50;Once per month;Card;Bar;Cheese;True;Master;18-24" ++ [10%Z].

Example bool_survey_strip_raises :
  (match read_csv bool_survey_csv with Ok df => clean df | Err e => Err e end) = Err AttributeError.
Proof. vm_compute. reflexivity. Qed.

Lemma read_csv_column_types_witness :
  Forall (fun c => exists x, c = CNum x) [CBool true; CBool false] \/
  Forall (fun c => (exists b, c = CBool b) \/ c = CNum NaN) [CBool true; CBool false] \/
  Forall (fun c => (exists w, c = CStr w) \/ c = CNum NaN) [CBool true; CBool false].
Proof.
  apply (read_csv_column_types bool_csv bool_loaded (py "Gender")).
  - vm_compute. reflexivity.
  - vm_compute. left.
Defined.

Lemma tokenize_plain_witness :
  tokenize plain_csv = (split_rows (skip_bom plain_csv), true).
Proof.
  apply tokenize_plain.
  - vm_compute. intros H. repeat (inversion H as [|? ? ? H']; clear H; rename H' into H).
  - vm_compute. intros H. repeat (inversion H as [|? ? ? H']; clear H; rename H' into H).
Defined.

Lemma dedup_header_nodup_witness :
  NoDup aaa_names /\
  (forall j x, header_names aaa !! j = Some x ->
     (forall j', header_names aaa !! j' = Some x -> j' = j) -> aaa_names !! j = Some x).
Proof. apply dedup_header_nodup. vm_compute. reflexivity. Defined.


(** The tokenizer in the middle of a record, after [12;x]. *)
Definition half_record : tok := Eval vm_compute in fold_left tok_step (py "12;x") tok_init.

Lemma tokenize_resync_witness :
  eventually (record_start half_record) half_record (py "5;Bar" ++ 10%Z :: py "Home").
Proof.
  apply (tokenize_resync half_record (py "5;Bar") (py "Home")).
  - vm_compute. intros H. repeat (inversion H as [|? ? ? H']; clear H; rename H' into H).
  - vm_compute. discriminate.
Defined.

(** The survey file, euro signs included, as the UTF-8 bytes the script
    reads. *)
Lemma read_csv_file_utf8_witness :
  tokenize_bytes (utf8_encode survey_csv) =
    (map (map utf8_encode) (fst (tokenize survey_csv)), snd (tokenize survey_csv)) /\
  read_csv_file (utf8_encode survey_csv) = read_csv survey_csv.
Proof. apply read_csv_file_utf8. apply (bool_decide_unpack _). vm_compute. exact I. Defined.

(** The survey file saved in Windows-1252: the euro sign is the single byte
    [0x80]. *)
Definition cp1252_csv : list Z :=
  py "Ticket;Age" ++ [10%Z] ++ py "12,50 " ++ [128%Z] ++ py ";18-24" ++ [10%Z].

Lemma read_csv_file_bad_utf8_witness : read_csv_file cp1252_csv = Err unicode_error.
Proof.
  apply (read_csv_file_bad_utf8 _ [Ticket; py "Age"] [[py "12,50 " ++ [128%Z]; py "18-24"]]
           [Ticket; py "Age"]).
  - vm_compute. reflexivity.
  - vm_compute. reflexivity.
  - vm_compute. constructor.
  - vm_compute. left. left. reflexivity.
Defined.

(** Such a file stops the run at line 18, before any figure or print. *)
Example main_cp1252 :
  main cp1252_csv (init rc_default true) = (init rc_default true, Err unicode_error).
Proof. vm_compute. reflexivity. Qed.

End Examples.
